(** * Qasab: a conversational PDF splitter

    Shallow embedding of [app.py]: the conversation handlers, the page
    extractor, the size-based delivery decision and the token-gated
    download endpoint, followed by the properties proved about them.

    Conventions of the embedding.
    - A Python [str] is a [string]: the bytes of its UTF-8 encoding.
      [str.strip] and [int] work on the code points these bytes encode; what
      they ask of the Unicode database for the code points from 128 on is
      an interface ([UnicodeData]).  [str.lower] changes the ASCII letters
      only: its results are only compared with the ASCII texts yes,
      confirm, pdf and .pdf, and no character beyond ASCII is lowered to
      ASCII letters alone, but for the Kelvin sign, which is lowered to k.
    - A Python [int] is a [Z]; a value of [time.time()] and every quantity
      computed from one is a [Q] (comparisons of floats are exact, and the
      roundings of float arithmetic are not modelled).
    - [context.user_data] and [file_tokens] are finite maps keyed by
      strings; the file system is a finite map from the paths of regular
      files to their contents.  Byte strings and the PDF library are
      interfaces ([ByteString], [DocumentCodec]), and so are the configured
      public URL and [urlparse] ([Config], [UrlParser]).
    - A handler is a computation over the [World] that may raise; the
      effects performed before an exception stay performed.  What a handler
      reads that is neither in the session nor on disk (the text of the
      message, the answer of a remote server, the clock, a fresh uuid, the
      fate of a progress edit) is an argument of the handler.
    - Messages to the user are recorded in the order they are sent.  A send
      or edit that the source does not guard with a [try] of its own is
      taken to be delivered, except the two error messages that an [except]
      block sends before it cleans up (lines 412 and 703): these and the
      progress edits, which the source guards one by one, take their
      outcome from the environment.

    The definitions come first: the Python primitives, the handlers, the
    notions used to state the properties and a concrete codec to run the
    model on.  The properties follow, and last their instances at concrete
    inputs. *)

From Stdlib Require Import ZArith QArith Lia List Ascii String Bool.
From stdpp Require Import base option list gmap strings pretty fin_maps.
Import ListNotations.

Set Default Proof Using "Type".

(** ** Python string primitives *)

(** The part of the Unicode character database of the interpreter that
    [str.strip] and [int] consult, for the code points from 128 on: is the
    character whitespace, and which decimal digit is it, if any. *)
Class UnicodeData := {
  Py_UNICODE_ISSPACE : Z -> bool;
  Py_UNICODE_TODECIMAL : Z -> option Z;
}.

Module Py.

Local Open Scope Z_scope.

Definition code (c : ascii) : Z := Z.of_N (N_of_ascii c).

(** The payload of a continuation byte of UTF-8. *)
Definition cont (c : ascii) : option Z :=
  if (128 <=? code c) && (code c <? 192) then Some (code c - 128) else None.

(** The code points that the bytes of a string encode, each with its
    bytes.  A byte that does not begin a well-formed sequence (no [str] is
    encoded with one) stands for a lone surrogate, as it does under the
    error handler [surrogateescape]. *)
Fixpoint code_points (s : string) : list (Z * string) :=
  match s with
  | EmptyString => []
  | String b0 r0 =>
      let escaped (_ : unit) := (56320 + code b0, String b0 EmptyString) :: code_points r0 in
      if code b0 <? 128 then (code b0, String b0 EmptyString) :: code_points r0
      else
        match r0 with
        | EmptyString => escaped tt
        | String b1 r1 =>
            match cont b1 with
            | None => escaped tt
            | Some c1 =>
                if (194 <=? code b0) && (code b0 <? 224) then
                  ((code b0 - 192) * 64 + c1, String b0 (String b1 EmptyString))
                    :: code_points r1
                else
                  match r1 with
                  | EmptyString => escaped tt
                  | String b2 r2 =>
                      match cont b2 with
                      | None => escaped tt
                      | Some c2 =>
                          let cp3 := (code b0 - 224) * 4096 + c1 * 64 + c2 in
                          if (224 <=? code b0) && (code b0 <? 240) && (2048 <=? cp3)
                             && negb ((55296 <=? cp3) && (cp3 <? 57344))
                          then
                            (cp3, String b0 (String b1 (String b2 EmptyString)))
                              :: code_points r2
                          else
                            match r2 with
                            | EmptyString => escaped tt
                            | String b3 r3 =>
                                match cont b3 with
                                | None => escaped tt
                                | Some c3 =>
                                    let cp4 := (code b0 - 240) * 262144 + c1 * 4096
                                               + c2 * 64 + c3 in
                                    if (240 <=? code b0) && (code b0 <? 245)
                                       && (65536 <=? cp4) && (cp4 <? 1114112)
                                    then
                                      (cp4, String b0 (String b1 (String b2
                                              (String b3 EmptyString))))
                                        :: code_points r3
                                    else escaped tt
                                end
                            end
                      end
                  end
            end
        end
  end.

(** The bytes of a list of code points. *)
Definition encode (l : list (Z * string)) : string :=
  fold_right (fun c acc => snd c +:+ acc) EmptyString l.

Definition lower_char (c : ascii) : ascii :=
  if (65 <=? code c) && (code c <=? 90)
  then ascii_of_N (N_of_ascii c + 32)
  else c.

(** [s.lower()] *)
Fixpoint lower (s : string) : string :=
  match s with
  | EmptyString => EmptyString
  | String c r => String (lower_char c) (lower r)
  end.

Section Unicode.

Context {ucd : UnicodeData}.

(** [str.isspace] of one character: TAB..CR, FS..US and the space below
    128, and what the database says above. *)
Definition isspace (cp : Z) : bool :=
  if cp <? 128
  then ((9 <=? cp) && (cp <=? 13)) || ((28 <=? cp) && (cp <=? 32))
  else Py_UNICODE_ISSPACE cp.

Fixpoint lstrip_chars (l : list (Z * string)) : list (Z * string) :=
  match l with
  | [] => []
  | c :: r => if isspace (fst c) then lstrip_chars r else l
  end.

Definition rstrip_chars (l : list (Z * string)) : list (Z * string) :=
  rev (lstrip_chars (rev l)).

Definition lstrip (s : string) : string := encode (lstrip_chars (code_points s)).

Definition rstrip (s : string) : string := encode (rstrip_chars (code_points s)).

(** [s.strip()] *)
Definition strip (s : string) : string :=
  encode (rstrip_chars (lstrip_chars (code_points s))).

(** The whitespace that [int] skips around a literal: TAB..CR and the
    space below 128 (FS..US are not among them), and what the database
    says above. *)
Definition int_space (cp : Z) : bool :=
  if cp <? 128
  then ((9 <=? cp) && (cp <=? 13)) || (cp =? 32)
  else Py_UNICODE_ISSPACE cp.

(** The decimal digit that a character stands for in [int]. *)
Definition decimal (cp : Z) : option Z :=
  if cp <? 128
  then if (48 <=? cp) && (cp <=? 57) then Some (cp - 48) else None
  else Py_UNICODE_TODECIMAL cp.

Fixpoint skip_spaces (l : list Z) : list Z :=
  match l with
  | [] => []
  | cp :: r => if int_space cp then skip_spaces r else l
  end.

(** The digits of a decimal literal, where single underscores may separate
    digits; [prev] tells whether the previous character was a digit. *)
Fixpoint int_digits (acc : Z) (prev : bool) (l : list Z) : option Z :=
  match l with
  | [] => if prev then Some acc else None
  | cp :: r =>
      match decimal cp with
      | Some d => int_digits (10 * acc + d) true r
      | None =>
          if cp =? 95 then
            if prev then int_digits acc false r else None
          else None
      end
  end.

(** [int(s)]: the whitespace around the literal is dropped, one sign is
    allowed, then a decimal literal in the digits of any script; [None]
    stands for [ValueError].  The limit that recent versions put on the
    number of digits (4300) is above the length of a message and is not
    modelled. *)
Definition int (s : string) : option Z :=
  let l := fst <$> code_points s in
  let l := rev (skip_spaces (rev (skip_spaces l))) in
  match l with
  | 43 :: r => int_digits 0 false r
  | 45 :: r => Z.opp <$> int_digits 0 false r
  | r => int_digits 0 false r
  end.

End Unicode.

(** [s.startswith(p)] *)
Fixpoint startswith (p s : string) : bool :=
  match p, s with
  | EmptyString, _ => true
  | String a p', String b s' => if Ascii.eqb a b then startswith p' s' else false
  | String _ _, EmptyString => false
  end.

(** [sub in s] *)
Fixpoint contains (sub s : string) : bool :=
  startswith sub s ||
  match s with
  | EmptyString => false
  | String _ r => contains sub r
  end.

(** [s.endswith(p)] *)
Fixpoint endswith (p s : string) : bool :=
  String.eqb p s ||
  match s with
  | EmptyString => false
  | String _ r => endswith p r
  end.

(** [s[n:]] *)
Fixpoint slice_from (n : nat) (s : string) : string :=
  match n, s with
  | O, _ => s
  | S n', String _ r => slice_from n' r
  | S _, EmptyString => EmptyString
  end.

(** [s.split(sep)] for a one-character separator: the pieces between
    the occurrences of [sep], empty pieces included. *)
Fixpoint split (sep : ascii) (s : string) : list string :=
  match s with
  | EmptyString => [EmptyString]
  | String c r =>
      if Ascii.eqb c sep then EmptyString :: split sep r
      else match split sep r with
           | p :: ps => String c p :: ps
           | [] => [String c EmptyString]
           end
  end.

(** [os.path.basename(p)]: what follows the last slash. *)
Fixpoint basename (p : string) : string :=
  match p with
  | EmptyString => EmptyString
  | String c r =>
      if contains "/" r then basename r
      else if Ascii.eqb c "/" then r else p
  end.

(** [os.path.splitext(p)[0]] for a name without directory part: the name up
    to its last dot, where dots that lead the name do not count. *)
Fixpoint splitext_from (seen : bool) (p : string) : string :=
  match p with
  | EmptyString => EmptyString
  | String c r =>
      if Ascii.eqb c "." then
        if seen && negb (contains "." r) then EmptyString
        else String c (splitext_from seen r)
      else String c (splitext_from true r)
  end.

Definition splitext_root (p : string) : string := splitext_from false p.

End Py.

(** ** Values, messages and the world *)

(** The conversation states of the source, with [ConversationHandler.END]. *)
Inductive conv_state :=
  | UPLOAD_PDF | GET_URL | CONFIRM_DOWNLOAD | GET_PAGE_RANGE | SELECT_LOCAL_PDF
  | ConversationHandler_END.

(** What the handlers store in [context.user_data]. *)
Inductive pyval :=
  | VStr (s : string)
  | VInt (n : Z)
  | VPair (a b : Z).

Inductive exn :=
  | ValueError | KeyError | IndexError | TypeError
  | FileNotFoundError | PdfReadError | RequestException | TelegramError.

(** Byte strings ([bytes] objects and file contents), kept abstract: only
    the operations the program uses on them. *)
Class ByteString (bytes : Type) := {
  b_empty : bytes;
  b_app : bytes -> bytes -> bytes;
  b_len : bytes -> Z;
}.

(** The part of PyPDF2 the program uses: [PdfReader(f).pages], which fails
    on a file that is not a PDF, and [PdfWriter.write] of the added pages. *)
Class DocumentCodec (page bytes : Type) := {
  PdfReader_pages : bytes -> option (list page);
  PdfWriter_write : list page -> bytes;
}.

Definition MAX_FILE_SIZE : Z := 50 * 1024 * 1024.
Definition MAX_DOWNLOAD_SIZE : Z := 2 * 1024 * 1024 * 1024.
Definition PDF_STORAGE_DIR : string := "stored_pdfs".
Definition WEB_SERVE_DIR : string := "web_serve".
Definition FILE_EXPIRATION_TIME : Z := 86400.

Inductive button :=
  | CallbackButton (label data : string)
  | UrlButton (label url : string).

(** The texts sent to the user, one constructor per text of the source,
    with the values formatted into it. *)
Inductive msg :=
  (* start, list_local_pdfs *)
  | MsgWelcome | MsgNoStoredPdfs | MsgSelectPdf
  (* button_handler *)
  | MsgPleaseUpload | MsgPleaseSendLink | MsgFileGone | MsgAnalyzingSelected
  | MsgSelected (file_name : string) (num_pages : Z) | MsgErrorSelected
  | MsgIssue | MsgStartingDownload
  | MsgDownloading (downloaded total_size : Z)
  | MsgDownloadComplete | MsgDownloaded (num_pages : Z)
  | MsgDownloadError (e : exn) | MsgCancelled
  (* handle_pdf *)
  | MsgTooLarge | MsgDownloadingUpload | MsgAnalyzingUpload
  | MsgReceived (num_pages : Z) | MsgErrorUpload
  (* handle_url *)
  | MsgInvalidUrl | MsgCheckingUrl | MsgStatusCode (status : Z) | MsgNotPdf
  | MsgFileTooLarge (content_length : Z) | MsgFound (filename : string) (size : option Z)
  | MsgErrorAccessing
  (* process_page_range *)
  | MsgValidating | MsgInvalidFormat | MsgInvalidRange (num_pages : pyval)
  | MsgCreating | MsgProgress (i total_pages : Z) | MsgErrorPage (page : Z)
  | MsgFinalizing | MsgSending | MsgExceedsLimit (output_size : Z)
  | MsgNotConfigured | MsgReady (start_page end_page output_size : Z)
  | MsgWhatNext | MsgErrorProcessing (e : exn)
  | MsgCaption (start_page end_page : Z)
  (* list_stored_pdfs, clear_stored_pdfs, error_handler *)
  | MsgNoneStored | MsgStored (names : list string)
  | MsgClearWarning | MsgNothingToDelete
  | MsgDeleted (deleted_count : Z) | MsgHandlerError (e : exn).

Inductive logmsg :=
  | LogErrorAnalyzing (e : exn) | LogErrorDownloading (e : exn)
  | LogNoProgressEdit | LogErrorHandling (e : exn) | LogErrorCheckingUrl
  | LogNoProgress | LogErrorAddingPage (page : Z)
  | LogGeneratedUrl (url : string) | LogInvalidUrl (url : string)
  | LogErrorProcessing (e : exn)
  | LogErrorDeleting (pdf_file : string) | LogHandlerError (e : exn).

Inductive level := INFO | WARNING | ERROR.

Record token_data := {
  file_path : string;
  filename : string;
  client_ip : option string;
  expire_time : Q;
}.

(** The configuration the program reads at start-up: the configured or
    detected base of the download links. *)
Class Config := {
  PUBLIC_URL : string;
}.

(** The part of [urllib.parse] the program uses: [urlparse(url).path],
    [None] where [urlparse] raises [ValueError]. *)
Class UrlParser := {
  urlparse_path : string -> option string;
}.

Section Bot.

Context {page bytes : Type} {bs : ByteString bytes} {codec : DocumentCodec page bytes}
        {cfg : Config} {urls : UrlParser} {ucd : UnicodeData}.

(** What a handler does to the outside, in order. *)
Inductive event :=
  | answer
  | reply_text (m : msg) (reply_markup : list button)
  | edit_text (m : msg) (reply_markup : list button)
  | reply_document (document : bytes) (doc_name : string) (caption : msg)
  | logged (l : level) (m : logmsg)
  | Timer_start (delay : Z) (pop_token : string).

Record World := {
  user_data : gmap string pyval;
  files : gmap string bytes;
  file_tokens : gmap string token_data;
  trace : list event;
}.

Definition set_user_data (f : gmap string pyval -> gmap string pyval) (w : World) : World :=
  {| user_data := f (user_data w); files := files w;
     file_tokens := file_tokens w; trace := trace w |}.

Definition set_files (f : gmap string bytes -> gmap string bytes) (w : World) : World :=
  {| user_data := user_data w; files := f (files w);
     file_tokens := file_tokens w; trace := trace w |}.

Definition set_file_tokens (f : gmap string token_data -> gmap string token_data)
    (w : World) : World :=
  {| user_data := user_data w; files := files w;
     file_tokens := f (file_tokens w); trace := trace w |}.

(** The world after the events [es] were appended to its trace. *)
Definition emits (es : list event) (w : World) : World :=
  {| user_data := user_data w; files := files w;
     file_tokens := file_tokens w; trace := trace w ++ es |}.

Definition emit (e : event) (w : World) : World := emits [e] w.

(** *** Computations that change the world and may raise *)

Inductive res (A : Type) :=
  | Ok (a : A)
  | Raise (e : exn).
#[global] Arguments Ok {A} a.
#[global] Arguments Raise {A} e.

Definition M (A : Type) : Type := World -> res A * World.

Definition ret {A} (a : A) : M A := fun w => (Ok a, w).

Definition bind {A B} (m : M A) (k : A -> M B) : M B :=
  fun w => match m w with
           | (Ok a, w') => k a w'
           | (Raise e, w') => (Raise e, w')
           end.

Definition raise {A} (e : exn) : M A := fun w => (Raise e, w).

(** [try: body except E as e: handler e], for the exceptions [E] that
    [catches] accepts. *)
Definition try_except_only {A} (catches : exn -> bool) (body : M A)
    (handler : exn -> M A) : M A :=
  fun w => match body w with
           | (Ok a, w') => (Ok a, w')
           | (Raise e, w') => if catches e then handler e w' else (Raise e, w')
           end.

(** [try: body except Exception as e: handler e] *)
Definition try_except {A} (body : M A) (handler : exn -> M A) : M A :=
  fun w => match body w with
           | (Ok a, w') => (Ok a, w')
           | (Raise e, w') => handler e w'
           end.

Definition get_world : M World := fun w => (Ok w, w).
Definition update_world (f : World -> World) : M unit := fun w => (Ok tt, f w).
Definition send (e : event) : M unit := update_world (emit e).

Definition lift_res {A} (r : res A) : M A := fun w => (r, w).

(** A value that is [None] where Python raises [e]. *)
Definition or_raise {A} (e : exn) (o : option A) : M A :=
  match o with Some a => ret a | None => raise e end.

Notation "x <- c ;; k" := (bind c (fun x => k))
  (at level 100, c at next level, right associativity).
Notation "c ;;; k" := (bind c (fun _ => k))
  (at level 100, right associativity).

(** *** Files, session data and small Python idioms *)

(** [os.path.join(a, b)] for two components. *)
Definition os_path_join (a b : string) : string :=
  if Py.startswith "/" b then b
  else if String.eqb a "" || Py.endswith "/" a then a +:+ b
  else a +:+ "/" +:+ b.

Definition os_path_exists (p : string) : M bool :=
  w <- get_world ;; ret (bool_decide (is_Some (files w !! p))).

(** [open(p, 'rb').read()] *)
Definition read_file (p : string) : M bytes :=
  w <- get_world ;; or_raise FileNotFoundError (files w !! p).

(** [open(p, 'wb').write(b)] *)
Definition write_file (p : string) (b : bytes) : M unit :=
  update_world (set_files <[p := b]>).

Definition os_remove (p : string) : M unit :=
  w <- get_world ;;
  match files w !! p with
  | Some _ => update_world (set_files (delete p))
  | None => raise FileNotFoundError
  end.

(** [PdfReader(open(p, 'rb')).pages] *)
Definition PdfReader (p : string) : M (list page) :=
  content <- read_file p ;; or_raise PdfReadError (PdfReader_pages content).

(** [context.user_data[key] = v] *)
Definition user_data_set (key : string) (v : pyval) : M unit :=
  update_world (set_user_data <[key := v]>).

(** [context.user_data.get(key)] *)
Definition user_data_get (key : string) : M (option pyval) :=
  w <- get_world ;; ret (user_data w !! key).

(** [context.user_data[key]] *)
Definition user_data_item (key : string) : M pyval :=
  w <- get_world ;; or_raise KeyError (user_data w !! key).

(** A value used where the program needs a [str]. *)
Definition as_str (v : pyval) : M string :=
  match v with VStr s => ret s | _ => raise TypeError end.

(** [l[k]] with Python's negative indices; [None] stands for [IndexError]. *)
Definition py_index {A} (l : list A) (k : Z) : option A :=
  let n := Z.of_nat (length l) in
  let k' := if (k <? 0)%Z then (n + k)%Z else k in
  if (k' <? 0)%Z || (n <=? k')%Z then None else l !! Z.to_nat k'.

(** [range(a, b)] *)
Definition py_range (a b : Z) : list Z := seqZ a (b - a).

(** [enumerate(l)] *)
Definition enumerate {A} (l : list A) : list (Z * A) :=
  zip (seqZ 0 (Z.of_nat (length l))) l.

(** A [for] loop over [xs] whose body updates the loop's variables [s] and
    may [return]: [inl s] when the loop ran to its end, [inr r] when the
    body returned [r]. *)
Fixpoint for_each {A S R} (xs : list A) (s : S) (body : A -> S -> M (S + R)) : M (S + R) :=
  match xs with
  | [] => ret (inl s)
  | x :: xs' =>
      r <- body x s ;;
      match r with
      | inl s' => for_each xs' s' body
      | inr v => ret (inr v)
      end
  end.

(** ** Token registry and file host *)

(** [generate_download_token]; [token] is the fresh [uuid4()] and [now] the
    value of [time.time()]. *)
Definition generate_download_token (path original_filename : string)
    (ip : option string) (token : string) (now : Q) : M string :=
  update_world (set_file_tokens
    <[token := {| file_path := path; filename := original_filename;
                  client_ip := ip;
                  expire_time := now + inject_Z FILE_EXPIRATION_TIME |}]>) ;;;
  send (Timer_start FILE_EXPIRATION_TIME token) ;;;
  ret token.

(** What the timer started by [generate_download_token] runs:
    [file_tokens.pop(token, None)]. *)
Definition timer_pop (token : string) (w : World) : World :=
  set_file_tokens (delete token) w.

Inductive response :=
  | abort (status : Z)
  | send_file (content : bytes) (as_attachment : bool) (download_name mimetype : string).

(** [download_file], the handler of [GET /download/<token>], at time [now]. *)
Definition download_file (token : string) (now : Q) (w : World) : response :=
  match file_tokens w !! token with
  | None => abort 404
  | Some t =>
      if Qlt_le_dec (expire_time t) now then abort 404
      else match files w !! file_path t with
           | None => abort 404
           | Some content => send_file content true (filename t) "application/pdf"
           end
  end.

(** ** Page-range extraction and delivery *)

(** What [process_page_range] takes from outside the session. *)
Record range_env := {
  message_text : string;           (* update.message.text *)
  temp_name : string;              (* the name of the NamedTemporaryFile *)
  uuid_name : string;              (* uuid4() prefixed to the served copy *)
  uuid_token : string;             (* uuid4() of generate_download_token *)
  time_now : Q;                    (* time.time() at token generation *)
  progress_delivered : Z -> bool;  (* does the progress edit at index i get through *)
  error_edit_delivered : bool;     (* does the edit of line 703 get through *)
}.

(** Lines 546-550: [start-end] or a single page number; [None] stands for
    the [ValueError] of [int] or of the unpacking. *)
Definition parse_page_range (text : string) : option (Z * Z) :=
  if Py.contains "-" text then
    match Py.split "-" text with
    | [a; b] =>
        match Py.int a, Py.int b with
        | Some start_page, Some end_page => Some (start_page, end_page)
        | _, _ => None
        end
    | _ => None
    end
  else
    match Py.int text with
    | Some n => Some (n, n)
    | None => None
    end.

(** [context.user_data.get("num_pages", 0)] *)
Definition recorded_num_pages (w : World) : pyval :=
  default (VInt 0) (user_data w !! "num_pages").

(** [end_page > num_pages] for the stored page count. *)
Definition gt_num_pages (end_page : Z) (num_pages : pyval) : M bool :=
  match num_pages with
  | VInt n => ret (n <? end_page)%Z
  | _ => raise TypeError
  end.

(** Lines 539-565: the range to extract, or the state returned after a
    re-prompt.  [pending_range] is read as the pair its unpacking expects. *)
Definition validate_request (page_range_text : string) : M (Z * Z + conv_state) :=
  w <- get_world ;;
  if String.eqb (Py.lower page_range_text) "yes"
     && bool_decide ("pending_range" ∈ dom (user_data w))
  then
    v <- user_data_item "pending_range" ;;
    match v with
    | VPair start_page end_page =>
        update_world (set_user_data (delete "pending_range")) ;;;
        ret (inl (start_page, end_page))
    | _ => raise TypeError
    end
  else
    match parse_page_range page_range_text with
    | None =>
        send (edit_text MsgInvalidFormat []) ;;;
        ret (inr GET_PAGE_RANGE)
    | Some (start_page, end_page) =>
        let num_pages := recorded_num_pages w in
        too_far <- (if (start_page <? 1)%Z then ret true
                    else gt_num_pages end_page num_pages) ;;
        if too_far || (end_page <? start_page)%Z then
          send (edit_text (MsgInvalidRange num_pages) []) ;;;
          ret (inr GET_PAGE_RANGE)
        else ret (inl (start_page, end_page))
    end.

(** Lines 593-600: the progress edit after the page at index [i]. *)
Definition report_progress (env : range_env) (i total_pages progress_interval : Z) : M unit :=
  if ((i mod progress_interval =? 0) && (0 <? i))%Z then
    try_except
      (if progress_delivered env i
       then send (edit_text (MsgProgress i total_pages) [])
       else raise TelegramError)
      (fun _ => send (logged WARNING LogNoProgress))
  else ret tt.

(** Lines 589-605, the body of the loop: the page is added to the writer,
    progress is reported, and a failure makes the handler return. *)
Definition add_page (env : range_env) (pdf_reader : list page)
    (total_pages progress_interval : Z) (item : Z * Z) (pdf_writer : list page)
    : M (list page + conv_state) :=
  let '(i, page_num) := item in
  try_except
    (p <- or_raise IndexError (py_index pdf_reader page_num) ;;
     let pdf_writer := pdf_writer ++ [p] in
     report_progress env i total_pages progress_interval ;;;
     ret (inl pdf_writer))
    (fun _ =>
       send (logged ERROR (LogErrorAddingPage (page_num + 1))) ;;;
       send (edit_text (MsgErrorPage (page_num + 1)) []) ;;;
       ret (inr GET_PAGE_RANGE)).

(** Lines 578-610: the pages [start_page-1 .. end_page-1] of the input are
    added to a fresh writer and the result is written to [output_pdf_path].
    [Some s] when the body returned state [s]. *)
Definition extract (env : range_env) (input_pdf_path output_pdf_path : string)
    (start_page end_page : Z) : M (option conv_state) :=
  let total_pages := (end_page - start_page + 1)%Z in
  let progress_interval := Z.max 1 (total_pages / 10) in
  pdf_reader <- PdfReader input_pdf_path ;;
  r <- for_each (enumerate (py_range (start_page - 1) end_page)) []
         (add_page env pdf_reader total_pages progress_interval) ;;
  match r with
  | inr s => ret (Some s)
  | inl pdf_writer =>
      send (edit_text MsgFinalizing []) ;;;
      write_file output_pdf_path (PdfWriter_write pdf_writer) ;;;
      ret None
  end.

Definition MiB : Z := 1024 * 1024.

(** Lines 613-614: the name the output is sent or served under. *)
Definition output_name (input_pdf_path : string) (start_page end_page : Z) : string :=
  let original_filename := Py.basename input_pdf_path in
  Py.splitext_root original_filename +:+ "_pages_" +:+ pretty start_page
    +:+ "_to_" +:+ pretty end_page +:+ ".pdf".

(** Line 660: a link that Telegram would not accept. *)
Definition is_loopback (download_url : string) : bool :=
  Py.contains "localhost" download_url || Py.contains "127.0.0.1" download_url.

(** Lines 612-679: the output goes out as a document when it fits, else a
    copy is served under a token.  [Some s] when the body returned [s]. *)
Definition deliver (env : range_env) (input_pdf_path output_pdf_path : string)
    (start_page end_page : Z) : M (option conv_state) :=
  let output_filename := output_name input_pdf_path start_page end_page in
  output <- read_file output_pdf_path ;;
  let output_size := b_len output in
  if (output_size <=? MAX_FILE_SIZE)%Z then
    send (edit_text MsgSending []) ;;;
    send (reply_document output output_filename (MsgCaption start_page end_page)) ;;;
    ret None
  else
    send (edit_text (MsgExceedsLimit (output_size / MiB)) []) ;;;
    let unique_filename := uuid_name env +:+ "_" +:+ output_filename in
    let web_serve_path := os_path_join WEB_SERVE_DIR unique_filename in
    src <- read_file output_pdf_path ;;
    write_file web_serve_path src ;;;
    token <- generate_download_token web_serve_path output_filename None
               (uuid_token env) (time_now env) ;;
    let download_url := PUBLIC_URL +:+ "/download/" +:+ token in
    send (logged INFO (LogGeneratedUrl download_url)) ;;;
    if is_loopback download_url then
      send (logged ERROR (LogInvalidUrl download_url)) ;;;
      send (edit_text MsgNotConfigured []) ;;;
      ret (Some UPLOAD_PDF)
    else
      send (reply_text (MsgReady start_page end_page (output_size / MiB))
              [UrlButton "Download PDF" download_url]) ;;;
      ret None.

(** Lines 567-713.  The message that the [except] block of line 701 sends
    is not guarded: when it is not delivered the block raises, and what it
    would do next is not done. *)
Definition split_and_send (env : range_env) (start_page end_page : Z) : M conv_state :=
  send (edit_text MsgCreating []) ;;;
  v <- user_data_item "pdf_path" ;;
  let output_pdf_path := temp_name env in
  try_except
    (write_file output_pdf_path b_empty ;;;
     input_pdf_path <- as_str v ;;
     r <- extract env input_pdf_path output_pdf_path start_page end_page ;;
     match r with
     | Some s => ret s
     | None =>
         r <- deliver env input_pdf_path output_pdf_path start_page end_page ;;
         match r with
         | Some s => ret s
         | None =>
             try_except (os_remove output_pdf_path)
               (fun e => send (logged ERROR (LogErrorProcessing e))) ;;;
             send (reply_text MsgWhatNext
                     [CallbackButton "Split another PDF" "back_to_start";
                      CallbackButton "Use same PDF"
                        ("select_pdf:" +:+ Py.basename input_pdf_path);
                      CallbackButton "Exit" "cancel_download"]) ;;;
             ret UPLOAD_PDF
         end
     end)
    (fun e =>
       send (logged ERROR (LogErrorProcessing e)) ;;;
       (if error_edit_delivered env then send (edit_text (MsgErrorProcessing e) [])
        else raise TelegramError) ;;;
       present <- os_path_exists output_pdf_path ;;
       (if present then try_except (os_remove output_pdf_path) (fun _ => ret tt)
        else ret tt) ;;;
       ret UPLOAD_PDF).

Definition process_page_range (env : range_env) : M conv_state :=
  let page_range_text := Py.strip (message_text env) in
  send (reply_text MsgValidating []) ;;;
  r <- validate_request page_range_text ;;
  match r with
  | inr s => ret s
  | inl (start_page, end_page) => split_and_send env start_page end_page
  end.

(** ** Acquisition: URL *)

(** The double quote character. *)
Definition dquote : ascii := ascii_of_N 34.

(** Group 1 of the first match of the pattern of line 511, which is the
    word filename and an equals sign, an optional double quote, a captured
    run of characters other than the double quote, and an optional double
    quote: at the first occurrence of [filename=], one quote is skipped if
    there is one and the characters up to the next quote are taken. *)
Fixpoint upto_quote (s : string) : string :=
  match s with
  | EmptyString => EmptyString
  | String c r => if Ascii.eqb c dquote then EmptyString else String c (upto_quote r)
  end.

Definition after_filename (s : string) : string :=
  let r := Py.slice_from 9 s in
  match r with
  | String c r' => if Ascii.eqb c dquote then upto_quote r' else upto_quote r
  | EmptyString => EmptyString
  end.

Fixpoint filename_match (s : string) : option string :=
  if Py.startswith "filename=" s then Some (after_filename s)
  else match s with
       | EmptyString => None
       | String _ r => filename_match r
       end.

Definition get_filename_from_url (url : string) (content_disposition : option string)
    : res string :=
  let from_header :=
    match content_disposition with
    | Some cd => if String.eqb cd "" then None else filename_match cd
    | None => None
    end in
  match from_header with
  | Some name => Ok name
  | None =>
      match urlparse_path url with
      | None => Raise ValueError
      | Some path =>
          let filename := Py.basename path in
          if String.eqb filename "" then Ok "document.pdf"
          else if negb (Py.endswith ".pdf" (Py.lower filename))
               then Ok (filename +:+ ".pdf")
               else Ok filename
      end
  end.

Record head_response := {
  status_code : Z;
  content_type : option string;
  content_length : option string;
  content_disposition : option string;
}.

(** What [handle_url] takes from outside: the text, and the answer to the
    HEAD request, [None] when [requests.head] raises. *)
Record url_env := {
  url_text : string;
  head : option head_response;
}.

Definition is_RequestException (e : exn) : bool :=
  match e with RequestException => true | _ => false end.

Definition confirm_keyboard : list button :=
  [CallbackButton "Yes, download it" "confirm_download";
   CallbackButton "No, cancel" "cancel_download"].

Definition handle_url (env : url_env) : M conv_state :=
  let url := Py.strip (url_text env) in
  if negb (Py.startswith "http://" url || Py.startswith "https://" url) then
    send (reply_text MsgInvalidUrl []) ;;;
    ret GET_URL
  else
    parsed_path <- or_raise ValueError (urlparse_path url) ;;
    let path := Py.lower parsed_path in
    user_data_set "download_url" (VStr url) ;;;
    send (reply_text MsgCheckingUrl []) ;;;
    try_except_only is_RequestException
      (response <- or_raise RequestException (head env) ;;
       if negb (status_code response =? 200)%Z then
         send (edit_text (MsgStatusCode (status_code response)) []) ;;;
         ret GET_URL
       else
         let ctype := Py.lower (default "" (content_type response)) in
         if negb (String.eqb ctype "") && negb (Py.contains "pdf" ctype)
            && negb (Py.endswith ".pdf" path) then
           send (edit_text MsgNotPdf []) ;;;
           ret GET_URL
         else
           size <- match content_length response with
                   | None => ret None
                   | Some l => if String.eqb l "" then ret None
                               else n <- or_raise ValueError (Py.int l) ;; ret (Some n)
                   end ;;
           if match size with Some n => (MAX_DOWNLOAD_SIZE <? n)%Z | None => false end then
             send (edit_text (MsgFileTooLarge (default 0%Z size / MiB)) []) ;;;
             ret GET_URL
           else
             let file_size_info := (fun n => (n / MiB)%Z) <$> size in
             name <- lift_res (get_filename_from_url url (content_disposition response)) ;;
             user_data_set "file_name" (VStr name) ;;;
             send (edit_text (MsgFound name file_size_info) confirm_keyboard) ;;;
             ret CONFIRM_DOWNLOAD)
      (fun _ =>
         send (logged ERROR LogErrorCheckingUrl) ;;;
         send (edit_text MsgErrorAccessing []) ;;;
         ret GET_URL).

(** ** Entry, stored documents and buttons *)

Definition start_keyboard : list button :=
  [CallbackButton "Upload PDF" "upload";
   CallbackButton "Provide URL" "url";
   CallbackButton "Select from stored PDFs" "local"].

(** [start]; [has_message] tells whether the update carries a message (the
    /start command) or a callback query. *)
Definition start (has_message : bool) : M conv_state :=
  (if has_message then send (reply_text MsgWelcome start_keyboard)
   else send (edit_text MsgWelcome start_keyboard)) ;;;
  ret UPLOAD_PDF.

(** The paths that [glob.glob("stored_pdfs/*.pdf")] matches: directly in
    the storage directory, not hidden, ending in [.pdf]. *)
Definition is_stored_pdf (path : string) : bool :=
  Py.startswith "stored_pdfs/" path &&
  (let name := Py.slice_from 12 path in
   negb (Py.contains "/" name) && negb (Py.startswith "." name)
   && Py.endswith ".pdf" name).

(** The result of the glob, in the order in which the map lists its keys
    (the order of a directory listing is not specified either). *)
Definition glob_stored_pdfs (w : World) : list string :=
  filter (fun p => is_stored_pdf p = true) (fst <$> map_to_list (files w)).

(** [list_local_pdfs]; the size shown on a button is left out of its label. *)
Definition list_local_pdfs (has_query has_message : bool) : M conv_state :=
  (if has_query then send answer else ret tt) ;;;
  w <- get_world ;;
  let pdf_files := glob_stored_pdfs w in
  match pdf_files with
  | [] =>
      let keyboard := [CallbackButton "Upload PDF" "upload";
                       CallbackButton "Provide URL" "url"] in
      (if has_query then send (edit_text MsgNoStoredPdfs keyboard)
       else if has_message then send (reply_text MsgNoStoredPdfs keyboard)
       else ret tt) ;;;
      ret UPLOAD_PDF
  | _ =>
      let keyboard :=
        (fun pdf_path => let file_name := Py.basename pdf_path in
                         CallbackButton file_name ("select_pdf:" +:+ file_name))
          <$> take 10 pdf_files in
      let keyboard := keyboard ++ [CallbackButton "Back" "back_to_start"] in
      (if has_query then send (edit_text MsgSelectPdf keyboard)
       else if has_message then send (reply_text MsgSelectPdf keyboard)
       else ret tt) ;;;
      ret SELECT_LOCAL_PDF
  end.

(** One chunk of the streamed body, with the value of [time.time()] read
    after it was written. *)
Record chunk := {
  chunk_bytes : bytes;
  chunk_clock : Q;
}.

(** The answer to the streaming GET request. *)
Record get_response := {
  raise_for_status_ok : bool;
  get_content_length : option string;
  iter_content : list chunk;
  stream_breaks : bool;            (* the stream raises after these chunks *)
}.

(** What [button_handler] takes from outside: the button pressed and, for
    a confirmed download, the GET request ([None] when it raises), the
    clock at its start and the fate of each progress edit, by the number
    of bytes it reports. *)
Record button_env := {
  query_data : string;
  get : option get_response;
  start_clock : Q;
  download_progress_delivered : Z -> bool;
}.

Definition Qltb (a b : Q) : bool := negb (Qle_bool b a).

(** Lines 311-313: is the progress message updated after this chunk. *)
Definition update_due (total_size downloaded last_update_time : Z)
    (current_time start_time : Q) : bool :=
  (0 <? total_size)%Z &&
  (Qltb (5 # 100)
        (inject_Z downloaded / inject_Z total_size
         - inject_Z last_update_time / inject_Z total_size)
   || Qltb 10 (current_time - start_time - inject_Z last_update_time)).

(** Lines 303-324: the chunks are appended to the file; the loop's
    variables are [downloaded] and [last_update_time]. *)
Definition download_chunks (env : button_env) (pdf_path : string) (total_size : Z)
    (chunks : list chunk) : M (Z * Z + conv_state) :=
  for_each chunks (0%Z, 0%Z)
    (fun c '(downloaded, last_update_time) =>
       if (b_len (chunk_bytes c) =? 0)%Z then ret (inl (downloaded, last_update_time))
       else
         so_far <- read_file pdf_path ;;
         write_file pdf_path (b_app so_far (chunk_bytes c)) ;;;
         let downloaded := (downloaded + b_len (chunk_bytes c))%Z in
         let current_time := chunk_clock c in
         if update_due total_size downloaded last_update_time current_time (start_clock env)
         then
           let last_update_time := downloaded in
           try_except
             (if download_progress_delivered env downloaded
              then send (edit_text (MsgDownloading downloaded total_size) [])
              else raise TelegramError)
             (fun _ => send (logged WARNING LogNoProgressEdit)) ;;;
           ret (inl (downloaded, last_update_time))
         else ret (inl (downloaded, last_update_time))).

(** [not v] for a value read with [user_data.get]. *)
Definition falsy (v : option pyval) : bool :=
  match v with
  | None => true
  | Some (VStr s) => String.eqb s ""
  | Some (VInt n) => (n =? 0)%Z
  | Some (VPair _ _) => false
  end.

(** Lines 277-349. *)
Definition confirm_download (env : button_env) : M conv_state :=
  url <- user_data_get "download_url" ;;
  if falsy url then
    send (edit_text MsgIssue []) ;;;
    ret ConversationHandler_END
  else
    send (edit_text MsgStartingDownload []) ;;;
    try_except
      (v <- user_data_get "file_name" ;;
       filename <- as_str (default (VStr "downloaded.pdf") v) ;;
       let safe_filename := Py.basename filename in
       let pdf_path := os_path_join PDF_STORAGE_DIR safe_filename in
       response <- or_raise RequestException (get env) ;;
       (if raise_for_status_ok response then ret tt else raise RequestException) ;;;
       total_size <- match get_content_length response with
                     | None => ret 0%Z
                     | Some l => or_raise ValueError (Py.int l)
                     end ;;
       write_file pdf_path b_empty ;;;
       download_chunks env pdf_path total_size (iter_content response) ;;;
       (if stream_breaks response then raise RequestException else ret tt) ;;;
       send (edit_text MsgDownloadComplete []) ;;;
       pages <- PdfReader pdf_path ;;
       let num_pages := Z.of_nat (length pages) in
       user_data_set "num_pages" (VInt num_pages) ;;;
       user_data_set "pdf_path" (VStr pdf_path) ;;;
       send (edit_text (MsgDownloaded num_pages) []) ;;;
       ret GET_PAGE_RANGE)
      (fun e =>
         send (logged ERROR (LogErrorDownloading e)) ;;;
         send (edit_text (MsgDownloadError e) []) ;;;
         ret ConversationHandler_END).

(** Lines 236-276. *)
Definition select_pdf (data : string) : M conv_state :=
  let file_name := Py.slice_from 11 data in
  let path := os_path_join PDF_STORAGE_DIR file_name in
  present <- os_path_exists path ;;
  if negb present then
    send (edit_text MsgFileGone
            [CallbackButton "Back to stored PDFs" "local";
             CallbackButton "Back to start" "back_to_start"]) ;;;
    ret UPLOAD_PDF
  else
    user_data_set "pdf_path" (VStr path) ;;;
    send (edit_text MsgAnalyzingSelected []) ;;;
    try_except
      (pages <- PdfReader path ;;
       let num_pages := Z.of_nat (length pages) in
       user_data_set "num_pages" (VInt num_pages) ;;;
       send (edit_text (MsgSelected file_name num_pages) []) ;;;
       ret GET_PAGE_RANGE)
      (fun e =>
         send (logged ERROR (LogErrorAnalyzing e)) ;;;
         send (edit_text MsgErrorSelected []) ;;;
         list_local_pdfs true false).

Definition button_handler (env : button_env) : M conv_state :=
  let data := query_data env in
  send answer ;;;
  if String.eqb data "upload" then
    send (edit_text MsgPleaseUpload []) ;;; ret UPLOAD_PDF
  else if String.eqb data "url" then
    send (edit_text MsgPleaseSendLink []) ;;; ret GET_URL
  else if String.eqb data "local" then list_local_pdfs true false
  else if String.eqb data "back_to_start" then start false
  else if Py.startswith "select_pdf:" data then select_pdf data
  else if String.eqb data "confirm_download" then confirm_download env
  else if String.eqb data "cancel_download" then
    send (edit_text MsgCancelled []) ;;; ret ConversationHandler_END
  else ret UPLOAD_PDF.

(** ** Acquisition: upload *)

(** How [download_to_drive] ends: the file is saved, or the transfer fails
    and leaves nothing or a partial file behind. *)
Inductive drive_result :=
  | Saved (content : bytes)
  | Interrupted (partial : option bytes).

(** What [handle_pdf] takes from outside: the document's declared size and
    name, the sender, and how fetching it goes. *)
Record upload_env := {
  file_size : Z;
  file_name : option string;
  user_id : Z;
  get_file_ok : bool;
  download_to_drive : drive_result;
  error_edit_ok : bool;            (* does the edit of line 412 get through *)
}.

(** Lines 410-421; [pdf_path] is [None] while the local variable of that
    name is not yet bound.  The message is not guarded: when it is not
    delivered the block raises before it removes anything. *)
Definition upload_failed (env : upload_env) (pdf_path : option string) (e : exn)
    : M conv_state :=
  send (logged ERROR (LogErrorHandling e)) ;;;
  (if error_edit_ok env then send (edit_text MsgErrorUpload [])
   else raise TelegramError) ;;;
  match pdf_path with
  | Some p =>
      present <- os_path_exists p ;;
      if present then try_except (os_remove p) (fun _ => ret tt) else ret tt
  | None => ret tt
  end ;;;
  ret UPLOAD_PDF.

(** Lines 384-386: where the upload is stored. *)
Definition upload_path (env : upload_env) : string :=
  let name := match file_name env with
              | Some n => if String.eqb n "" then None else Some n
              | None => None
              end in
  let name := default ("telegram_" +:+ pretty (user_id env) +:+ ".pdf") name in
  let safe_filename := Py.basename name in
  os_path_join PDF_STORAGE_DIR safe_filename.

(** [handle_pdf].  The one [try] of the source is split where [pdf_path]
    gets bound, so that its handler knows whether the name is defined. *)
Definition handle_pdf (env : upload_env) : M conv_state :=
  if (MAX_FILE_SIZE <? file_size env)%Z then
    send (reply_text MsgTooLarge
            [CallbackButton "Provide URL Instead" "url";
             CallbackButton "Try Another File" "upload"]) ;;;
    ret UPLOAD_PDF
  else
    send (reply_text MsgDownloadingUpload []) ;;;
    r <- try_except
           ((if get_file_ok env then ret tt else raise TelegramError) ;;;
            ret None)
           (fun e => s <- upload_failed env None e ;; ret (Some s)) ;;
    match r with
    | Some s => ret s
    | None =>
        let pdf_path := upload_path env in
        try_except
          (match download_to_drive env with
           | Saved content => write_file pdf_path content
           | Interrupted partial =>
               match partial with
               | Some content => write_file pdf_path content
               | None => ret tt
               end ;;;
               raise TelegramError
           end ;;;
           send (edit_text MsgAnalyzingUpload []) ;;;
           user_data_set "pdf_path" (VStr pdf_path) ;;;
           pages <- PdfReader pdf_path ;;
           let num_pages := Z.of_nat (length pages) in
           user_data_set "num_pages" (VInt num_pages) ;;;
           send (edit_text (MsgReceived num_pages) []) ;;;
           ret GET_PAGE_RANGE)
          (upload_failed env (Some pdf_path))
    end.

Definition cancel : M conv_state :=
  send (reply_text MsgCancelled []) ;;;
  ret ConversationHandler_END.

(** ** Storage commands, errors and timers *)

(** [list_stored_pdfs]; the sizes are left out of the list. *)
Definition list_stored_pdfs : M unit :=
  w <- get_world ;;
  match glob_stored_pdfs w with
  | [] => send (reply_text MsgNoneStored [])
  | pdf_files => send (reply_text (MsgStored (Py.basename <$> pdf_files)) [])
  end.

(** [clear_stored_pdfs], called with the arguments of the command. *)
Definition clear_stored_pdfs (args : list string) : M unit :=
  match args with
  | confirm :: _ =>
      if String.eqb (Py.lower confirm) "confirm" then
        w <- get_world ;;
        match glob_stored_pdfs w with
        | [] => send (reply_text MsgNothingToDelete [])
        | pdf_files =>
            r <- for_each pdf_files 0%Z
                   (fun pdf_file deleted_count =>
                      try_except
                        (os_remove pdf_file ;;; ret (inl (deleted_count + 1)%Z))
                        (fun e => send (logged ERROR (LogErrorDeleting pdf_file)) ;;;
                                  ret (inl deleted_count))) ;;
            match r with
            | inl deleted_count => send (reply_text (MsgDeleted deleted_count) [])
            | inr s => ret (s : unit)
            end
        end
      else send (reply_text MsgClearWarning [])
  | [] => send (reply_text MsgClearWarning [])
  end.

(** [error_handler], which the library calls when a handler raised [e];
    which of its three texts is sent depends on the text of the error. *)
Definition error_handler (e : exn) : M unit :=
  send (logged ERROR (LogHandlerError e)) ;;;
  send (reply_text (MsgHandlerError e) []).

(** ** The session as a sequence of updates *)

(** The updates the handlers registered in [main] react to, and the timer
    of a token going off. *)
Inductive update :=
  | start_command
  | cancel_command
  | callback_query (env : button_env)
  | document_message (env : upload_env)
  | url_message (env : url_env)
  | range_message (env : range_env)
  | list_pdfs_command
  | clear_pdfs_command (args : list string)
  | timer_fired (token : string).

(** The handler that takes the update; [None] is returned outside the
    conversation. *)
Definition handle (u : update) : M (option conv_state) :=
  match u with
  | start_command => s <- start true ;; ret (Some s)
  | cancel_command => s <- cancel ;; ret (Some s)
  | callback_query env => s <- button_handler env ;; ret (Some s)
  | document_message env => s <- handle_pdf env ;; ret (Some s)
  | url_message env => s <- handle_url env ;; ret (Some s)
  | range_message env => s <- process_page_range env ;; ret (Some s)
  | list_pdfs_command => list_stored_pdfs ;;; ret None
  | clear_pdfs_command args => clear_stored_pdfs args ;;; ret None
  | timer_fired token => update_world (timer_pop token) ;;; ret None
  end.

(** An update is handled, and the error handler runs if that raises. *)
Definition on_update (u : update) : M unit :=
  try_except (handle u ;;; ret tt) error_handler.

(** The world after the updates [us], one after the other. *)
Definition run (us : list update) (w : World) : World :=
  fold_left (fun w u => snd (on_update u w)) us w.

(** The session data of a user the bot has not heard of yet. *)
Definition fresh_session (w : World) : Prop := user_data w = ∅.

(** ** The hourly sweep of the serve directory *)

(** What [cleanup_expired_files] logs and schedules, in order. *)
Inductive sweep_event :=
  | RemovedExpired (filename : string)
  | ErrorRemoving (filename : string) (e : exn)
  | NextCleanup (delay : Z).

(** [p] names a file directly in the directory [dir]. *)
Definition directly_in (dir p : string) : bool :=
  Py.startswith (dir +:+ "/") p
  && negb (Py.contains "/" (Py.slice_from (String.length dir + 1) p)).

(** The names of [os.listdir(dir)] for which [os.path.isfile] holds, in the
    order in which the map lists its keys.  The other names of the listing
    are directories, which the sweep skips. *)
Definition listdir_files (dir : string) (w : World) : list string :=
  Py.slice_from (String.length dir + 1)
    <$> filter (fun p => directly_in dir p = true) (fst <$> map_to_list (files w)).

(** [cleanup_expired_files] at time [current_time]; [getmtime] gives the
    modification time of a file.  The result is what was logged, followed
    by the timer started for the next sweep. *)
Definition cleanup_expired_files (getmtime : string -> Q) (current_time : Q)
    : M (list sweep_event) :=
  w <- get_world ;;
  r <- for_each (listdir_files WEB_SERVE_DIR w) []
         (fun filename log =>
            let file_path := os_path_join WEB_SERVE_DIR filename in
            if Qltb (getmtime file_path + inject_Z FILE_EXPIRATION_TIME) current_time
            then
              try_except
                (os_remove file_path ;;;
                 ret (inl (log ++ [RemovedExpired filename])))
                (fun e => ret (inl (log ++ [ErrorRemoving filename e])))
            else ret (inl log)) ;;
  match r with
  | inl log => ret (log ++ [NextCleanup 3600])
  | inr log => ret log
  end.

(** ** Start-up: the base of the download links *)

Definition SERVER_PORT : Z := 8000.

(** What [get_public_ip] takes from outside: the answer of the instance
    metadata service (status and text) and the answer of ipify (text), each
    [None] when the request raises. *)
Record ip_services := {
  aws_metadata : option (Z * string);
  ipify : option string;
}.

Inductive startup_log :=
  | LogNoPublicIp
  | LogAutoDetected (url : string)
  | LogNotDetected (url : string)
  | LogConfigured (url : string).

(** [get_public_ip]: the detected address, and what was logged. *)
Definition get_public_ip (s : ip_services) : option string * list (level * startup_log) :=
  match aws_metadata s with
  | None => (None, [(WARNING, LogNoPublicIp)])
  | Some (status, text) =>
      if (status =? 200)%Z then (Some text, [])
      else match ipify s with
           | Some text => (Some text, [])
           | None => (None, [(WARNING, LogNoPublicIp)])
           end
  end.

(** Lines 61-74: the value of [PUBLIC_URL] for the environment variable of
    that name ([None] when it is not set), and what was logged. *)
Definition configure_public_url (public_url_env : option string) (s : ip_services)
    : string * list (level * startup_log) :=
  let unset := match public_url_env with
               | None => true
               | Some u => String.eqb u ""
               end in
  let configured := default "" public_url_env in
  if unset || Py.startswith "http://localhost" configured
     || Py.startswith "http://127.0.0.1" configured
  then
    let '(public_ip, log) := get_public_ip s in
    if match public_ip with Some ip => negb (String.eqb ip "") | None => false end
    then
      let url := "http://" +:+ default "" public_ip +:+ ":" +:+ pretty SERVER_PORT in
      (url, log ++ [(INFO, LogAutoDetected url)])
    else
      let url := if unset then "http://localhost:" +:+ pretty SERVER_PORT
                 else configured in
      (url, log ++ [(WARNING, LogNotDetected url)])
  else (configured, [(INFO, LogConfigured configured)]).

(** The configuration the handlers run with after that start-up. *)
Definition startup_config (public_url_env : option string) (s : ip_services) : Config :=
  {| PUBLIC_URL := fst (configure_public_url public_url_env s) |}.

(** ** Notions the properties are stated with *)

(** [m] keeps the property [I] of [context.user_data]: if it holds before
    [m] runs it holds after, whether [m] returns or raises. *)
Definition keeps (I : gmap string pyval -> Prop) {A} (m : M A) : Prop :=
  forall w, I (user_data w) -> I (user_data (snd (m w))).

(** The bounds check of line 560. *)
Definition out_of_bounds (start_page end_page num_pages : Z) : Prop :=
  (start_page > end_page \/ start_page < 1 \/ end_page > num_pages)%Z.

(** The pages of a valid range: [pages[start_page-1 : end_page]]. *)
Definition selected (pages : list page) (start_page end_page : Z) : list page :=
  take (Z.to_nat (end_page - start_page + 1)) (drop (Z.to_nat (start_page - 1)) pages).

(** The served copy and its registry entry, as [deliver] leaves them. *)
Definition served_path (env : range_env) (input : string) (start_page end_page : Z) : string :=
  os_path_join WEB_SERVE_DIR
    (uuid_name env +:+ "_" +:+ output_name input start_page end_page).

Definition served_token (env : range_env) (input : string) (start_page end_page : Z)
    : token_data :=
  {| file_path := served_path env input start_page end_page;
     filename := output_name input start_page end_page;
     client_ip := None;
     expire_time := time_now env + inject_Z FILE_EXPIRATION_TIME |}.

Definition served (env : range_env) (input : string) (start_page end_page : Z)
    (output : bytes) (w : World) : World :=
  set_file_tokens <[uuid_token env := served_token env input start_page end_page]>
    (set_files <[served_path env input start_page end_page := output]> w).

Definition link (env : range_env) : string :=
  PUBLIC_URL +:+ "/download/" +:+ uuid_token env.

(** A string without double quote, followed by nothing or by a double
    quote, is what [upto_quote] takes. *)
Definition closes (rest : string) : Prop :=
  rest = "" \/ exists r, rest = String dquote r.

Definition unquoted (name : string) : Prop :=
  Py.contains (String dquote "") name = false.

(** The name derived from the path of the URL, lines 516-528. *)
Definition name_from_path (path : string) : string :=
  let base := Py.basename path in
  if String.eqb base "" then "document.pdf"
  else if Py.endswith ".pdf" (Py.lower base) then base
  else base +:+ ".pdf".

(** What every handler keeps true: no range is pending, and a recorded
    page count is an integer. *)
Definition session_ok (ud : gmap string pyval) : Prop :=
  ud !! "pending_range" = None
  /\ forall v, ud !! "num_pages" = Some v -> exists n, v = VInt n.

(** [m] keeps the property [J] of the world, whether it returns or raises. *)
Definition preserves (J : World -> Prop) {A} (m : M A) : Prop :=
  forall w, J w -> J (snd (m w)).

(** A document is on record: [pdf_path] names a file that reads as a PDF,
    and [num_pages] is the number of its pages. *)
Definition document_recorded (w : World) : Prop :=
  exists (p : string) (content : bytes) (pages : list page),
    user_data w !! "pdf_path" = Some (VStr p)
    /\ files w !! p = Some content
    /\ PdfReader_pages content = Some pages
    /\ user_data w !! "num_pages" = Some (VInt (Z.of_nat (length pages))).

(** What the handlers keep true of the session data: no range is pending,
    the values have the types their readers expect, a link on record
    starts with http:// or https://, and a page count is on record only
    together with a path. *)
Definition session_typed (ud : gmap string pyval) : Prop :=
  ud !! "pending_range" = None
  /\ (forall v, ud !! "pdf_path" = Some v -> exists p, v = VStr p)
  /\ (forall v, ud !! "num_pages" = Some v ->
        (exists n, v = VInt n /\ (0 <= n)%Z) /\ is_Some (ud !! "pdf_path"))
  /\ (forall v, ud !! "download_url" = Some v ->
        exists url, v = VStr url
          /\ Py.startswith "http://" url || Py.startswith "https://" url = true)
  /\ (forall v, ud !! "file_name" = Some v -> exists name, v = VStr name).

(** Every value that [m] returns satisfies [P]. *)
Definition returns_in {A} (P : A -> Prop) (m : M A) : Prop :=
  forall w a w', m w = (Ok a, w') -> P a.

(** Where [confirm_download] stores the file, lines 289-291. *)
Definition download_target (w : World) : string :=
  os_path_join PDF_STORAGE_DIR
    (Py.basename match user_data w !! "file_name" with
                 | Some (VStr name) => name
                 | _ => "downloaded.pdf"
                 end).

(** The content of a file to which the non-empty chunks were appended, in
    the order of their arrival. *)
Fixpoint written (content : bytes) (chunks : list chunk) : bytes :=
  match chunks with
  | [] => content
  | c :: cs =>
      written (if (b_len (chunk_bytes c) =? 0)%Z then content
               else b_app content (chunk_bytes c)) cs
  end.

(** The checks a link passed when the user is asked to confirm. *)
Definition link_accepted (url : string) (response : head_response) : Prop :=
  Py.startswith "http://" url || Py.startswith "https://" url = true
  /\ status_code response = 200%Z
  /\ (exists path,
        urlparse_path url = Some path
        /\ let ctype := Py.lower (default "" (content_type response)) in
           String.eqb ctype "" || Py.contains "pdf" ctype
           || Py.endswith ".pdf" (Py.lower path) = true)
  /\ match content_length response with
     | Some l => l = "" \/ exists n, Py.int l = Some n /\ (n <= MAX_DOWNLOAD_SIZE)%Z
     | None => True
     end.

(** The files that a sweep at [current_time] leaves. *)
Definition swept (getmtime : string -> Q) (current_time : Q) (w : World)
    : gmap string bytes :=
  foldl (fun m n =>
           if Qltb (getmtime (os_path_join WEB_SERVE_DIR n)
                    + inject_Z FILE_EXPIRATION_TIME) current_time
           then delete (os_path_join WEB_SERVE_DIR n) m else m)
    (files w) (listdir_files WEB_SERVE_DIR w).

(** Does [/clear_pdfs] with these arguments go on to delete. *)
Definition clear_confirmed (args : list string) : bool :=
  match args with
  | confirm :: _ => String.eqb (Py.lower confirm) "confirm"
  | [] => false
  end.

(** ** Progress reports *)

(** The progress edits of an extraction, delivered or not. *)
Definition is_progress (e : event) : bool :=
  match e with
  | edit_text (MsgProgress _ _) _ => true
  | logged WARNING LogNoProgress => true
  | _ => false
  end.

(** The delivered progress edits of a download. *)
Definition is_downloading (e : event) : bool :=
  match e with
  | edit_text (MsgDownloading _ _) _ => true
  | _ => false
  end.

(** The progress edits of a download, delivered or not. *)
Definition download_report (e : event) : Prop :=
  is_downloading e = true \/ e = logged WARNING LogNoProgressEdit.

(** How the handler of a page range may end: with one of two states, or
    with the error of the message of line 703, which its [except] block
    could not send. *)
Definition range_outcome (env : range_env) (r : res conv_state) : Prop :=
  match r with
  | Ok st => st = GET_PAGE_RANGE \/ st = UPLOAD_PDF
  | Raise x => x = TelegramError /\ error_edit_delivered env = false
  end.

End Bot.

(** ** A concrete codec to run the model on

    A file is the list of its pages, a page is a positive number, and every
    page weighs 30 MiB, so that two pages already exceed the inline limit.
    A file that holds a 0 is not a PDF. *)
Module Sample.

Definition page := nat.
Definition bytes := list nat.

#[export] Instance sample_bytes : ByteString bytes := {|
  b_empty := [];
  b_app := fun a b => a ++ b;
  b_len := fun b => (30 * MiB * Z.of_nat (length b))%Z;
|}.

#[export] Instance sample_codec : DocumentCodec page bytes := {|
  PdfReader_pages := fun b => if existsb (Nat.eqb 0) b then None else Some b;
  PdfWriter_write := fun ps => ps;
|}.

(** The whitespace and the decimal digits of Unicode 14 beyond ASCII: the
    19 blanks, and the 65 runs of ten digits, each by the code point of its
    zero. *)
Definition unicode_blanks : list Z :=
  [133; 160; 5760; 8192; 8193; 8194; 8195; 8196; 8197; 8198; 8199; 8200; 8201;
   8202; 8232; 8233; 8239; 8287; 12288]%Z.

Definition unicode_zeros : list Z :=
  [1632; 1776; 1984; 2406; 2534; 2662; 2790; 2918; 3046; 3174; 3302; 3430; 3558;
   3664; 3792; 3872; 4160; 4240; 6112; 6160; 6470; 6608; 6784; 6800; 6992; 7088;
   7232; 7248; 42528; 43216; 43264; 43472; 43504; 43600; 44016; 65296; 66720;
   68912; 69734; 69872; 69942; 70096; 70384; 70736; 70864; 71248; 71360; 71472;
   71904; 72016; 72784; 73040; 73120; 92768; 92864; 93008; 120782; 120792;
   120802; 120812; 120822; 123200; 123632; 125264; 130032]%Z.

#[export] Instance unicode_14 : UnicodeData := {|
  Py_UNICODE_ISSPACE := fun cp => existsb (Z.eqb cp) unicode_blanks;
  Py_UNICODE_TODECIMAL := fun cp =>
    match filter (fun z => (z <= cp < z + 10)%Z) unicode_zeros with
    | z :: _ => Some (cp - z)%Z
    | [] => None
    end;
|}.

(** Byte strings counted in MiB, for what arrives in chunks of 1 MiB. *)
Definition mebibytes : ByteString bytes := {|
  b_empty := [];
  b_app := fun a b => a ++ b;
  b_len := fun b => (MiB * Z.of_nat (length b))%Z;
|}.

(** The path of an http or https URL without parameters: what follows the
    host, up to the query or the fragment. *)
Fixpoint upto_query (s : string) : string :=
  match s with
  | EmptyString => EmptyString
  | String c r =>
      if Ascii.eqb c "?" || Ascii.eqb c "#" then EmptyString
      else String c (upto_query r)
  end.

Fixpoint from_slash (s : string) : string :=
  match s with
  | EmptyString => EmptyString
  | String c r => if Ascii.eqb c "/" then s else from_slash r
  end.

Definition path_of_url (url : string) : option string :=
  if Py.startswith "http://" url
  then Some (upto_query (from_slash (Py.slice_from 7 url)))
  else if Py.startswith "https://" url
  then Some (upto_query (from_slash (Py.slice_from 8 url)))
  else None.

#[export] Instance sample_urls : UrlParser := {|
  urlparse_path := path_of_url;
|}.

(** A public base URL, and a local one. *)
#[export] Instance public_config : Config := {|
  PUBLIC_URL := "http://203.0.113.7:8000";
|}.

Definition local_config : Config := {|
  PUBLIC_URL := "http://localhost:8000";
|}.

Definition world0 : @World bytes :=
  {| user_data := ∅; files := ∅; file_tokens := ∅; trace := [] |}.

(** A session that holds a stored document of [n] pages, numbered from 1. *)
Definition doc (n : nat) : bytes := seq 1 n.

Definition with_doc (n : nat) : @World bytes :=
  {| user_data := <["num_pages" := VInt (Z.of_nat n)]>
                    (<["pdf_path" := VStr "stored_pdfs/a.pdf"]> ∅);
     files := <["stored_pdfs/a.pdf" := doc n]> ∅;
     file_tokens := ∅; trace := [] |}.

Definition env_of (text : string) : range_env :=
  {| message_text := text; temp_name := "/tmp/out.pdf";
     uuid_name := "u1"; uuid_token := "t1"; time_now := 0%Q;
     progress_delivered := fun _ => true; error_edit_delivered := true |}.

(** The string of a list of bytes. *)
Definition of_bytes (l : list N) : string :=
  fold_right (fun b s => String (ascii_of_N b) s) EmptyString l.

(** Page ranges as they may be typed, in UTF-8: 5-2, 2-3 and 3 in
    Arabic-Indic digits (U+0665, U+0662, U+0663), 1-3 after a no-break
    space (U+00A0), and 5-2 with the separator FS (0x1C) after the 5. *)
Definition arabic_5_2 : string := of_bytes [217; 165; 45; 217; 162]%N.

Definition arabic_2_3 : string := of_bytes [217; 162; 45; 217; 163]%N.

Definition arabic_3 : string := of_bytes [217; 163]%N.

Definition nbsp_1_3 : string := of_bytes [194; 160; 49; 45; 51]%N.

Definition fs_5_2 : string := of_bytes [53; 28; 45; 50]%N.

(** The same request, when Telegram does not take the error message. *)
Definition unreported (text : string) : range_env :=
  {| message_text := text; temp_name := "/tmp/out.pdf";
     uuid_name := "u1"; uuid_token := "t1"; time_now := 0%Q;
     progress_delivered := fun _ => true; error_edit_delivered := false |}.

(** A session that confirmed the download of a file of 100 MiB. *)
Definition confirmed : @World bytes :=
  {| user_data := <["file_name" := VStr "big.pdf"]>
                    (<["download_url" := VStr "https://example.org/big.pdf"]> ∅);
     files := ∅; file_tokens := ∅; trace := [] |}.

(** The first two chunks of 1 MiB, written 11 s and 30 s after the start;
    then the connection breaks. *)
Definition slow_download : @button_env bytes :=
  {| query_data := "confirm_download";
     get := Some {| raise_for_status_ok := true;
                    get_content_length := Some "104857600";
                    iter_content := [ {| chunk_bytes := [1]; chunk_clock := 11 |};
                                      {| chunk_bytes := [2]; chunk_clock := 30 |} ];
                    stream_breaks := true |};
     start_clock := 0;
     download_progress_delivered := fun _ => true |}.

(** A served copy and the registry after a token was issued for it at
    time 0. *)
Definition with_copy : @World bytes :=
  {| user_data := ∅; files := <["web_serve/u1_a.pdf" := [7]]> ∅;
     file_tokens := ∅; trace := [] |}.

Definition issued : @World bytes :=
  snd (generate_download_token "web_serve/u1_a.pdf" "a.pdf" None "t1" 0 with_copy).

(** An output of one page (30 MiB) and one of two pages (60 MiB), the
    latter with a public and with a local base URL. *)
Definition with_output (out : bytes) : @World bytes :=
  {| user_data := ∅; files := <["/tmp/out.pdf" := out]> ∅;
     file_tokens := ∅; trace := [] |}.

(** An upload that is saved but is not a PDF. *)
Definition not_a_pdf : @upload_env bytes :=
  {| file_size := 31457280; file_name := Some "a.pdf"; user_id := 7;
     get_file_ok := true; download_to_drive := Saved [0]; error_edit_ok := true |}.

(** The same upload, when Telegram does not take the error message. *)
Definition not_a_pdf_unreported : @upload_env bytes :=
  {| file_size := 31457280; file_name := Some "a.pdf"; user_id := 7;
     get_file_ok := true; download_to_drive := Saved [0]; error_edit_ok := false |}.

(** The upload of a document of one page. *)
Definition one_page : @upload_env bytes :=
  {| file_size := 31457280; file_name := Some "a.pdf"; user_id := 7;
     get_file_ok := true; download_to_drive := Saved (doc 1);
     error_edit_ok := true |}.

(** The press of the button that the listing makes for [a.pdf]. *)
Definition select_a : @button_env bytes :=
  {| query_data := "select_pdf:a.pdf"; get := None; start_clock := 0;
     download_progress_delivered := fun _ => true |}.

(** A link to a PDF of 1 MiB, sent with blanks around it, and the answer
    to the HEAD request. *)
Definition pdf_link : url_env :=
  {| url_text := " https://example.org/files/report.pdf ";
     head := Some {| status_code := 200;
                     content_type := Some "application/pdf";
                     content_length := Some "1048576";
                     content_disposition := None |} |}.

(** A serve directory whose files were all last modified at time 0. *)
Definition written_at_0 : string -> Q := fun _ => 0%Q.

(** A host on which the metadata request raises, while ipify would
    answer. *)
Definition no_metadata : ip_services :=
  {| aws_metadata := None; ipify := Some "203.0.113.7" |}.

(** The upload of a document of one page under a name in capitals. *)
Definition capitals : @upload_env bytes :=
  {| file_size := 31457280; file_name := Some "SCAN.PDF"; user_id := 7;
     get_file_ok := true; download_to_drive := Saved (doc 1);
     error_edit_ok := true |}.

(** A session whose document was replaced by one of two pages after its
    five pages were counted. *)
Definition replaced : @World bytes :=
  {| user_data := <["num_pages" := VInt 5]>
                    (<["pdf_path" := VStr "stored_pdfs/a.pdf"]> ∅);
     files := <["stored_pdfs/a.pdf" := doc 2]> ∅;
     file_tokens := ∅; trace := [] |}.

(** A session whose document was deleted. *)
Definition deleted : @World bytes :=
  {| user_data := <["num_pages" := VInt 5]>
                    (<["pdf_path" := VStr "stored_pdfs/a.pdf"]> ∅);
     files := ∅; file_tokens := ∅; trace := [] |}.

(** The token [t1] as the registry holds it. *)
Definition token_t1 : token_data :=
  {| file_path := "web_serve/u1_a.pdf"; filename := "a.pdf"; client_ip := None;
     expire_time := 0 + inject_Z FILE_EXPIRATION_TIME |}.

End Sample.

(** * Properties *)

Section Properties.

Context {page bytes : Type} {bs : ByteString bytes} {codec : DocumentCodec page bytes}
        {cfg : Config} {urls : UrlParser} {ucd : UnicodeData}.

(** The types of the model at the byte strings of this section. *)
Local Abbreviation World := (@World bytes).
Local Abbreviation M := (@M bytes).
Local Abbreviation event := (@event bytes).
Local Abbreviation button_env := (@button_env bytes).
Local Abbreviation upload_env := (@upload_env bytes).
Local Abbreviation chunk := (@chunk bytes).
Local Abbreviation keeps I m := (@keeps bytes I _ m).

(** Unfolding of the monadic operations, one layer at a time. *)
Ltac step_m :=
  unfold bind, try_except, try_except_only, send, update_world, ret, raise,
    write_file, user_data_set, user_data_get, user_data_item, PdfReader,
    read_file, get_world, os_path_exists, os_remove, or_raise, lift_res, emit;
  simpl.
Ltac run_m := repeat progress step_m.

(** ** Requests that are refused *)

(** Settles a statement about one character by going through all of them. *)
Ltac every_char a :=
  destruct a as [[] [] [] [] [] [] [] []]; vm_compute; intros E;
  first [discriminate E | now left | now right].

Lemma lower_char_y (a : ascii) :
  Py.lower_char a = "y"%char -> a = "y"%char \/ a = "Y"%char.
Proof. every_char a. Qed.

Lemma lower_char_e (a : ascii) :
  Py.lower_char a = "e"%char -> a = "e"%char \/ a = "E"%char.
Proof. every_char a. Qed.

Lemma lower_char_s (a : ascii) :
  Py.lower_char a = "s"%char -> a = "s"%char \/ a = "S"%char.
Proof. every_char a. Qed.

(** A text that reads yes in any capitalisation is not a page range. *)
Lemma yes_is_no_range (t : string) :
  Py.lower t = "yes" -> parse_page_range t = None.
Proof.
  destruct t as [|a [|b [|c [|d t]]]]; simpl; try discriminate.
  intros E. injection E as Ea Eb Ec.
  apply lower_char_y in Ea. apply lower_char_e in Eb. apply lower_char_s in Ec.
  destruct Ea, Eb, Ec; subst; reflexivity.
Qed.

Lemma range_is_not_yes (t : string) (r : Z * Z) :
  parse_page_range t = Some r -> String.eqb (Py.lower t) "yes" = false.
Proof.
  intros Hp. destruct (String.eqb_spec (Py.lower t) "yes") as [E|]; [|reflexivity].
  rewrite (yes_is_no_range _ E) in Hp. discriminate.
Qed.

Lemma validate_request_rejects (t : string) (w : World) (start_page end_page n : Z) :
  parse_page_range t = Some (start_page, end_page) ->
  recorded_num_pages w = VInt n ->
  out_of_bounds start_page end_page n ->
  validate_request t w
  = (Ok (inr GET_PAGE_RANGE), emit (edit_text (MsgInvalidRange (VInt n)) []) w).
Proof.
  intros Hp Hn Hb. unfold validate_request, bind, get_world.
  rewrite (range_is_not_yes _ _ Hp). simpl. rewrite Hp, Hn.
  unfold out_of_bounds in Hb.
  destruct (Z.ltb_spec start_page 1); simpl.
  - reflexivity.
  - destruct (Z.ltb_spec n end_page); simpl; [reflexivity|].
    destruct (Z.ltb_spec end_page start_page); simpl; [reflexivity|lia].
Qed.

Lemma validate_request_accepts (t : string) (w : World) (start_page end_page n : Z) :
  parse_page_range t = Some (start_page, end_page) ->
  recorded_num_pages w = VInt n ->
  (1 <= start_page <= end_page)%Z -> (end_page <= n)%Z ->
  validate_request t w = (Ok (inl (start_page, end_page)), w).
Proof.
  intros Hp Hn Hb Hb'. unfold validate_request, bind, get_world.
  rewrite (range_is_not_yes _ _ Hp). simpl. rewrite Hp, Hn.
  destruct (Z.ltb_spec start_page 1); simpl; [lia|].
  destruct (Z.ltb_spec n end_page); simpl; [lia|].
  destruct (Z.ltb_spec end_page start_page); simpl; [lia|reflexivity].
Qed.

(** C2.  A page range that parses to bounds with start > end, start < 1 or
    end beyond the recorded page count is refused: the handler sends the
    re-prompt and returns GET_PAGE_RANGE, and the world differs from the one
    it started in by these two messages only: nothing is extracted. *)
Theorem out_of_bounds_range_is_refused (env : range_env) (w : World)
    (start_page end_page n : Z) :
  parse_page_range (Py.strip (message_text env)) = Some (start_page, end_page) ->
  recorded_num_pages w = VInt n ->
  out_of_bounds start_page end_page n ->
  process_page_range env w
  = (Ok GET_PAGE_RANGE,
     emit (edit_text (MsgInvalidRange (VInt n)) [])
       (emit (reply_text MsgValidating []) w)).
Proof.
  intros Hp Hn Hb. unfold process_page_range, bind at 1 2, send, update_world.
  rewrite (validate_request_rejects _ _ _ _ n Hp); [reflexivity|exact Hn|exact Hb].
Qed.

(** C10.  With no page count on record, a numeric range whose start is at
    least 1 is refused: the handler sends the re-prompt and returns
    GET_PAGE_RANGE, and nothing else happens. *)
Theorem no_page_count_no_extraction (env : range_env) (w : World)
    (start_page end_page : Z) :
  user_data w !! "num_pages" = None ->
  parse_page_range (Py.strip (message_text env)) = Some (start_page, end_page) ->
  (1 <= start_page)%Z ->
  process_page_range env w
  = (Ok GET_PAGE_RANGE,
     emit (edit_text (MsgInvalidRange (VInt 0)) [])
       (emit (reply_text MsgValidating []) w)).
Proof.
  intros Hn Hp Hs. unfold process_page_range, bind at 1 2, send, update_world.
  rewrite (validate_request_rejects _ _ start_page end_page 0 Hp); [reflexivity| |].
  - unfold recorded_num_pages. simpl. rewrite Hn. reflexivity.
  - unfold out_of_bounds. lia.
Qed.

(** ** The page extractor *)

Lemma emits_nil (w : World) : emits [] w = w.
Proof. destruct w. unfold emits. simpl. now rewrite app_nil_r. Qed.

Lemma emits_emits (es es' : list event) (w : World) :
  emits es' (emits es w) = emits (es ++ es') w.
Proof. unfold emits. simpl. now rewrite app_assoc. Qed.

(** A progress report never raises: delivered or not, the loop goes on in
    a world that differs by what was sent or logged. *)
Lemma report_progress_goes_on (env : range_env) (i total_pages progress_interval : Z)
    (w : World) :
  exists es, report_progress env i total_pages progress_interval w = (Ok tt, emits es w)
             /\ Forall (fun e => is_progress e = true) es.
Proof.
  unfold report_progress.
  destruct ((i mod progress_interval =? 0)%Z && (0 <? i)%Z).
  - unfold try_except. destruct (progress_delivered env i).
    + eexists. split; [reflexivity|]. repeat constructor.
    + eexists. split; [reflexivity|]. repeat constructor.
  - exists []. split; [now rewrite emits_nil|constructor].
Qed.

Lemma py_index_in_range {A} (l : list A) (k : Z) :
  (0 <= k < Z.of_nat (length l))%Z -> py_index l k = l !! Z.to_nat k.
Proof.
  intros Hk. unfold py_index.
  destruct (Z.ltb_spec k 0); [lia|].
  destruct (Z.ltb_spec k 0); [lia|]. simpl.
  destruct (Z.leb_spec (Z.of_nat (length l)) k); [lia|reflexivity].
Qed.

(** The loop over [n] consecutive pages from index [k] on adds exactly
    these pages, whatever becomes of the progress reports. *)
Lemma add_pages_spec (env : range_env) (pages : list page) (total_pages interval : Z)
    (n : nat) :
  forall (i0 k : Z) (acc : list page) (w : World),
    (0 <= k)%Z -> (k + Z.of_nat n <= Z.of_nat (length pages))%Z ->
    exists es,
      for_each (zip (seqZ i0 (Z.of_nat n)) (seqZ k (Z.of_nat n))) acc
        (add_page env pages total_pages interval) w
      = (Ok (inl (acc ++ take n (drop (Z.to_nat k) pages))), emits es w)
      /\ Forall (fun e => is_progress e = true) es.
Proof.
  induction n as [|n IH]; intros i0 k acc w Hk Hlen.
  - exists []. simpl. rewrite app_nil_r, emits_nil. split; [reflexivity|constructor].
  - rewrite !(seqZ_cons _ (Z.of_nat (S n))) by lia.
    replace (Z.pred (Z.of_nat (S n))) with (Z.of_nat n) by lia.
    simpl zip. cbn [for_each].
    destruct (lookup_lt_is_Some_2 pages (Z.to_nat k)) as [p Hp]; [lia|].
    unfold bind at 1. unfold add_page at 1. unfold try_except, bind at 1.
    rewrite py_index_in_range by lia. rewrite Hp. cbn [or_raise ret].
    unfold bind at 1.
    destruct (report_progress_goes_on env i0 total_pages interval w) as (es1 & E1 & P1).
    rewrite E1. cbn [ret].
    destruct (IH (Z.succ i0) (Z.succ k) (acc ++ [p]) (emits es1 w)) as (es2 & E2 & P2);
      [lia|lia|].
    rewrite E2. exists (es1 ++ es2). rewrite emits_emits.
    split; [|apply Forall_app; split; assumption].
    f_equal. f_equal. f_equal. rewrite <- app_assoc. f_equal.
    replace (Z.to_nat (Z.succ k)) with (S (Z.to_nat k)) by lia.
    rewrite (drop_S _ _ _ Hp). reflexivity.
Qed.

Lemma extract_spec (env : range_env) (input output : string) (start_page end_page : Z)
    (w : World) (content : bytes) (pages : list page) :
  files w !! input = Some content ->
  PdfReader_pages content = Some pages ->
  (1 <= start_page <= end_page)%Z -> (end_page <= Z.of_nat (length pages))%Z ->
  exists es,
    extract env input output start_page end_page w
    = (Ok None,
       set_files <[output := PdfWriter_write (selected pages start_page end_page)]>
         (emits (es ++ [edit_text MsgFinalizing []]) w))
    /\ Forall (fun e => is_progress e = true) es.
Proof.
  intros Hf Hr Hb Hb'. unfold extract, PdfReader, read_file.
  unfold bind at 1 2 3. unfold get_world. rewrite Hf. cbn [or_raise ret]. rewrite Hr.
  cbn [or_raise ret].
  unfold enumerate, py_range. rewrite length_seqZ.
  replace (end_page - (start_page - 1))%Z
    with (Z.of_nat (Z.to_nat (end_page - start_page + 1))) by lia.
  rewrite Nat2Z.id.
  destruct (add_pages_spec env pages (end_page - start_page + 1)
              (Z.max 1 ((end_page - start_page + 1) / 10))
              (Z.to_nat (end_page - start_page + 1)) 0 (start_page - 1) [] w)
    as (es & E & P); [lia|lia|].
  unfold bind at 1. rewrite E. simpl app.
  exists es. split; [|exact P].
  unfold bind, send, update_world, write_file, emit. cbn [ret].
  rewrite emits_emits. reflexivity.
Qed.

(** C1.  For a source PDF and a range with 1 <= start <= end <= page
    count, the extractor returns normally whatever becomes of the progress
    reports, and the document it writes to the output path has end - start
    + 1 pages, its page i being page start - 1 + i of the source; the world
    changes by that file and by messages only. *)
Theorem extract_output_pages (env : range_env) (input output : string)
    (start_page end_page : Z) (w : World) (content : bytes) (pages : list page) :
  files w !! input = Some content ->
  PdfReader_pages content = Some pages ->
  (1 <= start_page <= end_page)%Z -> (end_page <= Z.of_nat (length pages))%Z ->
  exists (es : list event) (out : list page),
    extract env input output start_page end_page w
    = (Ok None, set_files <[output := PdfWriter_write out]> (emits es w))
    /\ Z.of_nat (length out) = (end_page - start_page + 1)%Z
    /\ forall i : nat, (Z.of_nat i < end_page - start_page + 1)%Z ->
         is_Some (out !! i)
         /\ out !! i = pages !! Z.to_nat (start_page - 1 + Z.of_nat i).
Proof.
  intros Hf Hr Hb Hb'.
  destruct (extract_spec env input output start_page end_page w content pages)
    as (es & E & _); try assumption.
  exists (es ++ [edit_text MsgFinalizing []]), (selected pages start_page end_page).
  split; [exact E|].
  unfold selected. split.
  - rewrite length_take, length_drop. lia.
  - intros i Hi.
    assert (out_i : take (Z.to_nat (end_page - start_page + 1))
                      (drop (Z.to_nat (start_page - 1)) pages) !! i
                    = pages !! Z.to_nat (start_page - 1 + Z.of_nat i)).
    { rewrite lookup_take_lt by lia. rewrite lookup_drop. f_equal. lia. }
    split; [|exact out_i].
    rewrite out_i. apply lookup_lt_is_Some_2. lia.
Qed.

(** ** Delivery *)

(** What [deliver] does to an output that is there, by its size and by the
    link. *)
Lemma deliver_cases (env : range_env) (input output_path : string)
    (start_page end_page : Z) (w : World) (output : bytes) :
  files w !! output_path = Some output ->
  deliver env input output_path start_page end_page w
  = (if (b_len output <=? MAX_FILE_SIZE)%Z
     then (Ok None,
           emits [edit_text MsgSending [];
                  reply_document output (output_name input start_page end_page)
                    (MsgCaption start_page end_page)] w)
     else if is_loopback (link env)
     then (Ok (Some UPLOAD_PDF),
           emits [edit_text (MsgExceedsLimit (b_len output / MiB)) [];
                  Timer_start FILE_EXPIRATION_TIME (uuid_token env);
                  logged INFO (LogGeneratedUrl (link env));
                  logged ERROR (LogInvalidUrl (link env));
                  edit_text MsgNotConfigured []]
             (served env input start_page end_page output w))
     else (Ok None,
           emits [edit_text (MsgExceedsLimit (b_len output / MiB)) [];
                  Timer_start FILE_EXPIRATION_TIME (uuid_token env);
                  logged INFO (LogGeneratedUrl (link env));
                  reply_text (MsgReady start_page end_page (b_len output / MiB))
                    [UrlButton "Download PDF" (link env)]]
             (served env input start_page end_page output w))).
Proof.
  intros Hf. unfold deliver, read_file, bind at 1 2, get_world. rewrite Hf.
  cbn [or_raise ret]. cbv beta iota zeta.
  destruct (b_len output <=? MAX_FILE_SIZE)%Z.
  - unfold bind, send, update_world, emit, ret. rewrite emits_emits. reflexivity.
  - unfold generate_download_token, write_file, read_file, bind, send, update_world,
      get_world, emit, ret.
    simpl files. rewrite Hf. cbn [or_raise ret]. fold (link env).
    destruct (is_loopback (link env));
      unfold served, served_token, served_path, emits, set_files, set_file_tokens;
      simpl; rewrite <- !app_assoc; reflexivity.
Qed.

(** C5, as the code has it.  An output of at most 50 MiB is sent as a
    document over the channel.  A larger one is copied into the serve
    directory under a name that starts with a fresh uuid, a token for that
    copy is registered, and the link is the public URL followed by
    /download/ and the token; when that link contains the text localhost or
    the text 127.0.0.1 the only thing the user gets is the configuration
    error, and otherwise the link is sent as a button, whatever address it
    names. *)
Theorem delivery_by_size (env : range_env) (input output_path : string)
    (start_page end_page : Z) (w : World) (output : bytes) :
  files w !! output_path = Some output ->
  let name := output_name input start_page end_page in
  let size := b_len output in
  ((size <= MAX_FILE_SIZE)%Z ->
     deliver env input output_path start_page end_page w
     = (Ok None,
        emits [edit_text MsgSending [];
               reply_document output name (MsgCaption start_page end_page)] w))
  /\ ((MAX_FILE_SIZE < size)%Z -> is_loopback (link env) = true ->
        deliver env input output_path start_page end_page w
        = (Ok (Some UPLOAD_PDF),
           emits [edit_text (MsgExceedsLimit (size / MiB)) [];
                  Timer_start FILE_EXPIRATION_TIME (uuid_token env);
                  logged INFO (LogGeneratedUrl (link env));
                  logged ERROR (LogInvalidUrl (link env));
                  edit_text MsgNotConfigured []]
             (served env input start_page end_page output w)))
  /\ ((MAX_FILE_SIZE < size)%Z -> is_loopback (link env) = false ->
        deliver env input output_path start_page end_page w
        = (Ok None,
           emits [edit_text (MsgExceedsLimit (size / MiB)) [];
                  Timer_start FILE_EXPIRATION_TIME (uuid_token env);
                  logged INFO (LogGeneratedUrl (link env));
                  reply_text (MsgReady start_page end_page (size / MiB))
                    [UrlButton "Download PDF" (link env)]]
             (served env input start_page end_page output w))).
Proof.
  intros Hf name size. subst name size.
  rewrite (deliver_cases env input output_path start_page end_page w output Hf).
  repeat split.
  - intros Hs. destruct (Z.leb_spec (b_len output) MAX_FILE_SIZE); [reflexivity|lia].
  - intros Hs Hl. destruct (Z.leb_spec (b_len output) MAX_FILE_SIZE); [lia|].
    rewrite Hl. reflexivity.
  - intros Hs Hl. destruct (Z.leb_spec (b_len output) MAX_FILE_SIZE); [lia|].
    rewrite Hl. reflexivity.
Qed.

(** X21.  A valid request, end to end, as long as Telegram takes the
    messages: the range is accepted, the selected pages are written to the
    temporary file and, when they fit, sent as a document; the temporary
    file is removed and the session data are not touched.  The handler
    sends, in this order: the two status texts, the progress reports, the
    two closing status texts, the document, and the question what to do
    next; so one document is sent, and it is the selected pages. *)
Lemma valid_range_is_sent (env : range_env) (w : World) (p : string)
    (content : bytes) (pages : list page) (start_page end_page n : Z) :
  parse_page_range (Py.strip (message_text env)) = Some (start_page, end_page) ->
  recorded_num_pages w = VInt n ->
  (1 <= start_page <= end_page)%Z -> (end_page <= n)%Z ->
  (end_page <= Z.of_nat (length pages))%Z ->
  user_data w !! "pdf_path" = Some (VStr p) ->
  temp_name env <> p ->
  files w !! p = Some content ->
  PdfReader_pages content = Some pages ->
  let out := PdfWriter_write (selected pages start_page end_page) in
  (b_len out <= MAX_FILE_SIZE)%Z ->
  exists es,
    process_page_range env w
    = (Ok UPLOAD_PDF,
       set_files (delete (temp_name env))
         (emits ([reply_text MsgValidating []; edit_text MsgCreating []]
                 ++ es
                 ++ [edit_text MsgFinalizing [];
                     edit_text MsgSending [];
                     reply_document out (output_name p start_page end_page)
                       (MsgCaption start_page end_page);
                     reply_text MsgWhatNext
                       [CallbackButton "Split another PDF" "back_to_start";
                        CallbackButton "Use same PDF" ("select_pdf:" +:+ Py.basename p);
                        CallbackButton "Exit" "cancel_download"]]) w))
    /\ Forall (fun e => is_progress e = true) es.
Proof.
  intros Hp Hn Hb Hbn Hlen Hpath Htmp Hf Hr out Hsize.
  set (asked := emit (reply_text MsgValidating []) w).
  set (w2 := set_files <[temp_name env := b_empty]>
               (emit (edit_text MsgCreating []) asked)).
  destruct (extract_spec env p (temp_name env) start_page end_page w2 content pages)
    as (es & E & P); try assumption.
  { unfold w2. simpl. rewrite lookup_insert_ne by exact Htmp. exact Hf. }
  set (w3 := set_files <[temp_name env := out]>
               (emits (es ++ [edit_text MsgFinalizing []]) w2)) in E.
  assert (D := deliver_cases env p (temp_name env) start_page end_page w3 out).
  rewrite (proj2 (Z.leb_le _ _) Hsize) in D.
  specialize (D ltac:(unfold w3; simpl; apply lookup_insert_eq)).
  exists es. split; [|exact P].
  unfold process_page_range, bind at 1 2, send, update_world. fold asked.
  rewrite (validate_request_accepts _ asked start_page end_page n Hp Hn Hb Hbn).
  unfold split_and_send, bind at 1 2, send, update_world, user_data_item,
    bind at 1, get_world.
  change (user_data (emit (edit_text MsgCreating []) asked)) with (user_data w).
  rewrite Hpath. cbn [or_raise ret].
  unfold try_except, bind at 1, write_file, update_world. fold w2.
  unfold bind at 1. cbn [as_str ret]. unfold bind at 1. rewrite E.
  unfold bind at 1. unfold w3, out in D. rewrite D.
  run_m. rewrite lookup_insert_eq. run_m.
  unfold w2, asked, emit, emits, set_files. simpl.
  rewrite !delete_insert_eq. rewrite <- !app_assoc. reflexivity.
Qed.

(** ** The download endpoint *)

(** What the endpoint answers for a token that is in the registry. *)
Lemma download_file_registered (token : string) (now : Q) (w : World) (t : token_data) :
  file_tokens w !! token = Some t ->
  ((expire_time t < now)%Q -> download_file token now w = abort 404)
  /\ ((now <= expire_time t)%Q ->
        (files w !! file_path t = None -> download_file token now w = abort 404)
        /\ (forall content, files w !! file_path t = Some content ->
              download_file token now w
              = send_file content true (filename t) "application/pdf")).
Proof.
  intros Ht. unfold download_file. rewrite Ht. split.
  - intros Hlt. destruct (Qlt_le_dec (expire_time t) now) as [_|Hle]; [reflexivity|].
    exfalso. exact (Qlt_not_le _ _ Hlt Hle).
  - intros Hle. destruct (Qlt_le_dec (expire_time t) now) as [Hlt|_].
    + exfalso. exact (Qlt_not_le _ _ Hlt Hle).
    + split.
      * intros Hf. rewrite Hf. reflexivity.
      * intros content Hf. rewrite Hf. reflexivity.
Qed.

Lemma download_file_unknown (token : string) (now : Q) (w : World) :
  file_tokens w !! token = None -> download_file token now w = abort 404.
Proof. intros Ht. unfold download_file. rewrite Ht. reflexivity. Qed.

Lemma generate_download_token_registers (path name : string) (ip : option string)
    (token : string) (issued : Q) (w0 : World) :
  exists w1,
    generate_download_token path name ip token issued w0 = (Ok token, w1)
    /\ file_tokens w1 !! token
       = Some {| file_path := path; filename := name; client_ip := ip;
                 expire_time := issued + inject_Z FILE_EXPIRATION_TIME |}
    /\ files w1 = files w0.
Proof.
  eexists. split; [reflexivity|]. split; [|reflexivity].
  simpl. apply lookup_insert_eq.
Qed.

(** C3, as the code has it.  A token issued at time [issued] for a file is
    registered with expiry [issued + 86400].  As long as the registry holds
    that entry, a request at a time up to and including the expiry is
    answered with the very content of the file, as an attachment under the
    original name, when the file exists, and with 404 when it does not; a
    request after the expiry is answered with 404, and so is a request for
    a token the registry does not hold. *)
Theorem download_until_expiry (path name : string) (ip : option string)
    (token : string) (issued now : Q) (w0 w : World) :
  let expiry := (issued + inject_Z FILE_EXPIRATION_TIME)%Q in
  let w1 := snd (generate_download_token path name ip token issued w0) in
  fst (generate_download_token path name ip token issued w0) = Ok token
  /\ (file_tokens w !! token = file_tokens w1 !! token ->
        (forall content, (now <= expiry)%Q -> files w !! path = Some content ->
           download_file token now w = send_file content true name "application/pdf")
        /\ ((expiry < now)%Q -> download_file token now w = abort 404)
        /\ (files w !! path = None -> download_file token now w = abort 404))
  /\ (file_tokens w !! token = None -> download_file token now w = abort 404).
Proof.
  intros expiry w1.
  destruct (generate_download_token_registers path name ip token issued w0)
    as (w1' & E & Hreg & _).
  subst w1. rewrite E. simpl fst. simpl snd. split; [reflexivity|]. split.
  - intros Hsame. rewrite Hreg in Hsame.
    destruct (download_file_registered token now w _ Hsame) as [Hexp Hlive].
    simpl in Hexp, Hlive. repeat split.
    + intros content Hle Hf. apply (proj2 (Hlive Hle)). exact Hf.
    + exact Hexp.
    + intros Hf. destruct (Qlt_le_dec expiry now) as [Hlt|Hle].
      * apply Hexp. exact Hlt.
      * apply (proj1 (Hlive Hle)). exact Hf.
  - apply download_file_unknown.
Qed.

(** ** The name of a remote file *)

Lemma startswith_app (p x y : string) :
  (String.length p <= String.length x)%nat ->
  Py.startswith p (x +:+ y) = Py.startswith p x.
Proof.
  revert x. induction p as [|a p IH]; intros x Hl; [reflexivity|].
  destruct x as [|b x]; simpl in Hl; [lia|]. simpl.
  destruct (Ascii.eqb a b); [|reflexivity]. apply IH. lia.
Qed.

Lemma append_cons (a : ascii) (x y : string) : String a x +:+ y = String a (x +:+ y).
Proof. reflexivity. Qed.

Lemma append_assoc (x y z : string) : (x +:+ y) +:+ z = x +:+ y +:+ z.
Proof.
  induction x as [|a x IH]; [reflexivity|].
  rewrite !append_cons. f_equal. exact IH.
Qed.

Lemma length_append (x y : string) :
  String.length (x +:+ y) = (String.length x + String.length y)%nat.
Proof.
  induction x as [|a x IH]; [reflexivity|].
  rewrite append_cons. simpl. now rewrite IH.
Qed.

(** The pattern is found where [filename=] first occurs. *)
Lemma filename_match_first (pre rest : string) :
  Py.contains "filename=" (pre +:+ "filename") = false ->
  filename_match (pre +:+ "filename=" +:+ rest)
  = Some (after_filename ("filename=" +:+ rest)).
Proof.
  induction pre as [|c pre IH]; intros Hno; [reflexivity|].
  rewrite append_cons in Hno.
  cbn [Py.contains] in Hno. apply orb_false_elim in Hno as [Hhere Hlater].
  assert (Hs : Py.startswith "filename=" (String c (pre +:+ "filename=" +:+ rest)) = false).
  { replace (String c (pre +:+ "filename=" +:+ rest))
      with (String c (pre +:+ "filename") +:+ ("=" +:+ rest)).
    - rewrite startswith_app; [exact Hhere|].
      simpl. rewrite length_append. simpl. lia.
    - rewrite append_cons, append_assoc. reflexivity. }
  rewrite append_cons. cbn [filename_match]. rewrite Hs. apply IH. exact Hlater.
Qed.

Lemma filename_match_none (s : string) :
  Py.contains "filename=" s = false -> filename_match s = None.
Proof.
  induction s as [|c s IH]; intros Hno; [reflexivity|].
  cbn [Py.contains] in Hno. apply orb_false_elim in Hno as [Hhere Hlater].
  cbn [filename_match]. rewrite Hhere. apply IH. exact Hlater.
Qed.

Lemma unquoted_cons (c : ascii) (name : string) :
  unquoted (String c name) -> c <> dquote /\ unquoted name.
Proof.
  unfold unquoted. cbn [Py.contains Py.startswith]. intros Hu.
  apply orb_false_elim in Hu as [Hc Hn]. split; [|exact Hn].
  intros ->. rewrite Ascii.eqb_refl in Hc. discriminate.
Qed.

Lemma unquoted_tail (c : ascii) (name : string) : unquoted (String c name) -> unquoted name.
Proof. intros Hu. exact (proj2 (unquoted_cons _ _ Hu)). Qed.

Lemma unquoted_head (c : ascii) (name : string) : unquoted (String c name) -> c <> dquote.
Proof. intros Hu. exact (proj1 (unquoted_cons _ _ Hu)). Qed.

Lemma upto_quote_app (name rest : string) :
  unquoted name -> closes rest -> upto_quote (name +:+ rest) = name.
Proof.
  induction name as [|c name IH]; intros Hu Hc.
  - change ("" +:+ rest) with rest. destruct Hc as [->|[r ->]]; [reflexivity|].
    cbn [upto_quote]. rewrite Ascii.eqb_refl. reflexivity.
  - rewrite append_cons. cbn [upto_quote].
    destruct (Ascii.eqb_spec c dquote) as [E|_].
    + exfalso. exact (unquoted_head _ _ Hu E).
    + f_equal. apply IH; [exact (unquoted_tail _ _ Hu)|exact Hc].
Qed.

Lemma after_filename_quoted (name rest : string) :
  unquoted name -> closes rest ->
  after_filename ("filename=" +:+ String dquote (name +:+ rest)) = name.
Proof.
  intros Hu Hc. unfold after_filename.
  change (Py.slice_from 9 ("filename=" +:+ String dquote (name +:+ rest)))
    with (String dquote (name +:+ rest)).
  cbv beta iota zeta. rewrite Ascii.eqb_refl. apply upto_quote_app; assumption.
Qed.

Lemma after_filename_bare (name rest : string) :
  unquoted name -> closes rest -> name <> "" \/ rest = "" ->
  after_filename ("filename=" +:+ name +:+ rest) = name.
Proof.
  intros Hu Hc Hne. unfold after_filename.
  change (Py.slice_from 9 ("filename=" +:+ name +:+ rest)) with (name +:+ rest).
  destruct name as [|c name].
  - destruct Hne as [Hne| ->]; [now destruct Hne|reflexivity].
  - rewrite append_cons. cbv beta iota zeta.
    destruct (Ascii.eqb_spec c dquote) as [E|_].
    + exfalso. exact (unquoted_head _ _ Hu E).
    + rewrite <- append_cons. apply upto_quote_app; assumption.
Qed.

Lemma lower_app (x y : string) : Py.lower (x +:+ y) = Py.lower x +:+ Py.lower y.
Proof.
  induction x as [|a x IH]; [reflexivity|].
  rewrite append_cons. cbn [Py.lower]. rewrite append_cons. now rewrite IH.
Qed.

Lemma endswith_app (p x : string) : Py.endswith p (x +:+ p) = true.
Proof.
  induction x as [|a x IH].
  - change ("" +:+ p) with p.
    destruct p; cbn [Py.endswith]; rewrite String.eqb_refl; reflexivity.
  - rewrite append_cons. cbn [Py.endswith]. rewrite IH. apply orb_true_r.
Qed.

Lemma name_from_path_is_pdf (path : string) :
  Py.endswith ".pdf" (Py.lower (name_from_path path)) = true.
Proof.
  unfold name_from_path. destruct (String.eqb (Py.basename path) ""); [reflexivity|].
  destruct (Py.endswith ".pdf" (Py.lower (Py.basename path))) eqn:E; [exact E|].
  rewrite lower_app. apply (endswith_app ".pdf").
Qed.

(** C4, as the code has it.  When the header holds [filename=], the result
    is the text that follows its first occurrence, without the double quote
    that may open it, up to the next double quote or the end, returned as
    it is: no suffix is added to it.  When there is no header or no
    [filename=] in it, the result is derived from the path of the URL: it
    is document.pdf when the path has no basename, the basename when that
    ends in .pdf in any capitalisation, and the basename followed by .pdf
    otherwise, so that it always ends in .pdf up to case. *)
Theorem filename_from_header_else_url (url : string) (cd : option string) :
  (forall pre q name rest,
     cd = Some (pre +:+ "filename=" +:+ q +:+ name +:+ rest) ->
     Py.contains "filename=" (pre +:+ "filename") = false ->
     q = String dquote "" \/ (q = "" /\ (name <> "" \/ rest = "")) ->
     unquoted name -> closes rest ->
     get_filename_from_url url cd = Ok name)
  /\ (forall path,
        cd = None \/ (exists header, cd = Some header
                                     /\ Py.contains "filename=" header = false) ->
        urlparse_path url = Some path ->
        get_filename_from_url url cd = Ok (name_from_path path)
        /\ Py.endswith ".pdf" (Py.lower (name_from_path path)) = true).
Proof.
  split.
  - intros pre q name rest -> Hfirst Hq Hu Hc. unfold get_filename_from_url.
    destruct (String.eqb_spec (pre +:+ "filename=" +:+ q +:+ name +:+ rest) "") as [E|_].
    { exfalso. destruct pre; discriminate E. }
    replace (pre +:+ "filename=" +:+ q +:+ name +:+ rest)
      with (pre +:+ "filename=" +:+ (q +:+ name +:+ rest)).
    2:{ rewrite <- !append_assoc. reflexivity. }
    rewrite filename_match_first by exact Hfirst.
    destruct Hq as [->|[-> Hne]].
    + change ("filename=" +:+ String dquote "" +:+ name +:+ rest)
        with ("filename=" +:+ String dquote (name +:+ rest)).
      rewrite after_filename_quoted by assumption. reflexivity.
    + change ("filename=" +:+ "" +:+ name +:+ rest)
        with ("filename=" +:+ name +:+ rest).
      rewrite after_filename_bare by assumption. reflexivity.
  - intros path Hcd Hpath. split; [|apply name_from_path_is_pdf].
    unfold get_filename_from_url.
    assert (Hnone : match cd with
                    | Some cd0 => if String.eqb cd0 "" then None else filename_match cd0
                    | None => None
                    end = None).
    { destruct Hcd as [->|(header & -> & Hno)]; [reflexivity|].
      destruct (String.eqb header ""); [reflexivity|].
      apply filename_match_none. exact Hno. }
    rewrite Hnone, Hpath. unfold name_from_path.
    destruct (String.eqb (Py.basename path) ""); [reflexivity|].
    destruct (Py.endswith ".pdf" (Py.lower (Py.basename path))); reflexivity.
Qed.

(** ** A failed upload *)

(** C8, as the code has it.  When an upload that passed the size check
    fails after the document was fetched, be it while it is saved or while
    its pages are read, the handler logs the error and edits the status
    message.  When that edit is delivered, the handler removes the file at
    the upload's path and returns UPLOAD_PDF; when it is not, the handler
    raises and whatever was written at the upload's path stays there.  In
    both cases no page count is recorded; when saving fails the session data
    is unchanged, and when reading fails the session's pdf_path has already
    been set and keeps naming the file. *)
Theorem failed_upload_is_removed (env : upload_env) (w : World) :
  (file_size env <= MAX_FILE_SIZE)%Z ->
  get_file_ok env = true ->
  match download_to_drive env with
  | Saved content => PdfReader_pages content = None
  | Interrupted _ => True
  end ->
  exists (es : list event) (w' : World),
    trace w' = trace w ++ es
    /\ file_tokens w' = file_tokens w
    /\ user_data w' !! "num_pages" = user_data w !! "num_pages"
    /\ user_data w'
       = match download_to_drive env with
         | Saved _ => <["pdf_path" := VStr (upload_path env)]> (user_data w)
         | Interrupted _ => user_data w
         end
    /\ if error_edit_ok env then
         handle_pdf env w = (Ok UPLOAD_PDF, w')
         /\ files w' = delete (upload_path env) (files w)
         /\ In (edit_text MsgErrorUpload []) es
       else
         handle_pdf env w = (Raise TelegramError, w')
         /\ files w'
            = match download_to_drive env with
              | Saved content | Interrupted (Some content) =>
                  <[upload_path env := content]> (files w)
              | Interrupted None => files w
              end
         /\ ~ In (edit_text MsgErrorUpload []) es.
Proof.
  intros Hsize Hget Hfail. unfold handle_pdf.
  destruct (Z.ltb_spec MAX_FILE_SIZE (file_size env)); [lia|].
  rewrite Hget. set (p := upload_path env). unfold upload_failed.
  destruct (error_edit_ok env).
  - destruct (download_to_drive env) as [content|[content|]].
    + (* saved, but not a PDF *)
      eexists _, _. repeat match goal with |- _ /\ _ => split end.
      5:{ run_m. rewrite lookup_insert_eq, Hfail. run_m.
          rewrite bool_decide_eq_true_2 by (rewrite lookup_insert_eq; eauto).
          run_m. rewrite lookup_insert_eq. reflexivity. }
      all: simpl; try reflexivity.
      * rewrite <- !app_assoc. reflexivity.
      * rewrite lookup_insert_ne by done. reflexivity.
      * rewrite delete_insert_eq. reflexivity.
      * simpl; auto.
    + (* interrupted, a partial file is left *)
      eexists _, _. repeat match goal with |- _ /\ _ => split end.
      5:{ run_m.
          rewrite bool_decide_eq_true_2 by (rewrite lookup_insert_eq; eauto).
          run_m. rewrite lookup_insert_eq. reflexivity. }
      all: simpl; try reflexivity.
      * rewrite <- !app_assoc. reflexivity.
      * rewrite delete_insert_eq. reflexivity.
      * simpl; auto.
    + (* interrupted, nothing was written *)
      destruct (files w !! p) as [old|] eqn:Hold.
      * eexists _, _. repeat match goal with |- _ /\ _ => split end.
        5:{ run_m. rewrite bool_decide_eq_true_2 by eauto.
            run_m. rewrite Hold. reflexivity. }
        all: simpl; try reflexivity.
        -- rewrite <- !app_assoc. reflexivity.
        -- simpl; auto.
      * eexists _, _. repeat match goal with |- _ /\ _ => split end.
        5:{ run_m.
            rewrite bool_decide_eq_false_2 by (rewrite Hold; intros [? ?]; discriminate).
            reflexivity. }
        all: simpl; try reflexivity.
        -- rewrite <- !app_assoc. reflexivity.
        -- symmetry. apply delete_id. exact Hold.
        -- simpl; auto.
  - destruct (download_to_drive env) as [content|[content|]].
    + eexists _, _. repeat match goal with |- _ /\ _ => split end.
      5:{ run_m. rewrite lookup_insert_eq, Hfail. run_m. reflexivity. }
      all: simpl; try reflexivity.
      * rewrite <- !app_assoc. reflexivity.
      * rewrite lookup_insert_ne by done. reflexivity.
      * simpl. intros [?|[?|[?|[]]]]; discriminate.
    + eexists _, _. repeat match goal with |- _ /\ _ => split end.
      5:{ run_m. reflexivity. }
      all: simpl; try reflexivity.
      * rewrite <- !app_assoc. reflexivity.
      * simpl. intros [?|[?|[]]]; discriminate.
    + eexists _, _. repeat match goal with |- _ /\ _ => split end.
      5:{ run_m. reflexivity. }
      all: simpl; try reflexivity.
      * rewrite <- !app_assoc. reflexivity.
      * simpl. intros [?|[?|[]]]; discriminate.
Qed.

(** ** What the handlers keep true of the session data *)

Section Keeps.

(** A property of [context.user_data]. *)
Variable I : gmap string pyval -> Prop.

Lemma keeps_ret {A} (a : A) : keeps I (ret a).
Proof. intros w Hw. exact Hw. Qed.

Lemma keeps_raise {A} (e : exn) : keeps I (raise e : M A).
Proof. intros w Hw. exact Hw. Qed.

Lemma keeps_bind {A B} (m : M A) (k : A -> M B) :
  keeps I m -> (forall a, keeps I (k a)) -> keeps I (bind m k).
Proof.
  intros Hm Hk w Hw. unfold bind. specialize (Hm w Hw).
  destruct (m w) as [[a|e] w']; simpl in *; [apply Hk; exact Hm|exact Hm].
Qed.

Lemma keeps_try_except_only {A} (c : exn -> bool) (m : M A) (h : exn -> M A) :
  keeps I m -> (forall e, keeps I (h e)) -> keeps I (try_except_only c m h).
Proof.
  intros Hm Hh w Hw. unfold try_except_only. specialize (Hm w Hw).
  destruct (m w) as [[a|e] w']; simpl in *; [exact Hm|].
  destruct (c e); [apply Hh; exact Hm|exact Hm].
Qed.

Lemma keeps_try_except {A} (m : M A) (h : exn -> M A) :
  keeps I m -> (forall e, keeps I (h e)) -> keeps I (try_except m h).
Proof.
  intros Hm Hh w Hw. unfold try_except. specialize (Hm w Hw).
  destruct (m w) as [[a|e] w']; simpl in *; [exact Hm|apply Hh; exact Hm].
Qed.

Lemma keeps_get_world : keeps I get_world.
Proof. intros w Hw. exact Hw. Qed.

Lemma keeps_update_world (f : World -> World) :
  (forall w, I (user_data w) -> I (user_data (f w))) -> keeps I (update_world f).
Proof. intros Hf w Hw. apply Hf. exact Hw. Qed.

Lemma keeps_send (e : event) : keeps I (send e).
Proof. intros w Hw. exact Hw. Qed.

Lemma keeps_or_raise {A} (e : exn) (o : option A) : keeps I (or_raise e o).
Proof. destruct o; [apply keeps_ret|apply keeps_raise]. Qed.

Lemma keeps_lift_res {A} (r : res A) : keeps I (lift_res r).
Proof. intros w Hw. exact Hw. Qed.

Lemma keeps_for_each {A S R} (xs : list A) (body : A -> S -> M (S + R)) :
  (forall x s, keeps I (body x s)) -> forall s, keeps I (for_each xs s body).
Proof.
  intros Hb. induction xs as [|x xs IH]; intros s; [apply keeps_ret|].
  cbn [for_each]. apply keeps_bind; [apply Hb|].
  intros [s'|r]; [apply IH|apply keeps_ret].
Qed.

Lemma keeps_user_data_set (key : string) (v : pyval) :
  (forall ud, I ud -> I (<[key := v]> ud)) -> keeps I (user_data_set key v).
Proof. intros Hs w Hw. apply Hs. exact Hw. Qed.

Lemma keeps_write_file (p : string) (b : bytes) : keeps I (write_file p b).
Proof. intros w Hw. exact Hw. Qed.

End Keeps.

(** Proves that a computation built from the operations above keeps a
    property, leaving the writes of the session data to the caller. *)
Ltac keep_step :=
  first
    [ apply keeps_ret | apply keeps_raise | apply keeps_send
    | apply keeps_get_world | apply keeps_or_raise | apply keeps_lift_res
    | apply keeps_write_file
    | apply keeps_bind; [|intros ?]
    | apply keeps_try_except_only; [|intros ?]
    | apply keeps_try_except; [|intros ?]
    | apply keeps_for_each; intros ? ?
    | match goal with
      | |- keeps _ (let _ := _ in _) => cbv zeta
      | |- keeps _ (if ?c then _ else _) => destruct c
      | |- keeps _ (match ?x with _ => _ end) => destruct x
      end ].
Ltac keep := repeat keep_step.

Lemma session_ok_empty : session_ok ∅.
Proof. split; [reflexivity|]. intros v Hv. rewrite lookup_empty in Hv. discriminate. Qed.

Lemma session_ok_set_str (key s : string) (ud : gmap string pyval) :
  key <> "pending_range" -> key <> "num_pages" ->
  session_ok ud -> session_ok (<[key := VStr s]> ud).
Proof.
  intros Hk1 Hk2 [Hp Hn]. split.
  - rewrite lookup_insert_ne by exact Hk1. exact Hp.
  - intros v. rewrite lookup_insert_ne by exact Hk2. apply Hn.
Qed.

Lemma session_ok_set_num_pages (n : Z) (ud : gmap string pyval) :
  session_ok ud -> session_ok (<["num_pages" := VInt n]> ud).
Proof.
  intros [Hp Hn]. split.
  - rewrite lookup_insert_ne by done. exact Hp.
  - intros v. rewrite lookup_insert_eq. intros [= <-]. eauto.
Qed.

Lemma session_ok_delete_pending (ud : gmap string pyval) :
  session_ok ud -> session_ok (delete "pending_range" ud).
Proof.
  intros [Hp Hn]. split.
  - apply lookup_delete_eq.
  - intros v. rewrite lookup_delete_ne by done. apply Hn.
Qed.

Lemma os_path_exists_keeps (I : gmap string pyval -> Prop) (p : string) :
  keeps I (os_path_exists p).
Proof. unfold os_path_exists. keep. Qed.

Lemma read_file_keeps (I : gmap string pyval -> Prop) (p : string) :
  keeps I (read_file p).
Proof. unfold read_file. keep. Qed.

Lemma os_remove_keeps (I : gmap string pyval -> Prop) (p : string) :
  keeps I (os_remove p).
Proof.
  unfold os_remove. keep; try (apply keeps_update_world; intros w' Hw'; exact Hw').
Qed.

Lemma PdfReader_keeps (I : gmap string pyval -> Prop) (p : string) :
  keeps I (PdfReader p).
Proof. unfold PdfReader. keep; try apply read_file_keeps. Qed.

Lemma generate_download_token_keeps (I : gmap string pyval -> Prop)
    (path name : string) (ip : option string) (token : string) (now : Q) :
  keeps I (generate_download_token path name ip token now).
Proof.
  unfold generate_download_token.
  keep; try (apply keeps_update_world; intros w Hw; exact Hw).
Qed.

Lemma start_keeps (I : gmap string pyval -> Prop) (b : bool) : keeps I (start b).
Proof. unfold start. keep. Qed.

Lemma cancel_keeps (I : gmap string pyval -> Prop) : keeps I cancel.
Proof. unfold cancel. keep. Qed.

Lemma list_local_pdfs_keeps (I : gmap string pyval -> Prop) (q m : bool) :
  keeps I (list_local_pdfs q m).
Proof. unfold list_local_pdfs. keep. Qed.

Ltac keep_known :=
  first [ apply os_path_exists_keeps | apply read_file_keeps | apply os_remove_keeps
        | apply PdfReader_keeps | apply generate_download_token_keeps
        | apply start_keeps | apply cancel_keeps | apply list_local_pdfs_keeps ].

Ltac keep_set :=
  apply keeps_user_data_set; intros ud Hud;
  first [ apply session_ok_set_num_pages; exact Hud
        | apply session_ok_set_str; [done|done|exact Hud] ].

(** [keep_with tac]: as [keep], with the lemmas [tac] knows tried first. *)
Ltac keep_with tac := repeat first [ tac | keep_known | keep_set | keep_step ].
Ltac keep_all := keep_with fail.

Lemma handle_url_keeps (env : url_env) : keeps session_ok (handle_url env).
Proof. unfold handle_url. keep_all. Qed.

Lemma download_chunks_keeps (env : button_env) (p : string) (total : Z)
    (chunks : list chunk) :
  keeps session_ok (download_chunks env p total chunks).
Proof. unfold download_chunks. keep_all. Qed.

Lemma confirm_download_keeps (env : button_env) : keeps session_ok (confirm_download env).
Proof.
  unfold confirm_download, user_data_get, as_str.
  keep_with ltac:(apply download_chunks_keeps).
Qed.

Lemma select_pdf_keeps (data : string) : keeps session_ok (select_pdf data).
Proof. unfold select_pdf. keep_all. Qed.

Lemma button_handler_keeps (env : button_env) : keeps session_ok (button_handler env).
Proof.
  unfold button_handler.
  keep_with ltac:(first [apply select_pdf_keeps | apply confirm_download_keeps]).
Qed.

Lemma upload_failed_keeps (env : upload_env) (p : option string) (e : exn) :
  keeps session_ok (upload_failed env p e).
Proof. unfold upload_failed. keep_all. Qed.

Lemma handle_pdf_keeps (env : upload_env) : keeps session_ok (handle_pdf env).
Proof. unfold handle_pdf. keep_with ltac:(apply upload_failed_keeps). Qed.

Lemma validate_request_keeps (t : string) : keeps session_ok (validate_request t).
Proof.
  unfold validate_request, user_data_item, gt_num_pages.
  keep_with ltac:(apply keeps_update_world; intros w Hw;
                  apply session_ok_delete_pending; exact Hw).
Qed.

Lemma report_progress_keeps (env : range_env) (i t iv : Z) :
  keeps session_ok (report_progress env i t iv).
Proof. unfold report_progress. keep_all. Qed.

Lemma add_page_keeps (env : range_env) (reader : list page) (t iv : Z)
    (item : Z * Z) (writer : list page) :
  keeps session_ok (add_page env reader t iv item writer).
Proof. unfold add_page. keep_with ltac:(apply report_progress_keeps). Qed.

Lemma extract_keeps (env : range_env) (input output : string) (s e : Z) :
  keeps session_ok (extract env input output s e).
Proof. unfold extract. keep_with ltac:(apply add_page_keeps). Qed.

Lemma deliver_keeps (env : range_env) (input output : string) (s e : Z) :
  keeps session_ok (deliver env input output s e).
Proof. unfold deliver. keep_all. Qed.

Lemma split_and_send_keeps (env : range_env) (s e : Z) :
  keeps session_ok (split_and_send env s e).
Proof.
  unfold split_and_send, user_data_item, as_str.
  keep_with ltac:(first [apply extract_keeps | apply deliver_keeps]).
Qed.

Lemma process_page_range_keeps (env : range_env) :
  keeps session_ok (process_page_range env).
Proof.
  unfold process_page_range.
  keep_with ltac:(first [apply validate_request_keeps | apply split_and_send_keeps]).
Qed.

Lemma list_stored_pdfs_keeps : keeps session_ok list_stored_pdfs.
Proof. unfold list_stored_pdfs. keep_all. Qed.

Lemma clear_stored_pdfs_keeps (args : list string) :
  keeps session_ok (clear_stored_pdfs args).
Proof. unfold clear_stored_pdfs. keep_all. Qed.

Lemma handle_keeps (u : update) : keeps session_ok (handle u).
Proof.
  destruct u; unfold handle;
    keep_with ltac:(first [ apply button_handler_keeps | apply handle_pdf_keeps
                          | apply handle_url_keeps | apply process_page_range_keeps
                          | apply list_stored_pdfs_keeps | apply clear_stored_pdfs_keeps
                          | apply keeps_update_world; intros w Hw; exact Hw ]).
Qed.

Lemma on_update_keeps (u : update) : keeps session_ok (on_update u).
Proof.
  unfold on_update, error_handler. keep_with ltac:(apply handle_keeps).
Qed.

(** Whatever updates the session has seen, its data are in order. *)
Lemma run_keeps (us : list update) :
  forall w, session_ok (user_data w) -> session_ok (user_data (run us w)).
Proof.
  induction us as [|u us IH]; intros w Hw; [exact Hw|].
  simpl. apply IH. apply on_update_keeps. exact Hw.
Qed.

(** C9.  In a session that started with empty data, after any sequence of
    updates handled by any of the handlers, the session data hold no
    pending_range.  A page-range message is then either refused, with
    nothing done but the two messages sent, or it parses to bounds with 1
    <= start <= end <= recorded page count, and only then does the handler
    go on to extract that range. *)
Theorem extraction_only_after_validation (us : list update) (w0 : World)
    (env : range_env) :
  fresh_session w0 ->
  let w := run us w0 in
  let asked := emit (reply_text MsgValidating []) w in
  user_data w !! "pending_range" = None
  /\ ((exists m, process_page_range env w
                 = (Ok GET_PAGE_RANGE, emit (edit_text m []) asked))
      \/ (exists start_page end_page n,
            parse_page_range (Py.strip (message_text env)) = Some (start_page, end_page)
            /\ recorded_num_pages w = VInt n
            /\ (1 <= start_page <= end_page)%Z /\ (end_page <= n)%Z
            /\ process_page_range env w = split_and_send env start_page end_page asked)).
Proof.
  intros Hfresh w asked.
  assert (Hok : session_ok (user_data w)).
  { apply run_keeps. rewrite Hfresh. apply session_ok_empty. }
  destruct Hok as [Hpending Hnum]. split; [exact Hpending|].
  assert (Hn : exists n, recorded_num_pages w = VInt n).
  { unfold recorded_num_pages. destruct (user_data w !! "num_pages") as [v|] eqn:E.
    - destruct (Hnum v eq_refl) as [n ->]. exists n. reflexivity.
    - exists 0%Z. reflexivity. }
  destruct Hn as [n Hn].
  assert (Hdom : bool_decide ("pending_range" ∈ dom (user_data w)) = false).
  { apply bool_decide_eq_false_2. rewrite elem_of_dom, Hpending. intros [? ?]. discriminate. }
  assert (Hrun : process_page_range env w
                 = match validate_request (Py.strip (message_text env)) asked with
                   | (Ok (inr s), w') => (Ok s, w')
                   | (Ok (inl (s, e)), w') => split_and_send env s e w'
                   | (Raise e, w') => (Raise e, w')
                   end).
  { unfold process_page_range, bind, send, update_world. fold asked.
    destruct (validate_request (Py.strip (message_text env)) asked) as [[[[s e]|s]|e] w'];
      reflexivity. }
  rewrite Hrun.
  destruct (parse_page_range (Py.strip (message_text env))) as [[s e]|] eqn:Hp.
  - destruct (Z_lt_le_dec s 1) as [Hs|Hs];
      [|destruct (Z_lt_le_dec n e) as [He|He];
        [|destruct (Z_lt_le_dec e s) as [Hse|Hse]]].
    + left. eexists.
      rewrite (validate_request_rejects _ asked s e n Hp Hn); [reflexivity|].
      unfold out_of_bounds. lia.
    + left. eexists.
      rewrite (validate_request_rejects _ asked s e n Hp Hn); [reflexivity|].
      unfold out_of_bounds. lia.
    + left. eexists.
      rewrite (validate_request_rejects _ asked s e n Hp Hn); [reflexivity|].
      unfold out_of_bounds. lia.
    + right. exists s, e, n.
      rewrite (validate_request_accepts _ asked s e n Hp Hn) by lia.
      repeat split; try lia; try assumption; reflexivity.
  - left. exists MsgInvalidFormat.
    unfold validate_request, bind at 1, get_world.
    change (user_data asked) with (user_data w). rewrite Hdom, andb_false_r, Hp.
    reflexivity.
Qed.

(** * More of the handlers *)

(** ** Paths *)

Lemma contains_startswith (sub s : string) :
  Py.startswith sub s = true -> Py.contains sub s = true.
Proof. intros H. destruct s; simpl; rewrite H; reflexivity. Qed.

Lemma contains_cons (sub : string) (c : ascii) (s : string) :
  Py.contains sub (String c s) = Py.startswith sub (String c s) || Py.contains sub s.
Proof. reflexivity. Qed.

Lemma not_contains_not_startswith (sub s : string) :
  Py.contains sub s = false -> Py.startswith sub s = false.
Proof.
  intros H. destruct (Py.startswith sub s) eqn:E; [|reflexivity].
  rewrite (contains_startswith _ _ E) in H. discriminate.
Qed.

(** A basename holds no slash. *)
Lemma basename_no_slash (p : string) : Py.contains "/" (Py.basename p) = false.
Proof.
  induction p as [|c r IH]; [reflexivity|]. cbn [Py.basename].
  destruct (Py.contains "/" r) eqn:Er; [exact IH|].
  destruct (Ascii.eqb_spec c "/") as [->|Hc]; [exact Er|].
  rewrite contains_cons, Er. cbn [Py.startswith].
  destruct (Ascii.eqb_spec "/" c) as [E|_]; [congruence|reflexivity].
Qed.

(** The name that ends a path is its basename. *)
Lemma basename_app (dir name : string) :
  Py.contains "/" name = false -> Py.basename (dir +:+ "/" +:+ name) = name.
Proof.
  intros Hn. induction dir as [|c dir IH].
  - change ("" +:+ "/" +:+ name) with (String "/" name). cbn [Py.basename].
    rewrite Hn. reflexivity.
  - rewrite append_cons. cbn [Py.basename].
    assert (E : Py.contains "/" (dir +:+ "/" +:+ name) = true).
    { clear IH. induction dir as [|d dir IHd].
      - reflexivity.
      - rewrite append_cons, contains_cons, IHd. apply orb_true_r. }
    rewrite E. exact IH.
Qed.

(** Joining the storage directory and a bare name. *)
Lemma os_path_join_bare (dir name : string) :
  Py.contains "/" name = false ->
  String.eqb dir "" || Py.endswith "/" dir = false ->
  os_path_join dir name = dir +:+ "/" +:+ name.
Proof.
  intros Hn Hd. unfold os_path_join.
  rewrite (not_contains_not_startswith _ _ Hn), Hd. reflexivity.
Qed.

Lemma stored_path (name : string) :
  Py.contains "/" name = false ->
  os_path_join PDF_STORAGE_DIR name = "stored_pdfs/" +:+ name.
Proof. intros Hn. rewrite os_path_join_bare by (exact Hn || reflexivity). reflexivity. Qed.

(** ** What a computation keeps true of the world *)

Section Preserves.

Variable J : World -> Prop.

Lemma preserves_ret {A} (a : A) : preserves J (ret a).
Proof. intros w Hw. exact Hw. Qed.

Lemma preserves_raise {A} (e : exn) : preserves J (raise e : M A).
Proof. intros w Hw. exact Hw. Qed.

Lemma preserves_bind {A B} (m : M A) (k : A -> M B) :
  preserves J m -> (forall a, preserves J (k a)) -> preserves J (bind m k).
Proof.
  intros Hm Hk w Hw. unfold bind. specialize (Hm w Hw).
  destruct (m w) as [[a|e] w']; simpl in *; [apply Hk; exact Hm|exact Hm].
Qed.

Lemma preserves_bind_ret {A B} (a : A) (k : A -> M B) :
  preserves J (k a) -> preserves J (bind (ret a) k).
Proof. intros Hk w Hw. exact (Hk w Hw). Qed.

Lemma preserves_try_except_only {A} (c : exn -> bool) (m : M A) (h : exn -> M A) :
  preserves J m -> (forall e, preserves J (h e)) -> preserves J (try_except_only c m h).
Proof.
  intros Hm Hh w Hw. unfold try_except_only. specialize (Hm w Hw).
  destruct (m w) as [[a|e] w']; simpl in *; [exact Hm|].
  destruct (c e); [apply Hh; exact Hm|exact Hm].
Qed.

Lemma preserves_try_except {A} (m : M A) (h : exn -> M A) :
  preserves J m -> (forall e, preserves J (h e)) -> preserves J (try_except m h).
Proof.
  intros Hm Hh w Hw. unfold try_except. specialize (Hm w Hw).
  destruct (m w) as [[a|e] w']; simpl in *; [exact Hm|apply Hh; exact Hm].
Qed.

Lemma preserves_get_world : preserves J get_world.
Proof. intros w Hw. exact Hw. Qed.

Lemma preserves_update_world (f : World -> World) :
  (forall w, J w -> J (f w)) -> preserves J (update_world f).
Proof. intros Hf w Hw. apply Hf. exact Hw. Qed.

Lemma preserves_or_raise {A} (e : exn) (o : option A) : preserves J (or_raise e o).
Proof. destruct o; [apply preserves_ret|apply preserves_raise]. Qed.

Lemma preserves_lift_res {A} (r : res A) : preserves J (lift_res r).
Proof. intros w Hw. exact Hw. Qed.

Lemma preserves_for_each {A S R} (xs : list A) (body : A -> S -> M (S + R)) :
  (forall x s, preserves J (body x s)) -> forall s, preserves J (for_each xs s body).
Proof.
  intros Hb. induction xs as [|x xs IH]; intros s; [apply preserves_ret|].
  cbn [for_each]. apply preserves_bind; [apply Hb|].
  intros [s'|r]; [apply IH|apply preserves_ret].
Qed.

End Preserves.

(** Takes a computation apart down to its updates of the world, which
    [leaf] has to settle. *)
Ltac pres_step leaf :=
  first
    [ apply preserves_ret | apply preserves_raise | apply preserves_get_world
    | apply preserves_or_raise | apply preserves_lift_res
    | apply preserves_update_world; intros ? ?; leaf
    | match goal with |- preserves _ (bind (ret _) _) => apply preserves_bind_ret end
    | apply preserves_bind; [|intros ?]
    | apply preserves_try_except_only; [|intros ?]
    | apply preserves_try_except; [|intros ?]
    | apply preserves_for_each; intros ? ?
    | match goal with
      | |- preserves _ (let _ := _ in _) => cbv zeta
      | |- preserves _ (if ?c then _ else _) => destruct c eqn:?
      | |- preserves _ (match ?x with _ => _ end) => destruct x eqn:?
      end
    | progress unfold send, write_file, user_data_set, user_data_get, user_data_item,
        os_path_exists, read_file, os_remove, PdfReader, as_str,
        generate_download_token, start, cancel, list_local_pdfs ].
Ltac pres_with known leaf := repeat first [ known | pres_step leaf ].

(** The leaves when the property is the content of the file at one path. *)
Ltac same_file :=
  simpl;
  repeat first [ rewrite lookup_insert_ne by (first [congruence | eauto])
               | rewrite lookup_delete_ne by (first [congruence | eauto]) ];
  assumption.

Lemma handle_pdf_frame (env : upload_env) (w : World) (p : string) :
  p <> upload_path env -> files (snd (handle_pdf env w)) !! p = files w !! p.
Proof.
  intros Hp.
  assert (H : preserves (fun w' => files w' !! p = files w !! p) (handle_pdf env)).
  { unfold handle_pdf, upload_failed. pres_with fail same_file. }
  apply H. reflexivity.
Qed.

Lemma upload_path_bare (env : upload_env) :
  exists name, upload_path env = "stored_pdfs/" +:+ name /\ Py.contains "/" name = false.
Proof.
  eexists. split; [|apply basename_no_slash].
  unfold upload_path. cbv zeta. apply stored_path. apply basename_no_slash.
Qed.

(** X1.  Whatever name the client declares for its document, the upload
    is stored under a bare name directly in the storage directory: the
    handler creates, overwrites or removes no file but that one, and does
    not touch the token registry. *)
Theorem upload_changes_one_stored_file (env : upload_env) (w : World) :
  exists name,
    upload_path env = "stored_pdfs/" +:+ name
    /\ Py.contains "/" name = false
    /\ (forall p, p <> upload_path env ->
          files (snd (handle_pdf env w)) !! p = files w !! p)
    /\ file_tokens (snd (handle_pdf env w)) = file_tokens w.
Proof.
  destruct (upload_path_bare env) as (name & Hname & Hbare).
  exists name. split; [exact Hname|]. split; [exact Hbare|]. split.
  - intros p Hp. apply handle_pdf_frame. exact Hp.
  - assert (H : preserves (fun w' => file_tokens w' = file_tokens w) (handle_pdf env)).
    { unfold handle_pdf, upload_failed. pres_with fail ltac:(simpl; assumption). }
    apply H. reflexivity.
Qed.

Lemma startswith_serve_dir (uuid rest : string) :
  Py.startswith "/" uuid = false ->
  Py.startswith "web_serve/" (os_path_join WEB_SERVE_DIR (uuid +:+ "_" +:+ rest)) = true.
Proof.
  intros Hu. unfold os_path_join.
  assert (E : Py.startswith "/" (uuid +:+ "_" +:+ rest) = false).
  { destruct uuid as [|c uuid]; [reflexivity|]. rewrite append_cons. exact Hu. }
  rewrite E. reflexivity.
Qed.

Lemma process_page_range_frame (env : range_env) (w : World) (p : string) :
  p <> temp_name env ->
  (forall x, os_path_join WEB_SERVE_DIR (uuid_name env +:+ "_" +:+ x) <> p) ->
  files (snd (process_page_range env w)) !! p = files w !! p.
Proof.
  intros Htmp Hq.
  assert (H : preserves (fun w' => files w' !! p = files w !! p) (process_page_range env)).
  { unfold process_page_range, validate_request, gt_num_pages, split_and_send, extract,
      add_page, report_progress, deliver.
    pres_with fail same_file. }
  apply H. reflexivity.
Qed.

(** X3.  A page-range message never changes a stored document: whatever
    the session holds and however the request ends, the only files the
    handler creates, overwrites or removes are its temporary output and
    copies in the serve directory. *)
Theorem range_request_keeps_other_files (env : range_env) (w : World) (p : string) :
  Py.startswith "/" (uuid_name env) = false ->
  p <> temp_name env ->
  Py.startswith "web_serve/" p = false ->
  files (snd (process_page_range env w)) !! p = files w !! p.
Proof.
  intros Hu Htmp Hp. apply process_page_range_frame; [exact Htmp|].
  intros x E. rewrite <- E, startswith_serve_dir in Hp by exact Hu. discriminate.
Qed.

Lemma try_user_data_get {A} (key : string) (k : option pyval -> M A) (h : exn -> M A)
    (w : World) :
  try_except (bind (user_data_get key) k) h w = try_except (k (user_data w !! key)) h w.
Proof. reflexivity. Qed.

Lemma download_target_bare (w : World) :
  exists name, download_target w = "stored_pdfs/" +:+ name /\ Py.contains "/" name = false.
Proof.
  eexists. split; [|apply basename_no_slash].
  unfold download_target. apply stored_path, basename_no_slash.
Qed.

Lemma confirm_download_frame (env : button_env) (w : World) (p : string) :
  p <> download_target w ->
  files (snd (confirm_download env w)) !! p = files w !! p.
Proof.
  intros Hp. unfold confirm_download.
  unfold bind at 1, user_data_get at 1, bind at 1, get_world, ret.
  destruct (falsy (user_data w !! "download_url")); [reflexivity|].
  unfold bind at 1, send at 1, update_world. rewrite try_user_data_get.
  unfold download_target in Hp.
  change (user_data (emit (edit_text MsgStartingDownload []) w)) with (user_data w).
  refine ((_ : preserves (fun w' => files w' !! p = files w !! p) _)
            (emit (edit_text MsgStartingDownload []) w) eq_refl).
  destruct (user_data w !! "file_name") as [[name|n|a b]|]; simpl default;
    unfold download_chunks, as_str; cbv beta match; pres_with fail same_file.
Qed.

Lemma button_handler_frame (env : button_env) (w : World) (p : string) :
  p <> download_target w -> files (snd (button_handler env w)) !! p = files w !! p.
Proof.
  intros Hp. unfold button_handler.
  unfold bind at 1, send at 1, update_world. cbv zeta.
  set (w1 := emit answer w).
  assert (Hc : files (snd (confirm_download env w1)) !! p = files w !! p).
  { apply (confirm_download_frame env w1 p). exact Hp. }
  assert (Ho : forall m : M conv_state,
             preserves (fun w' => files w' !! p = files w !! p) m ->
             files (snd (m w1)) !! p = files w !! p).
  { intros m Hm. apply Hm. reflexivity. }
  repeat match goal with
         | |- files (snd ((if ?c then _ else _) w1)) !! p = _ => destruct c
         end;
    first [ exact Hc | apply Ho; unfold select_pdf; pres_with fail same_file ].
Qed.

(** X2.  A button press changes at most one file: the one a confirmed
    download is stored in, which lies directly in the storage directory
    under the basename of the recorded file name; the token registry is
    not touched. *)
Theorem button_changes_one_stored_file (env : button_env) (w : World) :
  exists name,
    download_target w = "stored_pdfs/" +:+ name
    /\ Py.contains "/" name = false
    /\ (forall p, p <> download_target w ->
          files (snd (button_handler env w)) !! p = files w !! p)
    /\ file_tokens (snd (button_handler env w)) = file_tokens w.
Proof.
  destruct (download_target_bare w) as (name & Hname & Hbare).
  exists name. split; [exact Hname|]. split; [exact Hbare|]. split.
  - intros p Hp. apply button_handler_frame. exact Hp.
  - assert (H : preserves (fun w' => file_tokens w' = file_tokens w) (button_handler env)).
    { unfold button_handler, select_pdf, confirm_download, download_chunks.
      pres_with fail ltac:(simpl; assumption). }
    apply H. reflexivity.
Qed.

(** ** Selecting a stored document *)

(** X4.  The data that the listing (line 198) and the Use same PDF button
    (line 690) put on a button select the document they were made from:
    for a file directly in the storage directory that reads as a PDF, the
    press of the button made from its basename records that very path and
    the page count of the file, changes no file and returns
    GET_PAGE_RANGE. *)
Theorem stored_name_selects_its_file (env : button_env) (name : string) (w : World)
    (content : bytes) (pages : list page) :
  let p := "stored_pdfs/" +:+ name in
  Py.contains "/" name = false ->
  files w !! p = Some content ->
  PdfReader_pages content = Some pages ->
  query_data env = "select_pdf:" +:+ Py.basename p ->
  button_handler env w
  = (Ok GET_PAGE_RANGE,
     emits [answer; edit_text MsgAnalyzingSelected [];
            edit_text (MsgSelected name (Z.of_nat (length pages))) []]
       (set_user_data (fun ud => <["num_pages" := VInt (Z.of_nat (length pages))]>
                                   (<["pdf_path" := VStr p]> ud)) w)).
Proof.
  intros p Hbare Hf Hr Hd. unfold button_handler. rewrite Hd. cbv zeta.
  assert (Hbase : Py.basename p = name).
  { apply (basename_app "stored_pdfs"). exact Hbare. }
  rewrite Hbase.
  change (String.eqb ("select_pdf:" +:+ name) "upload") with false.
  change (String.eqb ("select_pdf:" +:+ name) "url") with false.
  change (String.eqb ("select_pdf:" +:+ name) "local") with false.
  change (String.eqb ("select_pdf:" +:+ name) "back_to_start") with false.
  change (Py.startswith "select_pdf:" ("select_pdf:" +:+ name)) with true.
  cbv beta match. unfold select_pdf.
  change (Py.slice_from 11 ("select_pdf:" +:+ name)) with name. cbv zeta.
  rewrite (stored_path name Hbare). fold p.
  run_m. rewrite bool_decide_eq_true_2 by (rewrite Hf; eauto).
  run_m. rewrite Hf. run_m. rewrite Hr. run_m.
  unfold emits, set_user_data. simpl. rewrite <- !app_assoc. reflexivity.
Qed.

(** ** Deleting stored documents *)

Lemma lookup_delete_all (xs : list string) (p : string) :
  forall m : gmap string bytes,
    foldl (fun m x => delete x m) m xs !! p
    = if bool_decide (p ∈ xs) then None else m !! p.
Proof.
  induction xs as [|x xs IH]; intros m; [reflexivity|]. cbn [foldl]. rewrite IH.
  destruct (decide (p ∈ xs)) as [Hin|Hin].
  - rewrite !bool_decide_eq_true_2; [reflexivity|set_solver|exact Hin].
  - rewrite (bool_decide_eq_false_2 _ Hin).
    destruct (decide (p = x)) as [->|Hne].
    + rewrite bool_decide_eq_true_2 by set_solver. apply lookup_delete_eq.
    + rewrite bool_decide_eq_false_2
        by (intros [E|E]%elem_of_cons; [congruence|exact (Hin E)]).
      apply lookup_delete_ne. congruence.
Qed.

Lemma elem_of_glob_stored_pdfs (w : World) (p : string) :
  p ∈ glob_stored_pdfs w <-> is_stored_pdf p = true /\ is_Some (files w !! p).
Proof.
  unfold glob_stored_pdfs. rewrite list_elem_of_filter, list_elem_of_fmap. split.
  - intros [Hs [[q c] [-> Hin]]]. split; [exact Hs|].
    apply elem_of_map_to_list in Hin. simpl. rewrite Hin. eauto.
  - intros [Hs [c Hc]]. split; [exact Hs|]. exists (p, c). split; [reflexivity|].
    apply elem_of_map_to_list. exact Hc.
Qed.

Lemma NoDup_glob_stored_pdfs (w : World) : NoDup (glob_stored_pdfs w).
Proof. apply NoDup_filter, NoDup_fst_map_to_list. Qed.

(** The loop of [clear_stored_pdfs] over files that are there, each once:
    all of them are removed and counted. *)
Lemma clear_loop (xs : list string) :
  forall (count : Z) (w : World),
    NoDup xs -> (forall x, x ∈ xs -> is_Some (files w !! x)) ->
    for_each xs count
      (fun pdf_file deleted_count =>
         try_except
           (bind (os_remove pdf_file) (fun _ => ret (inl (deleted_count + 1)%Z)))
           (fun e => bind (send (logged ERROR (LogErrorDeleting pdf_file)))
                       (fun _ => ret (inl deleted_count)))) w
    = (Ok (inl (count + Z.of_nat (length xs))%Z : Z + unit),
       set_files (fun m => foldl (fun m x => delete x m) m xs) w).
Proof.
  induction xs as [|x xs IH]; intros count w Hnd Hin.
  - simpl. unfold ret. rewrite Z.add_0_r. destruct w; reflexivity.
  - apply NoDup_cons in Hnd as [Hx Hnd].
    destruct (Hin x ltac:(set_solver)) as [c Hc].
    cbn [for_each]. unfold bind at 1, try_except at 1, bind at 1, os_remove, bind at 1,
      get_world. rewrite Hc. unfold update_world, ret.
    rewrite IH; [| exact Hnd |].
    + f_equal. f_equal. f_equal. cbn [length]. lia.
    + intros y Hy. simpl. rewrite lookup_delete_ne by set_solver. apply Hin. set_solver.
Qed.

(** What [/clear_pdfs] does, as one equation. *)
Lemma clear_stored_pdfs_run (args : list string) (w : World) :
  clear_stored_pdfs args w
  = (Ok tt,
     emit (reply_text
             (if clear_confirmed args
              then match glob_stored_pdfs w with
                   | [] => MsgNothingToDelete
                   | pdf_files => MsgDeleted (Z.of_nat (length pdf_files))
                   end
              else MsgClearWarning) [])
       (set_files (fun m => if clear_confirmed args
                            then foldl (fun m x => delete x m) m (glob_stored_pdfs w)
                            else m) w)).
Proof.
  assert (Hid : forall e, send e w = (Ok tt, emit e (set_files (fun m => m) w))).
  { intros e. destruct w; reflexivity. }
  unfold clear_stored_pdfs, clear_confirmed.
  destruct args as [|confirm rest]; [apply Hid|].
  destruct (String.eqb (Py.lower confirm) "confirm"); [|apply Hid].
  unfold bind at 1, get_world.
  destruct (glob_stored_pdfs w) as [|x xs] eqn:Hglob; [apply Hid|].
  rewrite <- Hglob. unfold bind at 1.
  rewrite clear_loop.
  - rewrite Z.add_0_l. reflexivity.
  - apply NoDup_glob_stored_pdfs.
  - intros y Hy. apply elem_of_glob_stored_pdfs in Hy as [_ Hy]. exact Hy.
Qed.

Lemma lookup_cleared (args : list string) (w : World) (p : string) :
  (if clear_confirmed args
   then foldl (fun m x => delete x m) (files w) (glob_stored_pdfs w)
   else files w) !! p
  = if clear_confirmed args && is_stored_pdf p then None else files w !! p.
Proof.
  destruct (clear_confirmed args); [|reflexivity]. cbn [andb].
  rewrite lookup_delete_all.
  destruct (is_stored_pdf p) eqn:Hs.
  - destruct (decide (p ∈ glob_stored_pdfs w)) as [Hin|Hin].
    { rewrite bool_decide_eq_true_2 by exact Hin. reflexivity. }
    rewrite bool_decide_eq_false_2 by exact Hin.
    destruct (files w !! p) as [c|] eqn:Hc; [|reflexivity].
    exfalso. apply Hin. apply elem_of_glob_stored_pdfs. eauto.
  - rewrite bool_decide_eq_false_2; [reflexivity|].
    intros Hin. apply elem_of_glob_stored_pdfs in Hin as [Hs' _]. congruence.
Qed.

(** X5.  The /clear_pdfs command deletes exactly when its first argument
    reads confirm, in any capitalisation; then every stored PDF is removed
    and no other file, and the reply counts the files that were stored.
    Otherwise nothing changes but the warning sent. *)
Theorem clear_pdfs_removes_stored_pdfs_only (args : list string) (w : World) :
  exists w',
    clear_stored_pdfs args w = (Ok tt, w')
    /\ (forall p, files w' !! p
                  = if clear_confirmed args && is_stored_pdf p then None
                    else files w !! p)
    /\ user_data w' = user_data w /\ file_tokens w' = file_tokens w
    /\ trace w'
       = trace w
         ++ [reply_text
               (if clear_confirmed args
                then match glob_stored_pdfs w with
                     | [] => MsgNothingToDelete
                     | pdf_files => MsgDeleted (Z.of_nat (length pdf_files))
                     end
                else MsgClearWarning) []].
Proof.
  eexists. split; [apply clear_stored_pdfs_run|]. simpl.
  split; [intros p; apply lookup_cleared|]. auto.
Qed.

(** ** The sweep of the serve directory *)

Lemma startswith_slice (pre s : string) :
  Py.startswith pre s = true -> pre +:+ Py.slice_from (String.length pre) s = s.
Proof.
  revert s. induction pre as [|a pre IH]; intros s H; [reflexivity|].
  destruct s as [|b s]; [discriminate|]. simpl in H.
  destruct (Ascii.eqb_spec a b) as [->|]; [|discriminate].
  rewrite append_cons. cbn [String.length Py.slice_from]. rewrite IH by exact H.
  reflexivity.
Qed.

(** A name of the listing, joined to the directory, is the path again. *)
Lemma served_name_path (q : string) :
  directly_in WEB_SERVE_DIR q = true ->
  os_path_join WEB_SERVE_DIR (Py.slice_from (String.length WEB_SERVE_DIR + 1) q) = q.
Proof.
  unfold directly_in. intros [Hpre Hbare%negb_true_iff]%andb_true_iff.
  rewrite os_path_join_bare by (exact Hbare || reflexivity).
  apply (startswith_slice "web_serve/" q Hpre).
Qed.

(** The files of the world after the names [names] were swept. *)
Lemma lookup_sweep (cond : string -> bool) (path : string -> string)
    (names : list string) (p : string) :
  forall m : gmap string bytes,
    foldl (fun m n => if cond n then delete (path n) m else m) m names !! p
    = if existsb (fun n => cond n && String.eqb (path n) p) names then None
      else m !! p.
Proof.
  induction names as [|n names IH]; intros m; [reflexivity|].
  cbn [foldl existsb]. rewrite IH.
  destruct (existsb _ names); [now rewrite orb_true_r|]. rewrite orb_false_r.
  destruct (cond n); [|reflexivity]. cbn [andb].
  destruct (String.eqb_spec (path n) p) as [->|Hne].
  - apply lookup_delete_eq.
  - apply lookup_delete_ne. exact Hne.
Qed.

Lemma sweep_loop (getmtime : string -> Q) (current_time : Q) (names : list string) :
  forall (log : list sweep_event) (w : World),
    exists log' : list sweep_event,
      for_each names log
        (fun filename log =>
           if Qltb (getmtime (os_path_join WEB_SERVE_DIR filename)
                    + inject_Z FILE_EXPIRATION_TIME) current_time
           then
             try_except
               (bind (os_remove (os_path_join WEB_SERVE_DIR filename))
                  (fun _ => ret (inl (log ++ [RemovedExpired filename]))))
               (fun e => ret (inl (log ++ [ErrorRemoving filename e])))
           else ret (inl log)) w
      = (Ok (inl log' : list sweep_event + list sweep_event),
         set_files
           (fun m =>
              foldl (fun m n =>
                       if Qltb (getmtime (os_path_join WEB_SERVE_DIR n)
                                + inject_Z FILE_EXPIRATION_TIME) current_time
                       then delete (os_path_join WEB_SERVE_DIR n) m else m) m names) w).
Proof.
  match goal with |- context [for_each _ _ ?b] => set (body := b) end.
  induction names as [|n names IH]; intros log w.
  - exists log. destruct w; reflexivity.
  - cbn [for_each foldl]. unfold bind at 1. unfold body at 1.
    destruct (Qltb _ current_time).
    + unfold try_except, bind at 1, os_remove, bind at 1, get_world.
      destruct (files w !! os_path_join WEB_SERVE_DIR n) as [c|] eqn:Hc.
      * unfold update_world, ret.
        destruct (IH (log ++ [RemovedExpired n])
                    (set_files (delete (os_path_join WEB_SERVE_DIR n)) w)) as [log' E].
        exists log'. rewrite E. reflexivity.
      * unfold raise, ret.
        destruct (IH (log ++ [ErrorRemoving n FileNotFoundError]) w) as [log' E].
        exists log'. rewrite E. f_equal. destruct w. unfold set_files. simpl in *.
        rewrite (delete_id _ _ Hc). reflexivity.
    + unfold ret. destruct (IH log w) as [log' E]. exists log'. exact E.
Qed.

Lemma cleanup_expired_files_run (getmtime : string -> Q) (current_time : Q) (w : World) :
  exists log : list sweep_event,
    cleanup_expired_files getmtime current_time w
    = (Ok (log ++ [NextCleanup 3600]),
       set_files (fun _ => swept getmtime current_time w) w).
Proof.
  unfold cleanup_expired_files, bind at 1, get_world. cbv zeta.
  destruct (sweep_loop getmtime current_time (listdir_files WEB_SERVE_DIR w) [] w)
    as [log E].
  unfold bind at 1. rewrite E. exists log. reflexivity.
Qed.

Lemma lookup_swept (getmtime : string -> Q) (current_time : Q) (w : World) (p : string) :
  swept getmtime current_time w !! p
  = if directly_in WEB_SERVE_DIR p
       && Qltb (getmtime p + inject_Z FILE_EXPIRATION_TIME) current_time
    then None else files w !! p.
Proof.
  unfold swept.
  rewrite (lookup_sweep
             (fun n => Qltb (getmtime (os_path_join WEB_SERVE_DIR n)
                             + inject_Z FILE_EXPIRATION_TIME) current_time)
             (os_path_join WEB_SERVE_DIR)).
  destruct (existsb _ (listdir_files WEB_SERVE_DIR w)) eqn:Hex.
  - apply existsb_exists in Hex as (n & Hin & [Hexp Hp%String.eqb_eq]%andb_true_iff).
    apply list_elem_of_In in Hin.
    unfold listdir_files in Hin.
    apply list_elem_of_fmap in Hin as (q & -> & Hq).
    apply list_elem_of_filter in Hq as [Hdir _].
    rewrite (served_name_path q Hdir) in Hp, Hexp. subst q.
    rewrite Hdir, Hexp. reflexivity.
  - destruct (directly_in WEB_SERVE_DIR p) eqn:Hdir; [|reflexivity].
    destruct (Qltb _ current_time) eqn:Hexp; [|reflexivity]. cbn [andb].
    destruct (files w !! p) as [c|] eqn:Hc; [|reflexivity].
    exfalso. apply (eq_true_false_abs _ eq_refl). rewrite <- Hex. symmetry.
    apply existsb_exists.
    exists (Py.slice_from (String.length WEB_SERVE_DIR + 1) p). split.
    + apply list_elem_of_In. unfold listdir_files. apply list_elem_of_fmap.
      exists p. split; [reflexivity|]. apply list_elem_of_filter. split; [exact Hdir|].
      apply list_elem_of_fmap. exists (p, c). split; [reflexivity|].
      apply elem_of_map_to_list. exact Hc.
    + rewrite (served_name_path p Hdir), Hexp. apply String.eqb_refl.
Qed.

(** X6.  The sweep removes exactly the files that lie directly in the
    serve directory and whose modification time is more than 86400 s
    before the sweep; every other file, the session data and the token
    registry are as before, and the next sweep is scheduled in an hour. *)
Theorem sweep_removes_expired_copies (getmtime : string -> Q) (current_time : Q)
    (w : World) :
  exists (log : list sweep_event) (w' : World),
    cleanup_expired_files getmtime current_time w = (Ok (log ++ [NextCleanup 3600]), w')
    /\ (forall p, files w' !! p
                  = if directly_in WEB_SERVE_DIR p
                       && Qltb (getmtime p + inject_Z FILE_EXPIRATION_TIME) current_time
                    then None else files w !! p)
    /\ user_data w' = user_data w /\ file_tokens w' = file_tokens w
    /\ trace w' = trace w.
Proof.
  destruct (cleanup_expired_files_run getmtime current_time w) as [log E].
  exists log. eexists. split; [exact E|]. simpl.
  split; [apply lookup_swept|]. repeat split.
Qed.

(** X7.  The sweep does not touch the registry, so a token can outlive
    its file: once the copy of a registered token was swept the endpoint
    answers 404 for it at any time, and for a token whose copy was not
    swept it answers as it did before the sweep. *)
Theorem swept_copy_is_not_served (getmtime : string -> Q) (current_time : Q)
    (w : World) (token : string) (t : token_data) (now : Q) :
  file_tokens w !! token = Some t ->
  let w' := snd (cleanup_expired_files getmtime current_time w) in
  let is_swept :=
    directly_in WEB_SERVE_DIR (file_path t)
    && Qltb (getmtime (file_path t) + inject_Z FILE_EXPIRATION_TIME) current_time in
  (is_swept = true -> download_file token now w' = abort 404)
  /\ (is_swept = false -> download_file token now w' = download_file token now w).
Proof.
  intros Ht w' is_swept. subst w'.
  destruct (cleanup_expired_files_run getmtime current_time w) as [log E].
  rewrite E. cbn [snd]. unfold download_file. simpl file_tokens. rewrite Ht.
  simpl files. rewrite lookup_swept. fold is_swept.
  split; intros ->; [|reflexivity].
  destruct (Qlt_le_dec (expire_time t) now); reflexivity.
Qed.

(** ** A confirmed download *)

Lemma set_files_insert_id (w : World) (p : string) (c : bytes) :
  files w !! p = Some c -> set_files <[p := c]> w = w.
Proof.
  intros H. destruct w. unfold set_files. simpl in *. rewrite (insert_id _ _ _ H).
  reflexivity.
Qed.

Lemma download_loop (env : button_env) (path : string) (total : Z) (chunks : list chunk) :
  forall (st : Z * Z) (w : World) (content : bytes),
    files w !! path = Some content ->
    exists (es : list event) (st' : Z * Z),
      for_each chunks st
        (fun c '(downloaded, last_update_time) =>
           if (b_len (chunk_bytes c) =? 0)%Z then ret (inl (downloaded, last_update_time))
           else
             bind (read_file path) (fun so_far =>
             bind (write_file path (b_app so_far (chunk_bytes c))) (fun _ =>
             let downloaded := (downloaded + b_len (chunk_bytes c))%Z in
             let current_time := chunk_clock c in
             if update_due total downloaded last_update_time current_time
                  (start_clock env)
             then
               let last_update_time := downloaded in
               bind (try_except
                       (if download_progress_delivered env downloaded
                        then send (edit_text (MsgDownloading downloaded total) [])
                        else raise TelegramError)
                       (fun _ => send (logged WARNING LogNoProgressEdit)))
                    (fun _ => ret (inl (downloaded, last_update_time)))
             else ret (inl (downloaded, last_update_time))))) w
      = (Ok (inl st' : Z * Z + conv_state),
         set_files <[path := written content chunks]> (emits es w))
      /\ Forall download_report es
      /\ ((total <= 0)%Z -> es = []).
Proof.
  match goal with |- context [for_each _ _ ?b] => set (body := b) end.
  induction chunks as [|c cs IH]; intros [downloaded last] w content Hf.
  - exists [], (downloaded, last). split; [|split; [constructor|reflexivity]].
    cbn [for_each written]. rewrite emits_nil, set_files_insert_id by exact Hf.
    reflexivity.
  - cbn [for_each written]. unfold bind at 1. unfold body at 1.
    destruct (b_len (chunk_bytes c) =? 0)%Z.
    + unfold ret. apply IH. exact Hf.
    + unfold bind at 1, read_file, bind at 1, get_world. rewrite Hf.
      cbn [or_raise]. unfold ret at 1.
      unfold bind at 1, write_file, update_world. cbv zeta.
      set (w1 := set_files <[path := b_app content (chunk_bytes c)]> w).
      assert (Hf1 : forall es, files (emits es w1) !! path
                               = Some (b_app content (chunk_bytes c))).
      { intros es. simpl. apply lookup_insert_eq. }
      assert (Hw : forall es es', 
                 set_files <[path := written (b_app content (chunk_bytes c)) cs]>
                   (emits es' (emits es w1))
                 = set_files <[path := written (b_app content (chunk_bytes c)) cs]>
                     (emits (es ++ es') w)).
      { intros es es'. unfold w1, set_files, emits. simpl.
        rewrite insert_insert_eq, app_assoc. reflexivity. }
      destruct (update_due total _ last (chunk_clock c) (start_clock env)) eqn:Hdue.
      * assert (Hpos : (0 < total)%Z).
        { unfold update_due in Hdue. apply andb_true_iff in Hdue as [H _].
          apply Z.ltb_lt in H. exact H. }
        unfold bind at 1, try_except.
        destruct (download_progress_delivered env _).
        -- unfold send, update_world, ret, emit. cbv beta match.
           destruct (IH (downloaded + b_len (chunk_bytes c), downloaded + b_len (chunk_bytes c))%Z
                       _ _ (Hf1 [edit_text (MsgDownloading (downloaded + b_len (chunk_bytes c)) total) []]))
             as (es & st' & E & Hes & _).
           eexists _, st'. split; [rewrite E; apply f_equal, Hw|]. split; [|lia].
           constructor; [left; reflexivity|exact Hes].
        -- unfold raise, send, update_world, ret, emit. cbv beta match.
           destruct (IH (downloaded + b_len (chunk_bytes c), downloaded + b_len (chunk_bytes c))%Z
                       _ _ (Hf1 [logged WARNING LogNoProgressEdit]))
             as (es & st' & E & Hes & _).
           eexists _, st'. split; [rewrite E; apply f_equal, Hw|]. split; [|lia].
           constructor; [right; reflexivity|exact Hes].
      * unfold ret.
        destruct (IH (downloaded + b_len (chunk_bytes c), last)%Z w1 _ (Hf1 []))
          as (es & st' & E & Hes & Hnone).
        exists es, st'. split; [rewrite E|tauto].
        f_equal. specialize (Hw [] es). rewrite emits_nil in Hw. exact Hw.
Qed.

Ltac ends_with H := let E := fresh in intros E; left; revert E; apply H; reflexivity.

(** What the handler of a confirmed download comes to: it ends the
    conversation and leaves the session data alone, or the whole body was
    stored and read, and the session records it. *)
Lemma confirm_download_cases (env : button_env) (w : World) :
  exists w',
    (confirm_download env w = (Ok ConversationHandler_END, w')
     /\ user_data w' = user_data w)
    \/ (exists (response : get_response) (pages : list page),
          confirm_download env w = (Ok GET_PAGE_RANGE, w')
          /\ get env = Some response
          /\ raise_for_status_ok response = true
          /\ stream_breaks response = false
          /\ files w'
             = <[download_target w := written b_empty (iter_content response)]> (files w)
          /\ PdfReader_pages (written b_empty (iter_content response)) = Some pages
          /\ user_data w'
             = <["pdf_path" := VStr (download_target w)]>
                 (<["num_pages" := VInt (Z.of_nat (length pages))]> (user_data w))).
Proof.
  destruct (confirm_download env w) as [r w'] eqn:E. exists w'. revert E.
  assert (Hend : forall w0 : World,
            user_data w0 = user_data w ->
            (Ok ConversationHandler_END, w0) = (r, w') ->
            (r, w') = (Ok ConversationHandler_END, w') /\ user_data w' = user_data w).
  { intros w0 Hw0 [= <- <-]. split; [reflexivity|exact Hw0]. }
  unfold confirm_download, download_target. run_m.
  destruct (falsy (user_data w !! "download_url")); [ends_with Hend|].
  destruct (user_data w !! "file_name") as [[name|n|a b]|]; simpl;
    try (ends_with Hend).
  all: destruct (get env) as [response|]; simpl; [|ends_with Hend].
  all: destruct (raise_for_status_ok response) eqn:Hstatus; simpl;
         [|ends_with Hend].
  all: destruct (get_content_length response) as [l|];
         [destruct (Py.int l) as [total|]|]; simpl; try (ends_with Hend).
  all: match goal with
       | |- context [download_chunks ?e ?p ?t ?c ?w2] =>
           destruct (download_loop e p t c (0, 0)%Z w2 b_empty) as (es & st & El & _);
             [apply lookup_insert_eq|];
           change (download_chunks e p t c w2
                   = (Ok (inl st),
                      set_files <[p := written b_empty c]> (emits es w2))) in El;
           rewrite El; clear El
       end.
  all: destruct (stream_breaks response) eqn:Hbreaks; simpl; [ends_with Hend|].
  all: rewrite lookup_insert_eq; simpl.
  all: destruct (PdfReader_pages (written b_empty (iter_content response)))
         as [pages|] eqn:Hpages; simpl; [|ends_with Hend].
  all: intros [= <- <-]; right; exists response, pages; simpl;
         rewrite !insert_insert_eq; repeat split; assumption.
Qed.

(** X8.  The body of a download is stored chunk by chunk: whatever
    becomes of the progress edits, the loop returns with the file holding
    what it held before followed by the non-empty chunks in their order;
    besides the file it only sends progress edits, and none at all when no
    positive content length was announced. *)
Theorem chunks_are_appended_in_order (env : button_env) (path : string) (total : Z)
    (chunks : list chunk) (w : World) (content : bytes) :
  files w !! path = Some content ->
  exists (es : list event) (st : Z * Z),
    download_chunks env path total chunks w
    = (Ok (inl st), set_files <[path := written content chunks]> (emits es w))
    /\ Forall download_report es
    /\ ((total <= 0)%Z -> es = []).
Proof. intros Hf. apply download_loop. exact Hf. Qed.

(** X9.  A confirmed download never raises.  Either it ends the
    conversation, and then the session data are as before; or the request
    succeeded, the stream did not break, the file at the download target
    holds the chunks of the body in order and reads as a PDF, and the
    session records that path and the page count of that file. *)
Theorem confirmed_download_ends_or_records (env : button_env) (w : World) :
  query_data env = "confirm_download" ->
  exists w',
    (button_handler env w = (Ok ConversationHandler_END, w')
     /\ user_data w' = user_data w)
    \/ (exists (response : get_response) (pages : list page),
          button_handler env w = (Ok GET_PAGE_RANGE, w')
          /\ get env = Some response
          /\ raise_for_status_ok response = true
          /\ stream_breaks response = false
          /\ files w'
             = <[download_target w := written b_empty (iter_content response)]> (files w)
          /\ PdfReader_pages (written b_empty (iter_content response)) = Some pages
          /\ user_data w'
             = <["pdf_path" := VStr (download_target w)]>
                 (<["num_pages" := VInt (Z.of_nat (length pages))]> (user_data w))).
Proof.
  intros Hq. unfold button_handler. rewrite Hq. cbv zeta.
  simpl (String.eqb _ _). simpl (Py.startswith _ _). cbv beta match.
  unfold bind at 1, send at 1, update_world.
  exact (confirm_download_cases env (emit answer w)).
Qed.

(** ** A link to a remote file *)

Lemma handle_url_cases (env : url_env) (w w' : World) (s : conv_state) :
  handle_url env w = (Ok s, w') ->
  s = GET_URL
  \/ (s = CONFIRM_DOWNLOAD
      /\ exists (response : head_response) (name : string),
           head env = Some response
           /\ link_accepted (Py.strip (url_text env)) response
           /\ get_filename_from_url (Py.strip (url_text env))
                (content_disposition response) = Ok name
           /\ user_data w'
              = <["file_name" := VStr name]>
                  (<["download_url" := VStr (Py.strip (url_text env))]> (user_data w))
           /\ files w' = files w /\ file_tokens w' = file_tokens w).
Proof.
  unfold handle_url, link_accepted. cbv zeta. set (url := Py.strip (url_text env)).
  destruct (Py.startswith "http://" url || Py.startswith "https://" url) eqn:Hurl;
    run_m; [|intros [= <- _]; left; reflexivity].
  destruct (urlparse_path url) as [path|] eqn:Hpath; run_m; [|discriminate].
  destruct (head env) as [response|]; run_m; [|intros [= <- _]; left; reflexivity].
  destruct (Z.eqb_spec (status_code response) 200) as [Hstatus|_]; run_m;
    [|intros [= <- _]; left; reflexivity].
  destruct (negb (String.eqb (Py.lower (default "" (content_type response))) "")
            && negb (Py.contains "pdf" (Py.lower (default "" (content_type response))))
            && negb (Py.endswith ".pdf" (Py.lower path))) eqn:Htype; run_m;
    [intros [= <- _]; left; reflexivity|].
  assert (Hpdf : String.eqb (Py.lower (default "" (content_type response))) ""
                 || Py.contains "pdf" (Py.lower (default "" (content_type response)))
                 || Py.endswith ".pdf" (Py.lower path) = true).
  { destruct (String.eqb _ ""), (Py.contains "pdf" _), (Py.endswith ".pdf" _);
      simpl in *; congruence. }
  clear Htype.
  destruct (content_length response) as [l|] eqn:Hl;
    [destruct (String.eqb_spec l "") as [El|Hne]; run_m;
     [|destruct (Py.int l) as [n|] eqn:Hint; run_m;
       [destruct (Z.ltb_spec MAX_DOWNLOAD_SIZE n); run_m;
        [intros [= <- _]; left; reflexivity|]
       |discriminate]]|].
  all: destruct (get_filename_from_url url (content_disposition response))
         as [name|e] eqn:Hn; run_m;
         [|destruct (is_RequestException e);
           [intros [= <- _]; left; reflexivity|discriminate]].
  all: intros [= <- <-]; right; split; [reflexivity|]; exists response, name; simpl.
  all: repeat split; eauto.
  all: rewrite Hl; first [exact I | left; assumption | right; eexists; split; [eassumption|lia]].
Qed.

(** X10.  The user is asked to confirm a download only after the link
    passed every check: it starts with http:// or https://, the HEAD
    request was answered with status 200, the content type is absent or
    names pdf or the path ends in .pdf, and a content length, if announced,
    is a number of at most 2 GiB.  The session then holds the stripped link
    and the name found for the file, and no file was touched. *)
Theorem confirmation_follows_the_checks (env : url_env) (w w' : World) :
  handle_url env w = (Ok CONFIRM_DOWNLOAD, w') ->
  exists (response : head_response) (name : string),
    head env = Some response
    /\ link_accepted (Py.strip (url_text env)) response
    /\ get_filename_from_url (Py.strip (url_text env)) (content_disposition response)
       = Ok name
    /\ user_data w'
       = <["file_name" := VStr name]>
           (<["download_url" := VStr (Py.strip (url_text env))]> (user_data w))
    /\ files w' = files w /\ file_tokens w' = file_tokens w.
Proof.
  intros H. destruct (handle_url_cases env w w' _ H) as [E|[_ Hc]]; [discriminate|].
  exact Hc.
Qed.

(** ** What the page count on record stands for *)

Lemma list_local_pdfs_returns (q m : bool) (w w' : World) (s : conv_state) :
  list_local_pdfs q m w = (Ok s, w') -> s = UPLOAD_PDF \/ s = SELECT_LOCAL_PDF.
Proof.
  unfold list_local_pdfs. destruct q, m; run_m.
  all: match goal with
       | |- context [glob_stored_pdfs ?x] => destruct (glob_stored_pdfs x)
       end; simpl; intros [= <- _]; auto.
Qed.

Lemma upload_failed_returns (env : upload_env) (p : option string) (e : exn)
    (w w' : World) (s : conv_state) :
  upload_failed env p e w = (Ok s, w') -> s = UPLOAD_PDF.
Proof.
  unfold upload_failed. destruct (error_edit_ok env); [|run_m; discriminate].
  destruct p as [p|]; run_m; [|intros [= <- _]; reflexivity].
  destruct (bool_decide _); run_m; [|intros [= <- _]; reflexivity].
  destruct (files w !! p); run_m; intros [= <- _]; reflexivity.
Qed.

Lemma handle_pdf_records (env : upload_env) (w w' : World) :
  handle_pdf env w = (Ok GET_PAGE_RANGE, w') -> document_recorded w'.
Proof.
  unfold handle_pdf.
  destruct (MAX_FILE_SIZE <? file_size env)%Z; [run_m; discriminate|].
  unfold bind at 1, send at 1, update_world.
  unfold bind at 1, try_except at 1, bind at 1.
  destruct (get_file_ok env).
  2: { unfold raise, bind at 1.
       destruct (upload_failed env None TelegramError _) as [[s|e] w1] eqn:E;
         [|discriminate].
       apply upload_failed_returns in E as ->. discriminate. }
  unfold ret at 1 2. unfold try_except.
  destruct (download_to_drive env) as [content|partial].
  2: { run_m. destruct partial; run_m; intros E;
         apply upload_failed_returns in E; discriminate. }
  run_m. rewrite lookup_insert_eq.
  destruct (PdfReader_pages content) as [pages|] eqn:Hpages; run_m.
  2: { intros E; apply upload_failed_returns in E; discriminate. }
  intros [= <-]. exists (upload_path env), content, pages. simpl.
  rewrite lookup_insert_ne by done. rewrite !lookup_insert_eq. auto.
Qed.

Lemma select_pdf_records (data : string) (w w' : World) :
  select_pdf data w = (Ok GET_PAGE_RANGE, w') -> document_recorded w'.
Proof.
  unfold select_pdf. cbv zeta. set (p := os_path_join PDF_STORAGE_DIR _).
  unfold bind at 1, os_path_exists, bind at 1, get_world, ret at 1.
  destruct (files w !! p) as [content|] eqn:Hf.
  2: { rewrite bool_decide_eq_false_2 by (intros [? ?]; discriminate).
       run_m. discriminate. }
  rewrite bool_decide_eq_true_2 by eauto. cbn [negb].
  unfold bind at 1, user_data_set at 1, update_world.
  unfold bind at 1, send at 1, update_world.
  unfold try_except, bind at 1, PdfReader, bind at 1, read_file, bind at 1, get_world.
  simpl files. rewrite Hf. cbn [or_raise]. unfold ret at 1.
  destruct (PdfReader_pages content) as [pages|] eqn:Hpages; cbn [or_raise].
  - run_m. intros [= <-]. exists p, content, pages. simpl.
    rewrite lookup_insert_ne by done. rewrite !lookup_insert_eq. auto.
  - unfold raise. unfold bind at 1, send at 1, update_world.
    unfold bind at 1, send at 1, update_world.
    intros E. apply list_local_pdfs_returns in E as [E|E]; discriminate.
Qed.

Lemma button_handler_records (env : button_env) (w w' : World) :
  button_handler env w = (Ok GET_PAGE_RANGE, w') -> document_recorded w'.
Proof.
  unfold button_handler. cbv zeta. unfold bind at 1, send at 1, update_world.
  set (w1 := emit answer w).
  destruct (String.eqb _ "upload"); [run_m; discriminate|].
  destruct (String.eqb _ "url"); [run_m; discriminate|].
  destruct (String.eqb _ "local").
  { intros E. apply list_local_pdfs_returns in E as [E|E]; discriminate. }
  destruct (String.eqb _ "back_to_start"); [unfold start; run_m; discriminate|].
  destruct (Py.startswith "select_pdf:" _); [apply select_pdf_records|].
  destruct (String.eqb _ "confirm_download").
  2: { destruct (String.eqb _ "cancel_download"); run_m; discriminate. }
  intros E.
  destruct (confirm_download_cases env w1)
    as [w2 [[E2 _]|(response & pages & E2 & _ & _ & _ & Hfiles & Hpages & Hdata)]];
    rewrite E2 in E; [discriminate|].
  injection E as <-.
  exists (download_target w1), (written b_empty (iter_content response)), pages.
  rewrite Hfiles, Hdata, !lookup_insert_eq.
  rewrite lookup_insert_ne by done. rewrite lookup_insert_eq. auto.
Qed.

(** X11.  Whenever a handler other than the one of page ranges returns
    GET_PAGE_RANGE, a document is on record: the session names a file that
    exists and reads as a PDF, and the page count it holds is the number of
    pages of that file.  This is the page count the next range is checked
    against. *)
Theorem page_range_is_asked_of_a_recorded_document (u : update) (w w' : World) :
  (forall env, u <> range_message env) ->
  handle u w = (Ok (Some GET_PAGE_RANGE), w') ->
  document_recorded w'.
Proof.
  intros Hu. destruct u as [| |env|env|env|env| |args|token]; unfold handle.
  - unfold start. run_m. discriminate.
  - unfold cancel. run_m. discriminate.
  - unfold bind. destruct (button_handler env w) as [[s|e] w1] eqn:E; [|discriminate].
    unfold ret. intros [= -> <-]. exact (button_handler_records env w w1 E).
  - unfold bind. destruct (handle_pdf env w) as [[s|e] w1] eqn:E; [|discriminate].
    unfold ret. intros [= -> <-]. exact (handle_pdf_records env w w1 E).
  - unfold bind. destruct (handle_url env w) as [[s|e] w1] eqn:E; [|discriminate].
    unfold ret. intros [= -> <-].
    destruct (handle_url_cases env w w1 _ E) as [?|[? _]]; discriminate.
  - exfalso. exact (Hu env eq_refl).
  - unfold bind. destruct (list_stored_pdfs w) as [[[]|e] w1]; discriminate.
  - unfold bind. destruct (clear_stored_pdfs args w) as [[[]|e] w1]; discriminate.
  - run_m. discriminate.
Qed.

(** ** The session data are well formed *)

Lemma session_typed_empty : session_typed ∅.
Proof.
  unfold session_typed.
  repeat match goal with |- _ /\ _ => split end;
    [reflexivity|intros v Hv; rewrite lookup_empty in Hv; discriminate..].
Qed.

(** Settles [session_typed] after a write, key by key. *)
Ltac typed_keys :=
  repeat match goal with
         | |- _ /\ _ => split
         | |- forall _, _ => intros ?
         | H : <[_ := _]> _ !! _ = Some _ |- _ =>
             first [ rewrite lookup_insert_eq in H; injection H as <-
                   | rewrite lookup_insert_ne in H by done ]
         | |- context [<[?k := _]> _ !! ?k] => rewrite lookup_insert_eq
         | |- context [<[_ := _]> _ !! _] => rewrite lookup_insert_ne by done
         end.

Ltac typed_old H2 :=
  eauto; try (edestruct H2 as [? ?]; [eassumption|]; eauto).

Lemma session_typed_set_pdf_path (p : string) (ud : gmap string pyval) :
  session_typed ud -> session_typed (<["pdf_path" := VStr p]> ud).
Proof.
  intros (H0 & H1 & H2 & H3 & H4). unfold session_typed. typed_keys; typed_old H2.
Qed.

Lemma session_typed_set_both (n : nat) (p : string) (ud : gmap string pyval) :
  session_typed ud ->
  session_typed (<["pdf_path" := VStr p]> (<["num_pages" := VInt (Z.of_nat n)]> ud)).
Proof.
  intros (H0 & H1 & H2 & H3 & H4). unfold session_typed. typed_keys; typed_old H2.
  all: exists (Z.of_nat n); split; [reflexivity|lia].
Qed.

Lemma session_typed_set_num_pages (n : nat) (ud : gmap string pyval) :
  is_Some (ud !! "pdf_path") ->
  session_typed ud -> session_typed (<["num_pages" := VInt (Z.of_nat n)]> ud).
Proof.
  intros Hp (H0 & H1 & H2 & H3 & H4). unfold session_typed. typed_keys; typed_old H2.
  all: exists (Z.of_nat n); split; [reflexivity|lia].
Qed.

Lemma session_typed_set_download_url (url : string) (ud : gmap string pyval) :
  Py.startswith "http://" url || Py.startswith "https://" url = true ->
  session_typed ud -> session_typed (<["download_url" := VStr url]> ud).
Proof.
  intros Hu (H0 & H1 & H2 & H3 & H4). unfold session_typed. typed_keys; typed_old H2.
Qed.

Lemma session_typed_set_file_name (name : string) (ud : gmap string pyval) :
  session_typed ud -> session_typed (<["file_name" := VStr name]> ud).
Proof.
  intros (H0 & H1 & H2 & H3 & H4). unfold session_typed. typed_keys; typed_old H2.
Qed.

Lemma session_typed_delete_pending (ud : gmap string pyval) :
  session_typed ud -> session_typed (delete "pending_range" ud).
Proof.
  intros (H0 & H1 & H2 & H3 & H4). unfold session_typed.
  rewrite lookup_delete_eq. rewrite !lookup_delete_ne by done. auto.
Qed.

Lemma keeps_set_both (I : gmap string pyval -> Prop) {A} (k1 k2 : string)
    (v1 v2 : pyval) (k : M A) :
  (forall ud, I ud -> I (<[k2 := v2]> (<[k1 := v1]> ud))) ->
  keeps I k ->
  keeps I (bind (user_data_set k1 v1) (fun _ => bind (user_data_set k2 v2) (fun _ => k))).
Proof.
  intros Hs Hk w Hw.
  exact (Hk (set_user_data <[k2 := v2]> (set_user_data <[k1 := v1]> w)) (Hs _ Hw)).
Qed.

(** Once a path is on record, what follows may record a page count. *)
Local Abbreviation typed_with_path :=
  (fun ud : gmap string pyval => session_typed ud /\ is_Some (ud !! "pdf_path")).

Lemma keeps_after_path {A} (p : string) (k : M A) :
  keeps typed_with_path k ->
  keeps session_typed (bind (user_data_set "pdf_path" (VStr p)) (fun _ => k)).
Proof.
  intros Hk w Hw.
  refine (proj1 (Hk (set_user_data <["pdf_path" := VStr p]> w) _)). split.
  - apply session_typed_set_pdf_path. exact Hw.
  - simpl. rewrite lookup_insert_eq. eauto.
Qed.

(** The writes of the handlers, for [session_typed]. *)
Ltac typed_set :=
  first
    [ match goal with
      | |- keeps _ (bind (user_data_set "num_pages" _)
                      (fun _ => bind (user_data_set "pdf_path" _) _)) =>
          apply keeps_set_both; [intros ud Hud; apply session_typed_set_both; exact Hud|]
      | |- keeps _ (bind (user_data_set "pdf_path" _) _) => apply keeps_after_path
      | |- keeps _ (user_data_set "num_pages" _) =>
          apply keeps_user_data_set; intros ud [Hud Hp]; split;
          [ apply session_typed_set_num_pages; assumption
          | rewrite lookup_insert_ne by done; exact Hp ]
      end
    | apply keeps_user_data_set; intros ud Hud;
      first [ apply session_typed_set_file_name; exact Hud
            | apply session_typed_set_download_url; [assumption|exact Hud] ] ].

Ltac typed_with tac := repeat first [ tac | keep_known | typed_set | keep_step ].

Lemma handle_url_typed (env : url_env) : keeps session_typed (handle_url env).
Proof.
  unfold handle_url. cbv zeta.
  destruct (Py.startswith "http://" _ || Py.startswith "https://" _) eqn:Hurl;
    cbn [negb]; typed_with fail.
Qed.

Lemma download_chunks_typed (env : button_env) (p : string) (total : Z)
    (chunks : list chunk) :
  keeps session_typed (download_chunks env p total chunks).
Proof. unfold download_chunks. typed_with fail. Qed.

Lemma confirm_download_typed (env : button_env) :
  keeps session_typed (confirm_download env).
Proof.
  unfold confirm_download, user_data_get, as_str.
  typed_with ltac:(apply download_chunks_typed).
Qed.

Lemma select_pdf_typed (data : string) : keeps session_typed (select_pdf data).
Proof. unfold select_pdf. typed_with fail. Qed.

Lemma button_handler_typed (env : button_env) :
  keeps session_typed (button_handler env).
Proof.
  unfold button_handler.
  typed_with ltac:(first [apply select_pdf_typed | apply confirm_download_typed]).
Qed.

Lemma handle_pdf_typed (env : upload_env) : keeps session_typed (handle_pdf env).
Proof. unfold handle_pdf, upload_failed. typed_with fail. Qed.

Lemma process_page_range_typed (env : range_env) :
  keeps session_typed (process_page_range env).
Proof.
  unfold process_page_range, validate_request, user_data_item, gt_num_pages,
    split_and_send, as_str, extract, add_page, report_progress, deliver.
  typed_with ltac:(apply keeps_update_world; intros w Hw;
                   apply session_typed_delete_pending; exact Hw).
Qed.

Lemma handle_typed (u : update) : keeps session_typed (handle u).
Proof.
  destruct u; unfold handle, list_stored_pdfs, clear_stored_pdfs;
    typed_with ltac:(first [ apply button_handler_typed | apply handle_pdf_typed
                           | apply handle_url_typed | apply process_page_range_typed
                           | apply keeps_update_world; intros w Hw; exact Hw ]).
Qed.

Lemma run_typed (us : list update) :
  forall w, session_typed (user_data w) -> session_typed (user_data (run us w)).
Proof.
  induction us as [|u us IH]; intros w Hw; [exact Hw|].
  simpl. apply IH. unfold on_update, error_handler.
  assert (H : keeps session_typed
                (try_except (bind (handle u) (fun _ => ret tt))
                   (fun e => bind (send (logged ERROR (LogHandlerError e)))
                               (fun _ => send (reply_text (MsgHandlerError e) []))))).
  { typed_with ltac:(apply handle_typed). }
  apply H. exact Hw.
Qed.

(** X12.  In a session that started with empty data, after any sequence
    of updates, the session data are well formed: no range is pending; a
    recorded path and a recorded file name are strings; a recorded page
    count is a non-negative integer and comes with a recorded path; a
    recorded link is a string that starts with http:// or https://. *)
Theorem session_data_stay_well_formed (us : list update) (w0 : World) :
  fresh_session w0 -> session_typed (user_data (run us w0)).
Proof.
  intros Hfresh. apply run_typed. rewrite Hfresh. apply session_typed_empty.
Qed.

(** ** A page range never makes the handler raise *)

Local Abbreviation returns_in P m := (@returns_in bytes _ P m).

Section Returns.

Lemma returns_ret {A} (P : A -> Prop) (a : A) : P a -> returns_in P (ret a : M A).
Proof. intros Ha w a' w' [= <- _]. exact Ha. Qed.

Lemma returns_raise {A} (P : A -> Prop) (e : exn) : returns_in P (raise e : M A).
Proof. intros w a w' [=]. Qed.

Lemma returns_bind {A B} (Q : A -> Prop) (P : B -> Prop) (m : M A) (k : A -> M B) :
  returns_in Q m -> (forall a, Q a -> returns_in P (k a)) -> returns_in P (bind m k).
Proof.
  intros Hm Hk w b w'. unfold bind.
  destruct (m w) as [[a|e] w1] eqn:E; [|discriminate].
  apply (Hk a (Hm _ _ _ E)).
Qed.

Lemma returns_bind_any {A B} (P : B -> Prop) (m : M A) (k : A -> M B) :
  (forall a, returns_in P (k a)) -> returns_in P (bind m k).
Proof.
  intros Hk. apply (returns_bind (fun _ => True)); [intros w a w' _; exact I|].
  intros a _. apply Hk.
Qed.

Lemma returns_try_except {A} (P : A -> Prop) (m : M A) (h : exn -> M A) :
  returns_in P m -> (forall e, returns_in P (h e)) -> returns_in P (try_except m h).
Proof.
  intros Hm Hh w a w'. unfold try_except.
  destruct (m w) as [[a1|e] w1] eqn:E.
  - intros [= <- _]. exact (Hm _ _ _ E).
  - apply Hh.
Qed.

Lemma returns_for_each {A S R} (P : R -> Prop) (xs : list A) (body : A -> S -> M (S + R)) :
  (forall x s, returns_in (fun r => forall v, r = inr v -> P v) (body x s)) ->
  forall s, returns_in (fun r => forall v, r = inr v -> P v) (for_each xs s body).
Proof.
  intros Hb. induction xs as [|x xs IH]; intros s.
  - apply returns_ret. discriminate.
  - cbn [for_each]. eapply returns_bind; [apply Hb|].
    intros [s'|v] Hv; [apply IH|]. apply returns_ret. exact Hv.
Qed.

End Returns.

Ltac returns_step :=
  first
    [ apply returns_raise
    | apply returns_ret
    | apply returns_try_except; [|intros ?]
    | apply returns_bind_any; intros ?
    | match goal with
      | |- returns_in _ (let _ := _ in _) => cbv zeta
      | |- returns_in _ (if ?c then _ else _) => destruct c
      | |- returns_in _ (match ?x with _ => _ end) => destruct x
      end ].

Lemma add_page_returns (env : range_env) (reader : list page) (t iv : Z)
    (item : Z * Z) (writer : list page) :
  returns_in (fun r => forall s, r = inr s -> s = GET_PAGE_RANGE)
    (add_page env reader t iv item writer).
Proof.
  unfold add_page. destruct item as [i page_num].
  repeat returns_step; intros s; [discriminate|intros [= <-]; reflexivity].
Qed.

Lemma extract_returns (env : range_env) (input output : string) (s e : Z) :
  returns_in (fun r => forall st, r = Some st -> st = GET_PAGE_RANGE)
    (extract env input output s e).
Proof.
  unfold extract. cbv zeta. apply returns_bind_any. intros reader.
  eapply returns_bind; [apply returns_for_each; intros x st; apply add_page_returns|].
  intros [writer|st] Hr.
  - repeat returns_step. discriminate.
  - apply returns_ret. intros st' [= <-]. apply (Hr st). reflexivity.
Qed.

Lemma deliver_returns (env : range_env) (input output : string) (s e : Z) :
  returns_in (fun r => forall st, r = Some st -> st = UPLOAD_PDF)
    (deliver env input output s e).
Proof.
  unfold deliver. repeat returns_step;
    intros st; first [discriminate | intros [= <-]; reflexivity].
Qed.

(** Once the input path is read from the session, the rest of
    [split_and_send] returns, with one of two states, unless the error
    message of its [except] block is not delivered. *)
Lemma split_and_send_returns (env : range_env) (s e : Z) (w : World) :
  is_Some (user_data w !! "pdf_path") ->
  exists r w', split_and_send env s e w = (r, w') /\ range_outcome env r.
Proof.
  intros [v Hv]. unfold split_and_send.
  unfold bind at 1, send at 1, update_world.
  unfold bind at 1, user_data_item, bind at 1, get_world.
  change (user_data (emit (edit_text MsgCreating []) w)) with (user_data w).
  rewrite Hv. cbn [or_raise]. unfold ret at 1.
  set (w1 := emit (edit_text MsgCreating []) w). clearbody w1. cbv zeta.
  match goal with |- context [try_except ?m _ w1] => set (body := m) end.
  assert (Hbody : returns_in (fun st => st = GET_PAGE_RANGE \/ st = UPLOAD_PDF) body).
  { unfold body. apply returns_bind_any. intros _. apply returns_bind_any. intros input.
    eapply returns_bind; [apply extract_returns|]. intros [st|] Hst.
    { apply returns_ret. left. apply Hst. reflexivity. }
    eapply returns_bind; [apply deliver_returns|]. intros [st|] Hst'.
    { apply returns_ret. right. apply Hst'. reflexivity. }
    repeat returns_step. right. reflexivity. }
  unfold try_except. destruct (body w1) as [[a|x] w0] eqn:E.
  - exists (Ok a), w0. split; [reflexivity|]. exact (Hbody _ _ _ E).
  - destruct (error_edit_delivered env) eqn:Hd; run_m.
    + destruct (bool_decide _); run_m;
        [|eexists _, _; split; [reflexivity|right; reflexivity]].
      destruct (files w0 !! temp_name env); run_m;
        eexists _, _; (split; [reflexivity|right; reflexivity]).
    + eexists _, _. split; [reflexivity|]. split; [reflexivity|exact Hd].
Qed.

(** X13.  In a session that started with empty data, after any sequence
    of updates, a page-range message never makes its handler raise an
    error of its own: the handler returns, with GET_PAGE_RANGE or with
    UPLOAD_PDF, and the one error that can leave it is that of the message
    of line 703 when Telegram does not take it.  (A range can only be
    accepted against a recorded page count, and a page count is only
    recorded together with the path the extraction reads.) *)
Theorem range_request_never_raises (us : list update) (w0 : World) (env : range_env) :
  fresh_session w0 ->
  exists r w', process_page_range env (run us w0) = (r, w')
    /\ match r with
       | Ok st => st = GET_PAGE_RANGE \/ st = UPLOAD_PDF
       | Raise x => x = TelegramError /\ error_edit_delivered env = false
       end.
Proof.
  intros Hfresh. set (w := run us w0).
  assert (Hok : session_typed (user_data w)).
  { apply run_typed. rewrite Hfresh. apply session_typed_empty. }
  destruct Hok as (Hpending & _ & Hnum & _ & _).
  set (asked := emit (reply_text MsgValidating []) w).
  assert (Hdom : bool_decide ("pending_range" ∈ dom (user_data w)) = false).
  { apply bool_decide_eq_false_2. rewrite elem_of_dom, Hpending. intros [? ?]. discriminate. }
  assert (Hrun : process_page_range env w
                 = match validate_request (Py.strip (message_text env)) asked with
                   | (Ok (inr s), w') => (Ok s, w')
                   | (Ok (inl (s, e)), w') => split_and_send env s e w'
                   | (Raise e, w') => (Raise e, w')
                   end).
  { unfold process_page_range, bind, send, update_world. fold asked.
    destruct (validate_request (Py.strip (message_text env)) asked) as [[[[s e]|s]|e] w'];
      reflexivity. }
  rewrite Hrun.
  destruct (parse_page_range (Py.strip (message_text env))) as [[s e]|] eqn:Hp.
  2: { unfold validate_request, bind at 1, get_world.
       change (user_data asked) with (user_data w). rewrite Hdom, andb_false_r, Hp.
       eexists _, _. split; [reflexivity|]. simpl. auto. }
  assert (Hn : exists n, recorded_num_pages w = VInt n
                         /\ ((1 <= n)%Z -> is_Some (user_data w !! "pdf_path"))).
  { unfold recorded_num_pages. destruct (user_data w !! "num_pages") as [v|] eqn:E.
    - destruct (Hnum v eq_refl) as [(n & -> & _) Hpath]. exists n. auto.
    - exists 0%Z. split; [reflexivity|lia]. }
  destruct Hn as (n & Hn & Hpath).
  destruct (Z_lt_le_dec s 1) as [Hs|Hs];
    [|destruct (Z_lt_le_dec n e) as [He|He];
      [|destruct (Z_lt_le_dec e s) as [Hse|Hse]]].
  1-3: rewrite (validate_request_rejects _ asked s e n Hp Hn)
         by (unfold out_of_bounds; lia);
       eexists _, _; (split; [reflexivity|simpl; auto]).
  rewrite (validate_request_accepts _ asked s e n Hp Hn) by lia.
  apply split_and_send_returns. apply Hpath. lia.
Qed.

(** ** Requests that fail while the pages are copied *)

Lemma py_index_beyond {A} (l : list A) (k : Z) :
  (Z.of_nat (length l) <= k)%Z -> py_index l k = None.
Proof.
  intros Hk. unfold py_index.
  destruct (Z.ltb_spec k 0); [lia|].
  destruct (Z.ltb_spec k 0); [lia|]. simpl.
  destruct (Z.leb_spec (Z.of_nat (length l)) k); [reflexivity|lia].
Qed.

(** The loop over consecutive pages from index [k] on, of which the first
    [n] are there and the next one is not: it stops at that page. *)
Lemma add_pages_until_missing (env : range_env) (pages : list page)
    (total_pages interval : Z) (n : nat) :
  forall (m : nat) (i0 k : Z) (acc : list page) (w : World),
    (0 <= k)%Z -> (Z.of_nat (length pages) <= k + Z.of_nat n)%Z ->
    (n = 0%nat \/ k + Z.of_nat n <= Z.of_nat (length pages))%Z ->
    exists es,
      for_each (zip (seqZ i0 (Z.of_nat (n + S m))) (seqZ k (Z.of_nat (n + S m)))) acc
        (add_page env pages total_pages interval) w
      = (Ok (inr GET_PAGE_RANGE),
         emits (es ++ [logged ERROR (LogErrorAddingPage (k + Z.of_nat n + 1));
                       edit_text (MsgErrorPage (k + Z.of_nat n + 1)) []]) w)
      /\ Forall (fun e => is_progress e = true) es.
Proof.
  induction n as [|n IH]; intros m i0 k acc w Hk Hlen Hn.
  - exists []. split; [|constructor]. cbn [Nat.add].
    rewrite !(seqZ_cons _ (Z.of_nat (S m))) by lia. simpl zip. cbn [for_each].
    unfold bind at 1. unfold add_page at 1. unfold try_except, bind at 1.
    rewrite py_index_beyond by lia. cbn [or_raise]. unfold raise.
    unfold bind, send, update_world, ret, emit. rewrite emits_emits.
    replace (k + Z.of_nat 0 + 1)%Z with (k + 1)%Z by lia. reflexivity.
  - destruct Hn as [Hn|Hn]; [discriminate|].
    cbn [Nat.add]. rewrite !(seqZ_cons _ (Z.of_nat (S (n + S m)))) by lia.
    replace (Z.pred (Z.of_nat (S (n + S m)))) with (Z.of_nat (n + S m)) by lia.
    simpl zip. cbn [for_each].
    destruct (lookup_lt_is_Some_2 pages (Z.to_nat k)) as [p Hp]; [lia|].
    unfold bind at 1. unfold add_page at 1. unfold try_except, bind at 1.
    rewrite py_index_in_range by lia. rewrite Hp. cbn [or_raise ret].
    unfold bind at 1.
    destruct (report_progress_goes_on env i0 total_pages interval w) as (es1 & E1 & P1).
    rewrite E1. cbn [ret].
    destruct (IH m (Z.succ i0) (Z.succ k) (acc ++ [p]) (emits es1 w))
      as (es2 & E2 & P2); [lia|lia|lia|].
    rewrite E2. exists (es1 ++ es2). split; [|apply Forall_app; split; assumption].
    rewrite emits_emits, <- app_assoc.
    replace (Z.succ k + Z.of_nat n + 1)%Z with (k + Z.of_nat (S n) + 1)%Z by lia.
    reflexivity.
Qed.

(** X14.  When the file on record has fewer pages than the accepted range
    needs (the page count of the session is that of an earlier file of the
    same path), the split stops at the first page that is missing, as long
    as Telegram takes the messages: its number is reported, GET_PAGE_RANGE
    is returned, and the temporary output stays behind, empty.  All that
    the handler sends is the status text, progress reports, and the report
    of the missing page: no document is sent and no link is made.  *)
Theorem missing_page_stops_the_split (env : range_env) (start_page end_page : Z)
    (w : World) (p : string) (content : bytes) (pages : list page) :
  user_data w !! "pdf_path" = Some (VStr p) ->
  p <> temp_name env ->
  files w !! p = Some content ->
  PdfReader_pages content = Some pages ->
  (1 <= start_page <= end_page)%Z ->
  (Z.of_nat (length pages) < end_page)%Z ->
  let missing := Z.max start_page (Z.of_nat (length pages) + 1) in
  exists (es : list event) (w' : World),
    split_and_send env start_page end_page w = (Ok GET_PAGE_RANGE, w')
    /\ trace w'
       = trace w
         ++ edit_text MsgCreating []
            :: es ++ [logged ERROR (LogErrorAddingPage missing);
                      edit_text (MsgErrorPage missing) []]
    /\ Forall (fun e => is_progress e = true) es
    /\ files w' = <[temp_name env := b_empty]> (files w)
    /\ user_data w' = user_data w /\ file_tokens w' = file_tokens w.
Proof.
  intros Hpath Htmp Hf Hr Hb Hlen missing.
  set (n := Z.to_nat (Z.of_nat (length pages) + 1 - start_page)).
  set (m := Z.to_nat (end_page - start_page - Z.of_nat n)).
  set (w2 := set_files <[temp_name env := b_empty]> (emit (edit_text MsgCreating []) w)).
  destruct (add_pages_until_missing env pages (end_page - start_page + 1)
              (Z.max 1 ((end_page - start_page + 1) / 10)) n m 0 (start_page - 1) [] w2)
    as (es & E & P); [lia|lia|lia|].
  replace (start_page - 1 + Z.of_nat n + 1)%Z with missing in E by lia.
  replace (Z.of_nat (n + S m)) with (end_page - (start_page - 1))%Z in E by lia.
  exists es. eexists. split.
  - unfold split_and_send, bind at 1, send at 1, update_world.
    unfold bind at 1, user_data_item, bind at 1, get_world.
    change (user_data (emit (edit_text MsgCreating []) w)) with (user_data w).
    rewrite Hpath. cbn [or_raise]. unfold ret at 1. cbv zeta.
    unfold try_except, bind at 1, write_file at 1, update_world. fold w2.
    unfold bind at 1. cbn [as_str]. unfold ret at 1.
    unfold bind at 1, extract. cbv zeta.
    unfold bind at 1, PdfReader, bind at 1, read_file, bind at 1, get_world.
    assert (Hf2 : files w2 !! p = Some content).
    { unfold w2. simpl. rewrite lookup_insert_ne by congruence. exact Hf. }
    rewrite Hf2. cbn [or_raise]. unfold ret at 1. rewrite Hr. cbn [or_raise].
    unfold ret at 1. unfold bind at 1.
    unfold enumerate, py_range. rewrite length_seqZ.
    replace (Z.of_nat (Z.to_nat (end_page - (start_page - 1))))
      with (end_page - (start_page - 1))%Z by lia.
    rewrite E. reflexivity.
  - simpl. rewrite <- !app_assoc. auto.
Qed.

(** X15.  When the file on record is gone or does not read as a PDF, the
    split logs the error and edits the status message.  When that edit is
    delivered, the split removes its temporary output and returns
    UPLOAD_PDF; when it is not, the split raises and the temporary output
    stays behind, empty.  In both cases no other file and no session data
    change. *)
Theorem unreadable_input_ends_the_split (env : range_env) (start_page end_page : Z)
    (w : World) (p : string) :
  user_data w !! "pdf_path" = Some (VStr p) ->
  p <> temp_name env ->
  match files w !! p with
  | Some content => PdfReader_pages content = None
  | None => True
  end ->
  let e := match files w !! p with
           | Some _ => PdfReadError
           | None => FileNotFoundError
           end in
  exists w',
    user_data w' = user_data w /\ file_tokens w' = file_tokens w
    /\ if error_edit_delivered env then
         split_and_send env start_page end_page w = (Ok UPLOAD_PDF, w')
         /\ trace w'
            = trace w ++ [edit_text MsgCreating [];
                          logged ERROR (LogErrorProcessing e);
                          edit_text (MsgErrorProcessing e) []]
         /\ files w' = delete (temp_name env) (files w)
       else
         split_and_send env start_page end_page w = (Raise TelegramError, w')
         /\ trace w'
            = trace w ++ [edit_text MsgCreating [];
                          logged ERROR (LogErrorProcessing e)]
         /\ files w' = <[temp_name env := b_empty]> (files w).
Proof.
  intros Hpath Htmp Hbad e.
  destruct (error_edit_delivered env) eqn:Hd.
  - exists (set_files (delete (temp_name env))
              (emits [edit_text MsgCreating []; logged ERROR (LogErrorProcessing e);
                      edit_text (MsgErrorProcessing e) []] w)).
    split; [reflexivity|]. split; [reflexivity|]. split; [|split; reflexivity].
    subst e. unfold split_and_send, extract. rewrite Hd. run_m. rewrite Hpath. run_m.
    rewrite lookup_insert_ne by congruence.
    destruct (files w !! p) as [content|] eqn:Hf; run_m; try rewrite Hbad; run_m.
    all: rewrite bool_decide_eq_true_2 by (rewrite lookup_insert_eq; eauto).
    all: run_m; rewrite lookup_insert_eq; unfold set_files, emits; simpl.
    all: rewrite delete_insert_eq, <- !app_assoc; reflexivity.
  - exists (set_files <[temp_name env := b_empty]>
              (emits [edit_text MsgCreating []; logged ERROR (LogErrorProcessing e)] w)).
    split; [reflexivity|]. split; [reflexivity|]. split; [|split; reflexivity].
    subst e. unfold split_and_send, extract. rewrite Hd. run_m. rewrite Hpath. run_m.
    rewrite lookup_insert_ne by congruence.
    destruct (files w !! p) as [content|] eqn:Hf; run_m; try rewrite Hbad; run_m.
    all: unfold set_files, emits; simpl.
    all: rewrite <- !app_assoc; reflexivity.
Qed.

(** ** A link outlives the conversation *)

Lemma os_path_join_app (dir a b : string) :
  a <> "" -> os_path_join dir (a +:+ b) = os_path_join dir a +:+ b.
Proof.
  intros Ha. destruct a as [|c a]; [congruence|].
  unfold os_path_join. rewrite append_cons. cbn [Py.startswith].
  destruct (Ascii.eqb "/" c); [rewrite append_cons; reflexivity|].
  destruct (String.eqb dir "" || Py.endswith "/" dir); rewrite ?append_assoc; reflexivity.
Qed.

Lemma startswith_self_app (p x : string) : Py.startswith p (p +:+ x) = true.
Proof.
  induction p as [|a p IH]; [reflexivity|]. rewrite append_cons. cbn [Py.startswith].
  rewrite Ascii.eqb_refl. exact IH.
Qed.

(** What is served lies outside the storage directory. *)
Lemma served_is_not_stored (p name : string) :
  Py.startswith "web_serve/" p = true -> p <> "stored_pdfs/" +:+ name.
Proof. intros Hp ->. discriminate Hp. Qed.

Lemma snd_on_update (u : update) (w : World) :
  files (snd (on_update u w)) = files (snd (handle u w))
  /\ file_tokens (snd (on_update u w)) = file_tokens (snd (handle u w)).
Proof.
  unfold on_update, error_handler, try_except, bind.
  destruct (handle u w) as [[a|e] w1]; split; reflexivity.
Qed.

Lemma snd_bind_ret {A B} (m : M A) (f : A -> B) (w : World) :
  snd (bind m (fun a => ret (f a)) w) = snd (m w).
Proof. unfold bind. destruct (m w) as [[a|e] w1]; reflexivity. Qed.

Lemma handle_registry (u : update) (w : World) (token : string) :
  match u with
  | timer_fired tok => tok <> token
  | range_message env => uuid_token env <> token
  | _ => True
  end ->
  file_tokens (snd (handle u w)) !! token = file_tokens w !! token.
Proof.
  intros Hu.
  assert (H : preserves (fun w' => file_tokens w' !! token = file_tokens w !! token)
                (handle u)).
  { destruct u; unfold handle, button_handler, select_pdf, confirm_download,
      download_chunks, handle_pdf, upload_failed, handle_url, process_page_range,
      validate_request, gt_num_pages, split_and_send, extract, add_page,
      report_progress, deliver, list_stored_pdfs, clear_stored_pdfs, timer_pop;
      pres_with fail
        ltac:(simpl;
              repeat first [ rewrite lookup_insert_ne by congruence
                           | rewrite lookup_delete_ne by congruence ];
              assumption). }
  apply H. reflexivity.
Qed.

Lemma handle_served_file (u : update) (w : World) (p : string) :
  Py.startswith "web_serve/" p = true ->
  match u with
  | range_message env =>
      temp_name env <> p
      /\ Py.startswith (os_path_join WEB_SERVE_DIR (uuid_name env +:+ "_")) p = false
  | _ => True
  end ->
  files (snd (handle u w)) !! p = files w !! p.
Proof.
  intros Hp Hu.
  assert (Hs : forall m : M (option conv_state),
             preserves (fun w' => files w' !! p = files w !! p) m ->
             files (snd (m w)) !! p = files w !! p).
  { intros m Hm. apply Hm. reflexivity. }
  destruct u as [| |env|env|env|env| |args|token]; unfold handle.
  - apply Hs. pres_with fail same_file.
  - apply Hs. pres_with fail same_file.
  - rewrite snd_bind_ret. apply button_handler_frame.
    destruct (download_target_bare w) as (name & -> & _).
    apply served_is_not_stored. exact Hp.
  - rewrite snd_bind_ret. apply handle_pdf_frame.
    destruct (upload_path_bare env) as (name & -> & _).
    apply served_is_not_stored. exact Hp.
  - apply Hs. unfold handle_url. pres_with fail same_file.
  - rewrite snd_bind_ret. destruct Hu as [Htmp Hfresh].
    apply process_page_range_frame; [congruence|].
    intros x E. rewrite <- E, <- append_assoc in Hfresh.
    rewrite (os_path_join_app WEB_SERVE_DIR (uuid_name env +:+ "_") x) in Hfresh.
    + rewrite startswith_self_app in Hfresh. discriminate.
    + destruct (uuid_name env); discriminate.
  - apply Hs. unfold list_stored_pdfs. pres_with fail same_file.
  - unfold bind at 1. rewrite clear_stored_pdfs_run. simpl.
    rewrite lookup_cleared.
    assert (Hn : is_stored_pdf p = false).
    { unfold is_stored_pdf. rewrite <- (startswith_slice "web_serve/" p Hp). reflexivity. }
    rewrite Hn, andb_false_r. reflexivity.
  - apply Hs. pres_with fail same_file.
Qed.

(** X16.  What a link serves does not depend on the conversation: for a
    registered token whose file lies in the serve directory, the endpoint
    answers after any update as it did before, unless the update is the
    timer of that very token, or a page-range message that draws the same
    token, writes its temporary output to the served file or gives its
    copy the path of the served file. *)
Theorem link_outlives_the_conversation (u : update) (w : World) (token : string)
    (t : token_data) (now : Q) :
  file_tokens w !! token = Some t ->
  Py.startswith "web_serve/" (file_path t) = true ->
  match u with
  | timer_fired tok => tok <> token
  | range_message env =>
      uuid_token env <> token
      /\ temp_name env <> file_path t
      /\ Py.startswith (os_path_join WEB_SERVE_DIR (uuid_name env +:+ "_"))
           (file_path t) = false
  | _ => True
  end ->
  download_file token now (snd (on_update u w)) = download_file token now w.
Proof.
  intros Ht Hp Hu. unfold download_file.
  destruct (snd_on_update u w) as [-> ->].
  rewrite handle_registry, Ht.
  - rewrite handle_served_file; [reflexivity|exact Hp|].
    destruct u; try exact I. tauto.
  - destruct u; try exact I; tauto.
Qed.

(** ** An upload that is accepted *)

Lemma handle_pdf_accepts (env : upload_env) (w : World) (content : bytes)
    (pages : list page) :
  (file_size env <= MAX_FILE_SIZE)%Z ->
  get_file_ok env = true ->
  download_to_drive env = Saved content ->
  PdfReader_pages content = Some pages ->
  handle_pdf env w
  = (Ok GET_PAGE_RANGE,
     emits [reply_text MsgDownloadingUpload []; edit_text MsgAnalyzingUpload [];
            edit_text (MsgReceived (Z.of_nat (length pages))) []]
       (set_user_data (fun ud => <["num_pages" := VInt (Z.of_nat (length pages))]>
                                   (<["pdf_path" := VStr (upload_path env)]> ud))
          (set_files <[upload_path env := content]> w))).
Proof.
  intros Hsize Hget Hsaved Hpages. unfold handle_pdf.
  destruct (Z.ltb_spec MAX_FILE_SIZE (file_size env)); [lia|].
  rewrite Hget, Hsaved. run_m. rewrite lookup_insert_eq, Hpages. run_m.
  unfold emits, set_user_data, set_files. simpl. rewrite <- !app_assoc. reflexivity.
Qed.

(** X17.  A document whose declared size is at most 50 MiB, that is
    fetched and saved and reads as a PDF, is stored at the upload path,
    replacing what was stored there; the session records that path and
    the page count, and GET_PAGE_RANGE is returned.  A document whose
    declared size is above 50 MiB is refused before anything is fetched:
    the world changes by the one reply. *)
Theorem upload_is_stored_or_refused (env : upload_env) (w : World) :
  ((MAX_FILE_SIZE < file_size env)%Z ->
     handle_pdf env w
     = (Ok UPLOAD_PDF,
        emit (reply_text MsgTooLarge
                [CallbackButton "Provide URL Instead" "url";
                 CallbackButton "Try Another File" "upload"]) w))
  /\ (forall (content : bytes) (pages : list page),
        (file_size env <= MAX_FILE_SIZE)%Z ->
        get_file_ok env = true ->
        download_to_drive env = Saved content ->
        PdfReader_pages content = Some pages ->
        exists w',
          handle_pdf env w = (Ok GET_PAGE_RANGE, w')
          /\ files w' = <[upload_path env := content]> (files w)
          /\ user_data w'
             = <["num_pages" := VInt (Z.of_nat (length pages))]>
                 (<["pdf_path" := VStr (upload_path env)]> (user_data w))
          /\ file_tokens w' = file_tokens w
          /\ trace w'
             = trace w ++ [reply_text MsgDownloadingUpload [];
                           edit_text MsgAnalyzingUpload [];
                           edit_text (MsgReceived (Z.of_nat (length pages))) []]).
Proof.
  split.
  - intros Hsize. unfold handle_pdf.
    destruct (Z.ltb_spec MAX_FILE_SIZE (file_size env)); [reflexivity|lia].
  - intros content pages Hsize Hget Hsaved Hpages. eexists. split.
    + apply (handle_pdf_accepts env w content pages); assumption.
    + simpl. auto.
Qed.

(** X18.  Whether a stored upload can be found again depends on its
    name alone: it is among the stored PDFs that the listing offers and
    that /clear_pdfs deletes exactly when its bare name ends in .pdf, in
    lower case, and does not start with a dot.  An upload stored under
    another name is kept by /clear_pdfs confirm. *)
Theorem stored_upload_is_listed_by_its_suffix (env : upload_env) (w : World)
    (content : bytes) (pages : list page) (name : string) :
  (file_size env <= MAX_FILE_SIZE)%Z ->
  get_file_ok env = true ->
  download_to_drive env = Saved content ->
  PdfReader_pages content = Some pages ->
  upload_path env = "stored_pdfs/" +:+ name ->
  Py.contains "/" name = false ->
  let w' := snd (handle_pdf env w) in
  let listed := negb (Py.startswith "." name) && Py.endswith ".pdf" name in
  (upload_path env ∈ glob_stored_pdfs w' <-> listed = true)
  /\ files (snd (clear_stored_pdfs ["confirm"] w')) !! upload_path env
     = if listed then None else Some content.
Proof.
  intros Hsize Hget Hsaved Hpages Hname Hbare w' listed. subst w'.
  rewrite (handle_pdf_accepts env w content pages) by assumption. cbn [snd].
  match goal with |- context [glob_stored_pdfs ?x] => set (w1 := x) end.
  assert (Hf : files w1 !! upload_path env = Some content).
  { unfold w1. simpl. apply lookup_insert_eq. }
  clearbody w1.
  assert (Hs : is_stored_pdf (upload_path env) = listed).
  { rewrite Hname. unfold is_stored_pdf.
    change (Py.startswith "stored_pdfs/" ("stored_pdfs/" +:+ name)) with true.
    change (Py.slice_from 12 ("stored_pdfs/" +:+ name)) with name.
    cbv zeta. rewrite Hbare. reflexivity. }
  split.
  - rewrite elem_of_glob_stored_pdfs, Hs, Hf. split; [tauto|eauto].
  - rewrite clear_stored_pdfs_run. unfold emit, emits, set_files. cbn [snd files].
    rewrite lookup_cleared, Hs, Hf. reflexivity.
Qed.

(** ** What a link serves *)


(** ** Substrings *)

Lemma startswith_app_l (p x y : string) :
  Py.startswith p x = true -> Py.startswith p (x +:+ y) = true.
Proof.
  revert x. induction p as [|a p IH]; intros x H; [reflexivity|].
  destruct x as [|b x]; [discriminate|]. rewrite append_cons. simpl in *.
  destruct (Ascii.eqb a b); [apply IH; exact H|discriminate].
Qed.

Lemma contains_app_l (sub x y : string) :
  Py.contains sub x = true -> Py.contains sub (x +:+ y) = true.
Proof.
  induction x as [|c x IH]; intros H.
  - apply contains_startswith. simpl in H. rewrite orb_false_r in H.
    destruct sub; [reflexivity|discriminate].
  - rewrite append_cons, contains_cons. rewrite contains_cons in H.
    apply orb_true_iff in H as [H|H].
    + rewrite <- append_cons, (startswith_app_l _ _ _ H). reflexivity.
    + rewrite (IH H). apply orb_true_r.
Qed.

Lemma contains_after_prefix (pre sub s : string) :
  Py.startswith (pre +:+ sub) s = true -> Py.contains sub s = true.
Proof.
  revert s. induction pre as [|a pre IH]; intros s H.
  - apply contains_startswith. exact H.
  - rewrite append_cons in H. destruct s as [|b s]; [discriminate|]. simpl in H.
    destruct (Ascii.eqb a b); [|discriminate].
    rewrite contains_cons, (IH _ H). apply orb_true_r.
Qed.

(** ** The listing of the stored documents *)

Lemma stored_pdf_bare (p : string) :
  is_stored_pdf p = true ->
  exists name, p = "stored_pdfs/" +:+ name /\ Py.contains "/" name = false.
Proof.
  unfold is_stored_pdf. cbv zeta.
  intros [Hpre [[Hbare%negb_true_iff _]%andb_true_iff _]%andb_true_iff]%andb_true_iff.
  exists (Py.slice_from 12 p). split; [|exact Hbare].
  symmetry. apply (startswith_slice "stored_pdfs/" p Hpre).
Qed.

(** X22.  When stored PDFs exist, the listing offers one button for each
    of the first ten of them, followed by the Back button, and returns
    SELECT_LOCAL_PDF.  The data of each of these buttons is select_pdf:
    followed by the basename of a stored PDF, and the path that the press
    of the button is resolved to is the path of that very file. *)
Theorem listing_offers_stored_pdfs (w : World) :
  glob_stored_pdfs w <> [] ->
  exists keyboard : list button,
    list_local_pdfs true false w
    = (Ok SELECT_LOCAL_PDF,
       emits [answer;
              edit_text MsgSelectPdf (keyboard ++ [CallbackButton "Back" "back_to_start"])]
         w)
    /\ length keyboard = Nat.min 10 (length (glob_stored_pdfs w))
    /\ Forall (fun b => exists label p,
                 p ∈ glob_stored_pdfs w
                 /\ b = CallbackButton label ("select_pdf:" +:+ Py.basename p)
                 /\ os_path_join PDF_STORAGE_DIR
                      (Py.slice_from 11 ("select_pdf:" +:+ Py.basename p)) = p)
         keyboard.
Proof.
  intros Hne. unfold list_local_pdfs. run_m.
  change (glob_stored_pdfs (emits [answer] w)) with (glob_stored_pdfs w).
  destruct (glob_stored_pdfs w) as [|x xs] eqn:Hglob; [congruence|].
  rewrite <- Hglob.
  exists ((fun pdf_path => CallbackButton (Py.basename pdf_path)
                             ("select_pdf:" +:+ Py.basename pdf_path))
            <$> take 10 (glob_stored_pdfs w)).
  split; [|split].
  - (rewrite emits_emits; reflexivity).
  - (rewrite length_fmap, length_take; reflexivity).
  - apply Forall_fmap, Forall_forall. intros p Hp%elem_of_take.
    destruct Hp as (i & Hp%list_elem_of_lookup_2 & _).
    exists (Py.basename p), p. split; [exact Hp|]. split; [reflexivity|].
    apply elem_of_glob_stored_pdfs in Hp as [Hs _].
    destruct (stored_pdf_bare p Hs) as (name & -> & Hbare).
    assert (Hbase : Py.basename ("stored_pdfs/" +:+ name) = name)
      by apply (basename_app "stored_pdfs" name Hbare).
    rewrite Hbase.
    change (Py.slice_from 11 ("select_pdf:" +:+ name)) with name.
    apply stored_path. exact Hbare.
Qed.

End Properties.

(** * Start-up and delivery *)

Section Startup.

Context {page bytes : Type} {bs : ByteString bytes} {codec : DocumentCodec page bytes}
        {urls : UrlParser}.

(** X20.  When the PUBLIC_URL variable is unset, empty or starts with
    http://localhost or http://127.0.0.1, and the detection of the public
    address raises (the metadata request raises, in which case ipify is
    not asked at all, or it is answered with another status than 200 and
    the request to ipify raises), the base of the links stays a local one:
    every link the bot builds is refused by the delivery, so that every
    output above 50 MiB ends with the configuration error and
    UPLOAD_PDF. *)
Theorem undetected_address_refuses_every_link (public_url_env : option string)
    (s : ip_services) (env : range_env) :
  match public_url_env with
  | None => True
  | Some u => u = "" \/ Py.startswith "http://localhost" u = true
              \/ Py.startswith "http://127.0.0.1" u = true
  end ->
  aws_metadata s = None
  \/ (exists status text, aws_metadata s = Some (status, text)
                          /\ status <> 200%Z /\ ipify s = None) ->
  let cfg := startup_config public_url_env s in
  is_loopback (link (cfg := cfg) env) = true
  /\ forall (input output_path : string) (start_page end_page : Z)
            (w : @World bytes) (output : bytes),
       files w !! output_path = Some output ->
       (MAX_FILE_SIZE < b_len output)%Z ->
       fst (deliver (cfg := cfg) env input output_path start_page end_page w)
       = Ok (Some UPLOAD_PDF).
Proof.
  intros Henv Hip cfg.
  assert (Hnone : get_public_ip s = (None, [(WARNING, LogNoPublicIp)])).
  { unfold get_public_ip.
    destruct Hip as [->|(status & text & -> & Hs & ->)]; [reflexivity|].
    destruct (Z.eqb_spec status 200); [contradiction|reflexivity]. }
  assert (Hlocal : is_loopback (link (cfg := cfg) env) = true).
  { unfold is_loopback, link, cfg, startup_config, PUBLIC_URL, configure_public_url.
    cbv zeta. rewrite Hnone.
    destruct public_url_env as [u|]; cbn [default]; unfold id.
    - destruct (String.eqb_spec u "") as [->|Hne].
      + reflexivity.
      + destruct Henv as [?|[Hl|Hl]]; [contradiction| |]; rewrite Hl.
        * rewrite ?orb_true_r. cbn [fst orb].
          rewrite (contains_app_l "localhost" u);
            [reflexivity|apply (contains_after_prefix "http://"); exact Hl].
        * rewrite ?orb_true_r. cbn [fst orb].
          rewrite (contains_app_l "127.0.0.1" u);
            [apply orb_true_r|apply (contains_after_prefix "http://"); exact Hl].
    - reflexivity. }
  split; [exact Hlocal|].
  intros input output_path start_page end_page w output Hf Hsize.
  rewrite (deliver_cases (cfg := cfg) env input output_path start_page end_page w output Hf).
  destruct (Z.leb_spec (b_len output) MAX_FILE_SIZE); [lia|].
  rewrite Hlocal. reflexivity.
Qed.

End Startup.

(** ** Runs of the model *)

Module Runs.
Import Sample.

(** *** An extraction of 19 pages *)

(** C6.  The pages 1 to 19 of a document of 19 pages: the interval is
    max(1, 19 // 10) = 1, and a progress edit is made after each of the
    pages at index 1 to 18, that is 18 times and not at most 10 times. *)
Lemma nineteen_pages_eighteen_reports :
  Z.max 1 ((19 - 1 + 1) / 10) = 1%Z
  /\ length (filter (fun e => is_progress e = true)
               (trace (snd (process_page_range (env_of "1-19") (with_doc 19)))))
     = 18%nat.
Proof. split; vm_compute; reflexivity. Qed.

(** *** A slow download *)

(** C7.  After the first chunk, 11 s into the download, the message is
    updated, and [last_update_time] becomes the 1048576 bytes downloaded.
    After the second chunk, 19 s later, nothing is sent: the fraction has
    advanced by one point, and the test on the time compares 30 s minus
    1048576 with 10. *)
Lemma no_update_after_nineteen_seconds :
  filter (fun e => is_downloading e = true)
    (trace (snd (button_handler (bs := mebibytes) slow_download confirmed)))
  = [edit_text (MsgDownloading 1048576 104857600) []]
  /\ update_due 104857600 1048576 0 11 0 = true
  /\ update_due 104857600 2097152 1048576 30 0 = false.
Proof. repeat split; vm_compute; reflexivity. Qed.

(** *** The theorems at concrete inputs *)

(** Pages 2 to 3 of a document of five pages. *)
Lemma extract_output_pages_run :
  exists (es : list event) (out : list page),
    extract (env_of "2-3") "stored_pdfs/a.pdf" "/tmp/out.pdf" 2 3 (with_doc 5)
    = (Ok None, set_files <["/tmp/out.pdf" := PdfWriter_write out]> (emits es (with_doc 5)))
    /\ Z.of_nat (length out) = (3 - 2 + 1)%Z
    /\ forall i : nat, (Z.of_nat i < 3 - 2 + 1)%Z ->
         is_Some (out !! i) /\ out !! i = doc 5 !! Z.to_nat (2 - 1 + Z.of_nat i).
Proof.
  apply (extract_output_pages (env_of "2-3") "stored_pdfs/a.pdf" "/tmp/out.pdf" 2 3
           (with_doc 5) (doc 5) (doc 5)).
  - reflexivity.
  - reflexivity.
  - lia.
  - simpl. lia.
Defined.

(** The range 5-2 on a document of ten pages, in ASCII and in
    Arabic-Indic digits. *)
Lemma out_of_bounds_range_is_refused_run :
  process_page_range (env_of "5-2") (with_doc 10)
  = (Ok GET_PAGE_RANGE,
     emit (edit_text (MsgInvalidRange (VInt 10)) [])
       (emit (reply_text MsgValidating []) (with_doc 10)))
  /\ process_page_range (env_of arabic_5_2) (with_doc 10)
     = (Ok GET_PAGE_RANGE,
        emit (edit_text (MsgInvalidRange (VInt 10)) [])
          (emit (reply_text MsgValidating []) (with_doc 10))).
Proof.
  split.
  - apply (out_of_bounds_range_is_refused (env_of "5-2") (with_doc 10) 5 2 10).
    + reflexivity.
    + reflexivity.
    + unfold out_of_bounds. lia.
  - apply (out_of_bounds_range_is_refused (env_of arabic_5_2) (with_doc 10) 5 2 10).
    + vm_compute. reflexivity.
    + reflexivity.
    + unfold out_of_bounds. lia.
Defined.

(** What [int] takes for a number: digits of any script and the blanks
    of Unicode around them, but not the separators FS..US, which [strip]
    removes at the ends of the message only. *)
Lemma numbers_as_int_reads_them :
  parse_page_range (Py.strip arabic_2_3) = Some (2, 3)%Z
  /\ parse_page_range (Py.strip nbsp_1_3) = Some (1, 3)%Z
  /\ parse_page_range (Py.strip fs_5_2) = None
  /\ process_page_range (env_of fs_5_2) (with_doc 10)
     = (Ok GET_PAGE_RANGE,
        emit (edit_text MsgInvalidFormat [])
          (emit (reply_text MsgValidating []) (with_doc 10))).
Proof. repeat split; vm_compute; reflexivity. Qed.

(** The range 1-3 in a session without a document, plain and after a
    no-break space. *)
Lemma no_page_count_no_extraction_run :
  process_page_range (env_of "1-3") world0
  = (Ok GET_PAGE_RANGE,
     emit (edit_text (MsgInvalidRange (VInt 0)) [])
       (emit (reply_text MsgValidating []) world0))
  /\ process_page_range (env_of nbsp_1_3) world0
     = (Ok GET_PAGE_RANGE,
        emit (edit_text (MsgInvalidRange (VInt 0)) [])
          (emit (reply_text MsgValidating []) world0)).
Proof.
  split.
  - apply (no_page_count_no_extraction (env_of "1-3") world0 1 3).
    + reflexivity.
    + reflexivity.
    + lia.
  - apply (no_page_count_no_extraction (env_of nbsp_1_3) world0 1 3).
    + reflexivity.
    + vm_compute. reflexivity.
    + lia.
Defined.

(** A request 100 s after the token was issued, one a second after its
    expiry, and one for a token that was never issued. *)
Lemma download_until_expiry_run :
  download_file "t1" 100 issued = send_file [7] true "a.pdf" "application/pdf"
  /\ download_file "t1" 86401 issued = abort 404
  /\ download_file "t2" 100 issued = abort 404.
Proof.
  destruct (download_until_expiry "web_serve/u1_a.pdf" "a.pdf" None "t1" 0 100
              with_copy issued) as (_ & Hlive & _).
  destruct (download_until_expiry "web_serve/u1_a.pdf" "a.pdf" None "t1" 0 86401
              with_copy issued) as (_ & Hdead & _).
  destruct (download_until_expiry "web_serve/u1_a.pdf" "a.pdf" None "t2" 0 100
              with_copy issued) as (_ & _ & Hnone).
  split; [|split].
  - apply (proj1 (Hlive eq_refl)); [|reflexivity].
    vm_compute. discriminate.
  - apply (proj1 (proj2 (Hdead eq_refl))). vm_compute. reflexivity.
  - apply Hnone. reflexivity.
Defined.

(** C3 as stated fails at the deadline: a request made at the very moment
    of the expiry, so with now >= expire_time, is served. *)
Lemma served_at_the_deadline :
  (exists t, file_tokens issued !! "t1" = Some t /\ (expire_time t <= 86400)%Q)
  /\ download_file "t1" 86400 issued = send_file [7] true "a.pdf" "application/pdf"
  /\ download_file "t1" 86400 issued <> abort 404.
Proof.
  split; [|split].
  - eexists. split; [reflexivity|]. vm_compute. discriminate.
  - vm_compute. reflexivity.
  - vm_compute. discriminate.
Qed.

(** A header that names the file, and a URL alone. *)
Lemma filename_from_header_else_url_run :
  get_filename_from_url "https://example.org/y/report.PDF"
    (Some "attachment; filename=notes.pdf") = Ok "notes.pdf"
  /\ get_filename_from_url "https://example.org/y/report.PDF" None
     = Ok "report.PDF"
  /\ get_filename_from_url "https://example.org" None = Ok "document.pdf"
  /\ get_filename_from_url "https://example.org/y/report" None
     = Ok "report.pdf".
Proof.
  split; [|split; [|split]].
  - apply (proj1 (filename_from_header_else_url
                    "https://example.org/y/report.PDF"
                    (Some "attachment; filename=notes.pdf"))
             "attachment; " "" "notes.pdf" "").
    + reflexivity.
    + reflexivity.
    + right. split; [reflexivity|]. left. discriminate.
    + reflexivity.
    + left. reflexivity.
  - apply (proj2 (filename_from_header_else_url
                    "https://example.org/y/report.PDF" None) "/y/report.PDF").
    + left. reflexivity.
    + reflexivity.
  - apply (proj2 (filename_from_header_else_url
                    "https://example.org" None) "").
    + left. reflexivity.
    + reflexivity.
  - apply (proj2 (filename_from_header_else_url
                    "https://example.org/y/report" None) "/y/report").
    + left. reflexivity.
    + reflexivity.
Defined.

(** C4 as stated fails on a header that names a file without the suffix:
    the name is returned as it is, and does not end in .pdf. *)
Lemma header_name_keeps_its_suffix :
  get_filename_from_url "https://example.org/y/report.pdf"
    (Some "attachment; filename=notes.txt") = Ok "notes.txt"
  /\ Py.endswith ".pdf" (Py.lower "notes.txt") = false.
Proof. split; reflexivity. Qed.

Lemma delivery_by_size_run :
  deliver (env_of "2") "stored_pdfs/a.pdf" "/tmp/out.pdf" 2 2 (with_output [2])
  = (Ok None,
     emits [edit_text MsgSending [];
            reply_document [2] "a_pages_2_to_2.pdf" (MsgCaption 2 2)] (with_output [2]))
  /\ deliver (env_of "2-3") "stored_pdfs/a.pdf" "/tmp/out.pdf" 2 3
       (with_output [2; 3])
     = (Ok None,
        emits [edit_text (MsgExceedsLimit 60) [];
               Timer_start 86400 "t1";
               logged INFO (LogGeneratedUrl "http://203.0.113.7:8000/download/t1");
               reply_text (MsgReady 2 3 60)
                 [UrlButton "Download PDF" "http://203.0.113.7:8000/download/t1"]]
          (served (env_of "2-3") "stored_pdfs/a.pdf" 2 3 [2; 3] (with_output [2; 3])))
  /\ deliver (cfg := local_config) (env_of "2-3") "stored_pdfs/a.pdf" "/tmp/out.pdf" 2 3
       (with_output [2; 3])
     = (Ok (Some UPLOAD_PDF),
        emits [edit_text (MsgExceedsLimit 60) [];
               Timer_start 86400 "t1";
               logged INFO (LogGeneratedUrl "http://localhost:8000/download/t1");
               logged ERROR (LogInvalidUrl "http://localhost:8000/download/t1");
               edit_text MsgNotConfigured []]
          (served (env_of "2-3") "stored_pdfs/a.pdf" 2 3 [2; 3] (with_output [2; 3]))).
Proof.
  split; [|split].
  - etransitivity.
    + apply (proj1 (delivery_by_size (env_of "2") "stored_pdfs/a.pdf"
                      "/tmp/out.pdf" 2 2 (with_output [2]) [2] eq_refl)).
      vm_compute. discriminate.
    + reflexivity.
  - etransitivity.
    + apply (proj2 (proj2 (delivery_by_size (env_of "2-3") "stored_pdfs/a.pdf"
                             "/tmp/out.pdf" 2 3 (with_output [2; 3]) [2; 3] eq_refl))).
      * vm_compute. reflexivity.
      * reflexivity.
    + vm_compute. reflexivity.
  - etransitivity.
    + apply (proj1 (proj2 (delivery_by_size (cfg := local_config) (env_of "2-3")
                             "stored_pdfs/a.pdf" "/tmp/out.pdf" 2 3
                             (with_output [2; 3]) [2; 3] eq_refl))).
      * vm_compute. reflexivity.
      * reflexivity.
    + vm_compute. reflexivity.
Defined.

(** C5 as stated fails for a loopback or placeholder address that is not
    written as localhost or 127.0.0.1: with PUBLIC_URL set to the IPv6
    loopback address, or to the address the server listens on, the start-up
    keeps that value and an output of 60 MiB is answered with a link to it. *)
Lemma loopback_link_is_handed_out :
  let ipv6 := startup_config (Some "http://[::1]:8000") no_metadata in
  let any := startup_config (Some "http://0.0.0.0:8000") no_metadata in
  @PUBLIC_URL ipv6 = "http://[::1]:8000"
  /\ deliver (cfg := ipv6) (env_of "2-3") "stored_pdfs/a.pdf" "/tmp/out.pdf" 2 3
       (with_output [2; 3])
     = (Ok None,
        emits [edit_text (MsgExceedsLimit 60) [];
               Timer_start 86400 "t1";
               logged INFO (LogGeneratedUrl "http://[::1]:8000/download/t1");
               reply_text (MsgReady 2 3 60)
                 [UrlButton "Download PDF" "http://[::1]:8000/download/t1"]]
          (served (env_of "2-3") "stored_pdfs/a.pdf" 2 3 [2; 3] (with_output [2; 3])))
  /\ @PUBLIC_URL any = "http://0.0.0.0:8000"
  /\ deliver (cfg := any) (env_of "2-3") "stored_pdfs/a.pdf" "/tmp/out.pdf" 2 3
       (with_output [2; 3])
     = (Ok None,
        emits [edit_text (MsgExceedsLimit 60) [];
               Timer_start 86400 "t1";
               logged INFO (LogGeneratedUrl "http://0.0.0.0:8000/download/t1");
               reply_text (MsgReady 2 3 60)
                 [UrlButton "Download PDF" "http://0.0.0.0:8000/download/t1"]]
          (served (env_of "2-3") "stored_pdfs/a.pdf" 2 3 [2; 3] (with_output [2; 3]))).
Proof. repeat split; vm_compute; reflexivity. Qed.

Lemma failed_upload_is_removed_run :
  (exists (es : list event) (w' : @World bytes),
     trace w' = trace world0 ++ es
     /\ file_tokens w' = file_tokens world0
     /\ user_data w' !! "num_pages" = user_data world0 !! "num_pages"
     /\ user_data w' = <["pdf_path" := VStr "stored_pdfs/a.pdf"]> (user_data world0)
     /\ handle_pdf not_a_pdf world0 = (Ok UPLOAD_PDF, w')
     /\ files w' = delete "stored_pdfs/a.pdf" (files world0)
     /\ In (edit_text MsgErrorUpload []) es)
  /\ (exists (es : list event) (w' : @World bytes),
        trace w' = trace world0 ++ es
        /\ file_tokens w' = file_tokens world0
        /\ user_data w' !! "num_pages" = user_data world0 !! "num_pages"
        /\ user_data w' = <["pdf_path" := VStr "stored_pdfs/a.pdf"]> (user_data world0)
        /\ handle_pdf not_a_pdf_unreported world0 = (Raise TelegramError, w')
        /\ files w' = <["stored_pdfs/a.pdf" := [0]]> (files world0)
        /\ ~ In (edit_text MsgErrorUpload []) es).
Proof.
  split.
  - apply (failed_upload_is_removed not_a_pdf world0).
    + vm_compute. discriminate.
    + reflexivity.
    + reflexivity.
  - apply (failed_upload_is_removed not_a_pdf_unreported world0).
    + vm_compute. discriminate.
    + reflexivity.
    + reflexivity.
Defined.

(** C8 as stated fails when the upload is saved and then cannot be read:
    the file is removed and UPLOAD_PDF returned, but the session, which
    held nothing, now records the path of the removed file. *)
Lemma removed_upload_stays_recorded :
  fst (handle_pdf not_a_pdf world0) = Ok UPLOAD_PDF
  /\ files (snd (handle_pdf not_a_pdf world0)) !! "stored_pdfs/a.pdf" = None
  /\ user_data world0 !! "pdf_path" = None
  /\ user_data (snd (handle_pdf not_a_pdf world0)) !! "pdf_path"
     = Some (VStr "stored_pdfs/a.pdf").
Proof. repeat split; vm_compute; reflexivity. Qed.

Lemma extraction_only_after_validation_run :
  let w := run [start_command; document_message one_page] world0 in
  let asked := emit (reply_text MsgValidating []) w in
  (user_data w !! "pending_range" = None
   /\ ((exists m, process_page_range (env_of "yes") w
                  = (Ok GET_PAGE_RANGE, emit (edit_text m []) asked))
       \/ (exists start_page end_page n,
             parse_page_range (Py.strip (message_text (env_of "yes")))
             = Some (start_page, end_page)
             /\ recorded_num_pages w = VInt n
             /\ (1 <= start_page <= end_page)%Z /\ (end_page <= n)%Z
             /\ process_page_range (env_of "yes") w
                = split_and_send (env_of "yes") start_page end_page asked)))
  /\ (user_data w !! "pending_range" = None
      /\ ((exists m, process_page_range (env_of arabic_2_3) w
                     = (Ok GET_PAGE_RANGE, emit (edit_text m []) asked))
          \/ (exists start_page end_page n,
                parse_page_range (Py.strip (message_text (env_of arabic_2_3)))
                = Some (start_page, end_page)
                /\ recorded_num_pages w = VInt n
                /\ (1 <= start_page <= end_page)%Z /\ (end_page <= n)%Z
                /\ process_page_range (env_of arabic_2_3) w
                   = split_and_send (env_of arabic_2_3) start_page end_page asked))).
Proof.
  split.
  - apply (extraction_only_after_validation
             [start_command; document_message one_page] world0 (env_of "yes")).
    reflexivity.
  - apply (extraction_only_after_validation
             [start_command; document_message one_page] world0 (env_of arabic_2_3)).
    reflexivity.
Defined.

(** *** More of the handlers, at concrete inputs *)

(** Pages 2 to 3 of a stored document of five pages: the document is as
    it was. *)
Lemma range_request_keeps_other_files_run :
  files (snd (process_page_range (env_of "2-3") (with_doc 5))) !! "stored_pdfs/a.pdf"
  = files (with_doc 5) !! "stored_pdfs/a.pdf".
Proof.
  apply (range_request_keeps_other_files (env_of "2-3") (with_doc 5) "stored_pdfs/a.pdf").
  - reflexivity.
  - discriminate.
  - reflexivity.
Defined.

(** The button of [a.pdf], pressed while that file holds three pages. *)
Lemma stored_name_selects_its_file_run :
  button_handler select_a (with_doc 3)
  = (Ok GET_PAGE_RANGE,
     emits [answer; edit_text MsgAnalyzingSelected [];
            edit_text (MsgSelected "a.pdf" (Z.of_nat (length (doc 3)))) []]
       (set_user_data
          (fun ud => <["num_pages" := VInt (Z.of_nat (length (doc 3)))]>
                       (<["pdf_path" := VStr ("stored_pdfs/" +:+ "a.pdf")]> ud))
          (with_doc 3))).
Proof.
  apply (stored_name_selects_its_file select_a "a.pdf" (with_doc 3) (doc 3) (doc 3)).
  - reflexivity.
  - reflexivity.
  - reflexivity.
  - reflexivity.
Defined.

(** A sweep at time 90000 removes the copy written at time 0; the token
    issued for it at time 0 is still registered and is answered with 404,
    also at a time before its expiry. *)
Lemma swept_copy_is_not_served_run :
  download_file "t1" 100 (snd (cleanup_expired_files written_at_0 90000 issued))
  = abort 404.
Proof.
  apply (proj1 (swept_copy_is_not_served written_at_0 90000 issued "t1" token_t1 100
                  ltac:(vm_compute; reflexivity))).
  vm_compute. reflexivity.
Defined.

(** Two chunks of 1 MiB appended to a file that holds one byte string. *)
Lemma chunks_are_appended_in_order_run :
  exists (es : list event) (st : Z * Z),
    download_chunks (bs := mebibytes) slow_download "/tmp/out.pdf" 104857600
      [ {| chunk_bytes := [1]; chunk_clock := 11 |};
        {| chunk_bytes := [2]; chunk_clock := 30 |} ] (with_output [9])
    = (Ok (inl st),
       set_files
         <["/tmp/out.pdf" :=
             written (bs := mebibytes) [9]
               [ {| chunk_bytes := [1]; chunk_clock := 11 |};
                 {| chunk_bytes := [2]; chunk_clock := 30 |} ]]>
         (emits es (with_output [9])))
    /\ Forall download_report es
    /\ ((104857600 <= 0)%Z -> es = []).
Proof.
  apply (chunks_are_appended_in_order (bs := mebibytes) slow_download "/tmp/out.pdf"
           104857600 _ (with_output [9]) [9]).
  reflexivity.
Defined.

(** The download whose stream breaks after two chunks. *)
Lemma confirmed_download_ends_or_records_run :
  exists w',
    (button_handler (bs := mebibytes) slow_download confirmed
     = (Ok ConversationHandler_END, w')
     /\ user_data w' = user_data confirmed)
    \/ (exists (response : get_response) (pages : list page),
          button_handler (bs := mebibytes) slow_download confirmed
          = (Ok GET_PAGE_RANGE, w')
          /\ get slow_download = Some response
          /\ raise_for_status_ok response = true
          /\ stream_breaks response = false
          /\ files w'
             = <[download_target confirmed
                 := written (bs := mebibytes) b_empty (iter_content response)]>
                 (files confirmed)
          /\ PdfReader_pages (written (bs := mebibytes) b_empty (iter_content response))
             = Some pages
          /\ user_data w'
             = <["pdf_path" := VStr (download_target confirmed)]>
                 (<["num_pages" := VInt (Z.of_nat (length pages))]>
                    (user_data confirmed))).
Proof.
  apply (confirmed_download_ends_or_records (bs := mebibytes) slow_download confirmed).
  reflexivity.
Defined.

(** A link to a PDF of 1 MiB. *)
Lemma confirmation_follows_the_checks_run :
  exists (response : head_response) (name : string),
    head pdf_link = Some response
    /\ link_accepted (Py.strip (url_text pdf_link)) response
    /\ get_filename_from_url (Py.strip (url_text pdf_link))
         (content_disposition response) = Ok name
    /\ user_data (snd (handle_url pdf_link world0))
       = <["file_name" := VStr name]>
           (<["download_url" := VStr (Py.strip (url_text pdf_link))]>
              (user_data world0))
    /\ files (snd (handle_url pdf_link world0)) = files world0
    /\ file_tokens (snd (handle_url pdf_link world0)) = file_tokens world0.
Proof.
  apply (confirmation_follows_the_checks pdf_link world0
           (snd (handle_url pdf_link world0))).
  vm_compute. reflexivity.
Defined.

(** The upload of a document of one page. *)
Lemma page_range_is_asked_of_a_recorded_document_run :
  document_recorded (snd (handle (document_message one_page) world0)).
Proof.
  apply (page_range_is_asked_of_a_recorded_document (document_message one_page) world0
           (snd (handle (document_message one_page) world0))).
  - intros env. discriminate.
  - vm_compute. reflexivity.
Defined.

Lemma session_data_stay_well_formed_run :
  session_typed (user_data (run [start_command; document_message one_page] world0)).
Proof.
  apply (session_data_stay_well_formed [start_command; document_message one_page] world0).
  reflexivity.
Defined.

Lemma range_request_never_raises_run :
  exists r w',
    process_page_range (env_of "1")
      (run [start_command; document_message one_page] world0) = (r, w')
    /\ match r with
       | Ok st => st = GET_PAGE_RANGE \/ st = UPLOAD_PDF
       | Raise x => x = TelegramError /\ error_edit_delivered (env_of "1") = false
       end.
Proof.
  apply (range_request_never_raises [start_command; document_message one_page] world0
           (env_of "1")).
  reflexivity.
Defined.

(** The one error that leaves the handler: the document on record was
    cleared, the split cannot read it, and Telegram does not take the
    message that says so. *)
Lemma undelivered_error_leaves_the_handler :
  let w := run [start_command; document_message one_page;
                clear_pdfs_command ["confirm"]] world0 in
  fst (process_page_range (env_of "1") w) = Ok UPLOAD_PDF
  /\ fst (process_page_range (unreported "1") w) = Raise TelegramError.
Proof. split; vm_compute; reflexivity. Qed.

(** Pages 1 to 5 of a document that holds two pages only: page 3 is the
    one reported. *)
Lemma missing_page_stops_the_split_run :
  exists (es : list event) (w' : @World bytes),
    split_and_send (env_of "1-5") 1 5 replaced = (Ok GET_PAGE_RANGE, w')
    /\ trace w'
       = trace replaced
         ++ edit_text MsgCreating []
            :: es ++ [logged ERROR (LogErrorAddingPage (Z.max 1 (Z.of_nat (length (doc 2)) + 1)));
                      edit_text (MsgErrorPage (Z.max 1 (Z.of_nat (length (doc 2)) + 1))) []]
    /\ Forall (fun e => is_progress e = true) es
    /\ files w' = <[temp_name (env_of "1-5") := b_empty]> (files replaced)
    /\ user_data w' = user_data replaced /\ file_tokens w' = file_tokens replaced.
Proof.
  apply (missing_page_stops_the_split (env_of "1-5") 1 5 replaced "stored_pdfs/a.pdf"
           (doc 2) (doc 2)).
  - reflexivity.
  - discriminate.
  - reflexivity.
  - reflexivity.
  - lia.
  - simpl. lia.
Defined.

(** Pages 1 to 5 of a document that was deleted. *)
Lemma unreadable_input_ends_the_split_run :
  (exists w' : @World bytes,
     user_data w' = user_data deleted /\ file_tokens w' = file_tokens deleted
     /\ split_and_send (env_of "1-5") 1 5 deleted = (Ok UPLOAD_PDF, w')
     /\ trace w'
        = trace deleted ++ [edit_text MsgCreating [];
                            logged ERROR (LogErrorProcessing FileNotFoundError);
                            edit_text (MsgErrorProcessing FileNotFoundError) []]
     /\ files w' = delete "/tmp/out.pdf" (files deleted))
  /\ (exists w' : @World bytes,
        user_data w' = user_data deleted /\ file_tokens w' = file_tokens deleted
        /\ split_and_send (unreported "1-5") 1 5 deleted = (Raise TelegramError, w')
        /\ trace w'
           = trace deleted ++ [edit_text MsgCreating [];
                               logged ERROR (LogErrorProcessing FileNotFoundError)]
        /\ files w' = <["/tmp/out.pdf" := b_empty]> (files deleted)).
Proof.
  split.
  - apply (unreadable_input_ends_the_split (env_of "1-5") 1 5 deleted "stored_pdfs/a.pdf").
    + reflexivity.
    + discriminate.
    + vm_compute. exact I.
  - apply (unreadable_input_ends_the_split (unreported "1-5") 1 5 deleted
             "stored_pdfs/a.pdf").
    + reflexivity.
    + discriminate.
    + vm_compute. exact I.
Defined.

(** An upload while the token [t1] is registered. *)
Lemma link_outlives_the_conversation_run :
  download_file "t1" 100 (snd (on_update (document_message one_page) issued))
  = download_file "t1" 100 issued.
Proof.
  apply (link_outlives_the_conversation (document_message one_page) issued "t1"
           token_t1 100).
  - vm_compute. reflexivity.
  - reflexivity.
  - exact I.
Defined.

(** An upload named in capitals is stored, is not among the stored PDFs
    and is kept by /clear_pdfs confirm. *)
Lemma stored_upload_is_listed_by_its_suffix_run :
  (upload_path capitals ∈ glob_stored_pdfs (snd (handle_pdf capitals world0))
   <-> negb (Py.startswith "." "SCAN.PDF") && Py.endswith ".pdf" "SCAN.PDF" = true)
  /\ files (snd (clear_stored_pdfs ["confirm"] (snd (handle_pdf capitals world0))))
       !! upload_path capitals
     = if negb (Py.startswith "." "SCAN.PDF") && Py.endswith ".pdf" "SCAN.PDF"
       then None else Some (doc 1).
Proof.
  apply (stored_upload_is_listed_by_its_suffix capitals world0 (doc 1) (doc 1) "SCAN.PDF").
  - vm_compute. discriminate.
  - reflexivity.
  - reflexivity.
  - reflexivity.
  - reflexivity.
  - reflexivity.
Defined.


(** PUBLIC_URL set to a local address on a host whose metadata request
    raises. *)
Lemma undetected_address_refuses_every_link_run :
  is_loopback
    (link (cfg := startup_config (Some "http://localhost:8000") no_metadata)
       (env_of "2-3")) = true
  /\ forall (input output_path : string) (start_page end_page : Z)
            (w : @World bytes) (output : bytes),
       files w !! output_path = Some output ->
       (MAX_FILE_SIZE < b_len output)%Z ->
       fst (deliver (cfg := startup_config (Some "http://localhost:8000") no_metadata)
              (env_of "2-3") input output_path start_page end_page w)
       = Ok (Some UPLOAD_PDF).
Proof.
  apply (undetected_address_refuses_every_link (Some "http://localhost:8000")
           no_metadata (env_of "2-3")).
  - right. left. reflexivity.
  - left. reflexivity.
Defined.

(** Page 2 of a stored document of five pages, and its page 3 asked
    for in an Arabic-Indic digit. *)
Lemma valid_range_is_sent_run :
  (exists es,
     process_page_range (env_of "2") (with_doc 5)
     = (Ok UPLOAD_PDF,
        set_files (delete (temp_name (env_of "2")))
          (emits ([reply_text MsgValidating []; edit_text MsgCreating []]
                  ++ es
                  ++ [edit_text MsgFinalizing [];
                      edit_text MsgSending [];
                      reply_document (PdfWriter_write (selected (doc 5) 2 2))
                        (output_name "stored_pdfs/a.pdf" 2 2) (MsgCaption 2 2);
                      reply_text MsgWhatNext
                        [CallbackButton "Split another PDF" "back_to_start";
                         CallbackButton "Use same PDF"
                           ("select_pdf:" +:+ Py.basename "stored_pdfs/a.pdf");
                         CallbackButton "Exit" "cancel_download"]]) (with_doc 5)))
     /\ Forall (fun e => is_progress e = true) es)
  /\ (exists es,
        process_page_range (env_of arabic_3) (with_doc 5)
        = (Ok UPLOAD_PDF,
           set_files (delete (temp_name (env_of arabic_3)))
             (emits ([reply_text MsgValidating []; edit_text MsgCreating []]
                     ++ es
                     ++ [edit_text MsgFinalizing [];
                         edit_text MsgSending [];
                         reply_document (PdfWriter_write (selected (doc 5) 3 3))
                           (output_name "stored_pdfs/a.pdf" 3 3) (MsgCaption 3 3);
                         reply_text MsgWhatNext
                           [CallbackButton "Split another PDF" "back_to_start";
                            CallbackButton "Use same PDF"
                              ("select_pdf:" +:+ Py.basename "stored_pdfs/a.pdf");
                            CallbackButton "Exit" "cancel_download"]]) (with_doc 5)))
        /\ Forall (fun e => is_progress e = true) es).
Proof.
  split.
  - apply (valid_range_is_sent (env_of "2") (with_doc 5) "stored_pdfs/a.pdf" (doc 5)
             (doc 5) 2 2 5).
    + reflexivity.
    + reflexivity.
    + lia.
    + lia.
    + simpl. lia.
    + reflexivity.
    + discriminate.
    + reflexivity.
    + reflexivity.
    + vm_compute. discriminate.
  - apply (valid_range_is_sent (env_of arabic_3) (with_doc 5) "stored_pdfs/a.pdf"
             (doc 5) (doc 5) 3 3 5).
    + vm_compute. reflexivity.
    + reflexivity.
    + lia.
    + lia.
    + simpl. lia.
    + reflexivity.
    + discriminate.
    + reflexivity.
    + reflexivity.
    + vm_compute. discriminate.
Defined.

(** The listing while [a.pdf] is stored. *)
Lemma listing_offers_stored_pdfs_run :
  exists keyboard : list button,
    list_local_pdfs true false (with_doc 3)
    = (Ok SELECT_LOCAL_PDF,
       emits [answer;
              edit_text MsgSelectPdf (keyboard ++ [CallbackButton "Back" "back_to_start"])]
         (with_doc 3))
    /\ length keyboard = Nat.min 10 (length (glob_stored_pdfs (with_doc 3)))
    /\ Forall (fun b => exists label p,
                 p ∈ glob_stored_pdfs (with_doc 3)
                 /\ b = CallbackButton label ("select_pdf:" +:+ Py.basename p)
                 /\ os_path_join PDF_STORAGE_DIR
                      (Py.slice_from 11 ("select_pdf:" +:+ Py.basename p)) = p)
         keyboard.
Proof.
  apply (listing_offers_stored_pdfs (with_doc 3)).
  vm_compute. discriminate.
Defined.

End Runs.
